(** * AML Assistant: risk-analysis orchestration engine

    A shallow embedding of the Python sources
      - src/core/core_config.py      (ConfigManager)
      - src/ai/intelligent_engine.py (IntelligentAIEngine and the local providers)
      - src/integration/bank_system.py (BankSystemInterface, SimulationSystem, ...)
      - src/core/aml_assistant.py    (UltimateAMLAssistant)
    followed by the properties of the orchestration engine.

    Conventions.
    - A Python dict read with [.get(key, default)] is a record of [option]
      fields: [None] is an absent key.
    - A Python value that may be the object [None] is an [option]; which of
      the two readings applies is said at each definition.
    - Python floats are modelled by exact rationals ([Q]); rounding is not
      modelled.
    - A method that mutates [self] or raises is a computation in the monad
      [M St], a state transformer that returns either a value or the raised
      exception; the state reached when an exception is raised is kept, as in
      Python.
    - [datetime.now()] is a parameter [now] of each request: the clock
      readings taken within one request are modelled as one value, which no
      operation reads back.
    - Logging calls have no effect on any value and are left out. *)

From Stdlib Require Import QArith Qminmax Ascii DecimalString DecimalNat.
From stdpp Require Import gmap strings list.

Local Open Scope string_scope.
Local Open Scope list_scope.

(** ** Exceptions and the state-and-exception monad *)

(** The exception classes that the modelled code can raise, plus
    [ExternalError] for whatever a scoring backend or a data source outside
    this repository raises. *)
Inductive exn : Type :=
| AttributeError  (* attribute access on None *)
| TypeError       (* item assignment on None, len(None) *)
| IndexError      (* pop from empty list *)
| KeyError        (* missing dict key *)
| ExternalError (msg : string).

Inductive outcome (A : Type) : Type :=
| Returned (a : A)
| Raised (e : exn).
Arguments Returned {A} a.
Arguments Raised {A} e.

Definition M (St A : Type) : Type := St → outcome A * St.

Global Instance M_ret {St} : MRet (M St) := λ A a s, (Returned a, s).
Global Instance M_bind {St} : MBind (M St) := λ A B k m s,
  match m s with
  | (Returned a, s') => k a s'
  | (Raised e, s') => (Raised e, s')
  end.

Definition raise {St A} (e : exn) : M St A := λ s, (Raised e, s).
Definition get {St} : M St St := λ s, (Returned s, s).
Definition modify {St} (f : St → St) : M St unit := λ s, (Returned tt, f s).

(** [try: body except Exception: handler] *)
Definition try_except {St A} (body : M St A) (handler : exn → M St A) : M St A :=
  λ s, match body s with
       | (Raised e, s') => handler e s'
       | r => r
       end.

(** Lifting a pure computation that may raise. *)
Definition lift_outcome {St A} (o : outcome A) : M St A := λ s, (o, s).

(** Running a computation on a component of a larger state. *)
Definition zoom {St Sub A} (proj : St → Sub) (inj : Sub → St → St)
    (m : M Sub A) : M St A :=
  λ s, let '(o, sub) := m (proj s) in (o, inj sub s).

(** ** Data model: the dicts that flow through the system *)

(** [transaction_data]: the dict handed to the assistant. *)
Record Transaction : Type := {
  tx_transaction_id : option string;
  tx_customer_id : option string;
  amount : option Q;
  tx_type : option string;
  currency : option string;
  counterparty : option string;
  channel : option string;
  description : option string;
  tx_timestamp : option string
}.

(** A customer profile dict; [{}] is the record with every key absent. *)
Record CustomerProfile : Type := {
  cp_customer_id : option string;
  cp_name : option string;
  risk_tier : option string;
  business_type : option string;
  kyc_status : option string;
  monthly_volume : option Q;
  account_age_days : option Z;
  pep_status : option bool;
  sanctions_match : option bool;
  account_balance : option Q
}.

Definition empty_profile : CustomerProfile :=
  {| cp_customer_id := None; cp_name := None; risk_tier := None;
     business_type := None; kyc_status := None; monthly_volume := None;
     account_age_days := None; pep_status := None; sanctions_match := None;
     account_balance := None |}.

(** The dict a scoring backend returns, which the engine then extends with
    ['ai_provider'], ['confidence'] and ['fallback_used']. *)
Record Assessment : Type := {
  risk_level : option string;
  risk_score : option Q;
  risk_factors : option (list string);
  recommended_actions : option (list string);
  detected_patterns : option (list string);
  confidence : option Q;
  analysis_method : option string;
  ai_provider : option string;
  fallback_used : option bool
}.

Definition set_ai_provider (name : string) (r : Assessment) : Assessment :=
  {| risk_level := risk_level r; risk_score := risk_score r;
     risk_factors := risk_factors r;
     recommended_actions := recommended_actions r;
     detected_patterns := detected_patterns r; confidence := confidence r;
     analysis_method := analysis_method r; ai_provider := Some name;
     fallback_used := fallback_used r |}.

Definition set_confidence (c : Q) (r : Assessment) : Assessment :=
  {| risk_level := risk_level r; risk_score := risk_score r;
     risk_factors := risk_factors r;
     recommended_actions := recommended_actions r;
     detected_patterns := detected_patterns r; confidence := Some c;
     analysis_method := analysis_method r; ai_provider := ai_provider r;
     fallback_used := fallback_used r |}.

Definition set_fallback_used (b : bool) (r : Assessment) : Assessment :=
  {| risk_level := risk_level r; risk_score := risk_score r;
     risk_factors := risk_factors r;
     recommended_actions := recommended_actions r;
     detected_patterns := detected_patterns r; confidence := confidence r;
     analysis_method := analysis_method r; ai_provider := ai_provider r;
     fallback_used := Some b |}.

(** ** core_config.py *)

Module ConfigManager.

(** The entries of [config_manager.config] that the modelled code reads,
    and [OPENAI_API_KEY] from the process environment. *)
Record t : Type := {
  ai_provider_setting : string;        (* config['ai']['provider'] *)
  ai_api_key : option string;          (* config['ai']['api_key'] *)
  ai_model : string;                   (* config['ai']['model'] *)
  high_risk_score : Q;                 (* config['risk']['high_risk_score'] *)
  pattern_memory_size : Z;             (* config['learning']['pattern_memory_size'] *)
  env_openai_api_key : option string   (* os.getenv('OPENAI_API_KEY') *)
}.

Definition default_config : t :=
  {| ai_provider_setting := "auto"; ai_api_key := None; ai_model := "gpt-4";
     high_risk_score := 70; pattern_memory_size := 1000;
     env_openai_api_key := None |}.

(** A string is truthy when it is not empty. *)
Definition truthy (o : option string) : bool :=
  match o with
  | Some s => negb (String.eqb s "")
  | None => false
  end.

Definition _check_local_models : bool := false.

Definition _detect_ai_providers (c : t) : list string :=
  let providers := if truthy (env_openai_api_key c) then ["openai"] else [] in
  let providers := if _check_local_models then providers ++ ["local"] else providers in
  if decide (1 < length providers) then providers ++ ["hybrid"] else providers.

(** The dict returned by [get_ai_config]. *)
Record ai_config : Type := {
  provider : string;
  api_key : option string;
  model : string
}.

Definition get_ai_config (c : t) : ai_config :=
  let provider :=
    if String.eqb (ai_provider_setting c) "auto" then
      match _detect_ai_providers c with
      | p :: _ => p
      | [] => "local"
      end
    else ai_provider_setting c in
  {| provider := provider;
     api_key := if truthy (ai_api_key c) then ai_api_key c else env_openai_api_key c;
     model := ai_model c |}.

End ConfigManager.

(** ** intelligent_engine.py: the scoring backends *)

(** The capability every scoring backend offers: an [analyze] method taking
    the transaction dict and the customer data (which may be the object
    [None]) and either raising or returning a value, which may itself be the
    object [None] (the [option] of the result). *)
Record Provider : Type := {
  analyze : Transaction → option CustomerProfile → outcome (option Assessment)
}.

Module RuleBasedEngine.
Record result : Type := {
  factors : option (list string);
  actions : option (list string)
}.

Definition analyze (transaction_data : Transaction)
    (customer_data : option CustomerProfile) : result :=
  {| factors := Some ["rule_based_factor_1"; "rule_based_factor_2"];
     actions := Some ["action_1"; "action_2"] |}.
End RuleBasedEngine.

Module PatternDetectionEngine.
Record result : Type := {
  patterns : option (list string);
  factors : option (list string)
}.

Definition detect_patterns (transaction_data : Transaction)
    (customer_data : option CustomerProfile) : result :=
  {| patterns := Some ["structuring"; "unusual_behavior"];
     factors := Some ["pattern_based_factor_1"] |}.
End PatternDetectionEngine.

Module RiskCalculationEngine.
Definition calculate_risk (transaction_data : Transaction)
    (customer_data : option CustomerProfile) : Q := 65.
End RiskCalculationEngine.

Module LocalIntelligenceProvider.

(** The dict built by [_fuse_results]. *)
Record fused : Type := {
  f_risk_level : string;
  f_risk_score : Q;
  f_risk_factors : list string;
  f_actions : list string;
  f_confidence : Q
}.

Definition _fuse_results (rule_result : RuleBasedEngine.result)
    (pattern_result : PatternDetectionEngine.result) (risk_score : Q) : fused :=
  {| f_risk_level := "medium";
     f_risk_score := risk_score;
     f_risk_factors :=
       default [] (RuleBasedEngine.factors rule_result)
       ++ default [] (PatternDetectionEngine.factors pattern_result);
     f_actions := default [] (RuleBasedEngine.actions rule_result);
     f_confidence := 0.7 |}.

Definition analyze (transaction_data : Transaction)
    (customer_data : option CustomerProfile) : outcome (option Assessment) :=
  let rule_based_result := RuleBasedEngine.analyze transaction_data customer_data in
  let pattern_result :=
    PatternDetectionEngine.detect_patterns transaction_data customer_data in
  let risk_score :=
    RiskCalculationEngine.calculate_risk transaction_data customer_data in
  let final_result := _fuse_results rule_based_result pattern_result risk_score in
  match PatternDetectionEngine.patterns pattern_result with
  | None => Raised KeyError
  | Some pats =>
      Returned (Some
        {| risk_level := Some (f_risk_level final_result);
           risk_score := Some (f_risk_score final_result);
           risk_factors := Some (f_risk_factors final_result);
           recommended_actions := Some (f_actions final_result);
           detected_patterns := Some pats;
           confidence := Some (f_confidence final_result);
           analysis_method := Some "local_intelligence";
           ai_provider := None;
           fallback_used := None |})
  end.

Definition provider : Provider := Build_Provider analyze.

End LocalIntelligenceProvider.

Module HybridIntelligenceProvider.
(** The body of [analyze] is [pass]: the call returns the object [None].
    The [providers] dict kept by the constructor is never read. *)
Definition analyze (transaction_data : Transaction)
    (customer_data : option CustomerProfile) : outcome (option Assessment) :=
  Returned None.

Definition provider : Provider := Build_Provider analyze.
End HybridIntelligenceProvider.

(** ** intelligent_engine.py: the engine *)

(** An entry of [learning_memory]. [le_timestamp] is the clock reading
    [datetime.now()], supplied by the caller of the model. *)
Record LearningEntry : Type := {
  le_timestamp : string;
  le_transaction : Transaction;
  le_customer : option CustomerProfile;
  le_result : Assessment;
  le_feedback : option Assessment
}.

Definition set_feedback (fb : Assessment) (en : LearningEntry) : LearningEntry :=
  {| le_timestamp := le_timestamp en; le_transaction := le_transaction en;
     le_customer := le_customer en; le_result := le_result en;
     le_feedback := Some fb |}.

(** A Python dict with string keys, in insertion order. *)
Fixpoint dict_get {V} (k : string) (d : list (string * V)) : option V :=
  match d with
  | [] => None
  | (k', v) :: d' => if decide (k' = k) then Some v else dict_get k d'
  end.

Module IntelligentAIEngine.

(** The attributes of the engine. A value of [available_providers] is
    [None] when [_create_openai_provider] returned the object [None].
    [attempts] is not an attribute of the Python object: it records, in
    order, the name of each backend whose [analyze] the engine went to
    call, so that statements can speak of how often a backend is tried. *)
Record t : Type := {
  config : ConfigManager.ai_config;
  available_providers : list (string * option Provider);
  learning_memory : list LearningEntry;
  performance_metrics : gmap string (gmap string Q);
  attempts : list string
}.

Definition set_learning_memory (m : list LearningEntry) (e : t) : t :=
  {| config := config e; available_providers := available_providers e;
     learning_memory := m; performance_metrics := performance_metrics e;
     attempts := attempts e |}.

Definition log_attempt (name : string) (e : t) : t :=
  {| config := config e; available_providers := available_providers e;
     learning_memory := learning_memory e;
     performance_metrics := performance_metrics e;
     attempts := attempts e ++ [name] |}.

Definition _check_openai_availability (c : ConfigManager.ai_config) : bool :=
  match ConfigManager.api_key c with
  | Some k => negb (String.eqb k "") && String.prefix "sk-" k
  | None => false
  end.

(** [providers/openai_provider.py] is not part of the sources:
    [openai_module] is [None] when the import fails and otherwise the
    constructor [OpenAIProvider(api_key, model)]. *)
Definition _create_openai_provider
    (openai_module : option (option string → string → Provider))
    (c : ConfigManager.ai_config) : option Provider :=
  match openai_module with
  | Some ctor => Some (ctor (ConfigManager.api_key c) (ConfigManager.model c))
  | None => None
  end.

Definition _initialize_providers
    (openai_module : option (option string → string → Provider))
    (c : ConfigManager.ai_config) : list (string * option Provider) :=
  let providers :=
    if _check_openai_availability c
    then [("openai", _create_openai_provider openai_module c)] else [] in
  let providers := providers ++ [("local", Some LocalIntelligenceProvider.provider)] in
  if decide (1 < length providers)
  then providers ++ [("hybrid", Some HybridIntelligenceProvider.provider)]
  else providers.

Definition __init__
    (openai_module : option (option string → string → Provider))
    (cm : ConfigManager.t) : t :=
  let c := ConfigManager.get_ai_config cm in
  {| config := c;
     available_providers := _initialize_providers openai_module c;
     learning_memory := [];
     performance_metrics := ∅;
     attempts := [] |}.

Definition _calculate_confidence (e : t) (result : Assessment) : Q :=
  let base_confidence := default 0.5%Q (confidence result) in
  let provider := default "local" (ai_provider result) in
  let provider_performance :=
    default 0.8%Q (default ∅ (performance_metrics e !! provider) !! "accuracy") in
  let risk_factors := length (default [] (risk_factors result)) in
  let complexity_factor := Qmin (inject_Z (Z.of_nat risk_factors) / 10) 1.0 in
  let final_confidence :=
    (base_confidence * 0.6 + provider_performance * 0.3 + complexity_factor * 0.1)%Q in
  Qmin final_confidence 1.0.

Definition _store_analysis_result (cm : ConfigManager.t) (now : string)
    (transaction_data : Transaction) (customer_data : option CustomerProfile)
    (result : Assessment) : M t unit :=
  e ← get;
  (if decide (ConfigManager.pattern_memory_size cm
                ≤ Z.of_nat (length (learning_memory e)))%Z
   then match learning_memory e with
        | [] => raise IndexError
        | _ :: rest => modify (set_learning_memory rest)
        end
   else mret tt);;
  let learning_entry :=
    {| le_timestamp := now; le_transaction := transaction_data;
       le_customer := customer_data; le_result := result;
       le_feedback := None |} in
  modify (λ e, set_learning_memory (learning_memory e ++ [learning_entry]) e).

(** [provider.analyze(transaction_data, customer_data)] on the value [p]
    stored under [name]. *)
Definition call_analyze (name : string) (p : option Provider)
    (transaction_data : Transaction) (customer_data : option CustomerProfile)
    : M t (option Assessment) :=
  modify (log_attempt name);;
  match p with
  | None => raise AttributeError
  | Some prov => lift_outcome (analyze prov transaction_data customer_data)
  end.

(** [result[key] = value] needs [result] to be a dict. *)
Definition as_dict (result : option Assessment) : M t Assessment :=
  match result with
  | Some d => mret d
  | None => raise TypeError
  end.

(** The body of the [try] of the primary backend. *)
Definition primary_body (cm : ConfigManager.t) (now : string)
    (primary_provider : string) (p : option Provider)
    (transaction_data : Transaction) (customer_data : option CustomerProfile)
    : M t Assessment :=
  result ← call_analyze primary_provider p transaction_data customer_data;
  result ← as_dict result;
  let result := set_ai_provider primary_provider result in
  e ← get;
  let result := set_confidence (_calculate_confidence e result) result in
  _store_analysis_result cm now transaction_data customer_data result;;
  mret result.

(** The body of the [try] inside the fallback loop. *)
Definition fallback_body (cm : ConfigManager.t) (now : string)
    (provider_name : string) (p : option Provider)
    (transaction_data : Transaction) (customer_data : option CustomerProfile)
    : M t Assessment :=
  result ← call_analyze provider_name p transaction_data customer_data;
  result ← as_dict result;
  let result := set_ai_provider provider_name result in
  e ← get;
  let result := set_confidence (_calculate_confidence e result) result in
  let result := set_fallback_used true result in
  _store_analysis_result cm now transaction_data customer_data result;;
  mret result.

(** [for provider_name, provider in self.available_providers.items()]:
    [Some result] when an iteration executed [return result], [None] when
    the loop ran to its end. *)
Fixpoint fallback_loop (cm : ConfigManager.t) (now : string)
    (primary_provider : string) (items : list (string * option Provider))
    (transaction_data : Transaction) (customer_data : option CustomerProfile)
    : M t (option Assessment) :=
  match items with
  | [] => mret None
  | (provider_name, p) :: items' =>
      if decide (provider_name ≠ primary_provider) then
        r ← try_except
               (result ← fallback_body cm now provider_name p
                           transaction_data customer_data;
                mret (Some result))
               (λ _, mret None);
        match r with
        | Some result => mret (Some result)
        | None => fallback_loop cm now primary_provider items'
                    transaction_data customer_data
        end
      else fallback_loop cm now primary_provider items'
             transaction_data customer_data
  end.

(** [analyze_transaction]. The value returned is the object [None] only
    when the last call, on the ['local'] backend, returned it. *)
Definition analyze_transaction (cm : ConfigManager.t) (now : string)
    (transaction_data : Transaction) (customer_data : option CustomerProfile)
    : M t (option Assessment) :=
  e ← get;
  let primary_provider := ConfigManager.provider (config e) in
  r ← match dict_get primary_provider (available_providers e) with
      | Some p =>
          try_except
            (result ← primary_body cm now primary_provider p
                        transaction_data customer_data;
             mret (Some result))
            (λ _, mret None)
      | None => mret None
      end;
  match r with
  | Some result => mret (Some result)
  | None =>
      r ← fallback_loop cm now primary_provider (available_providers e)
            transaction_data customer_data;
      match r with
      | Some result => mret (Some result)
      | None =>
          match dict_get "local" (available_providers e) with
          | None => raise KeyError
          | Some p => call_analyze "local" p transaction_data customer_data
          end
      end
  end.

(** [_update_performance_metrics]: the body is [pass]. *)
Definition _update_performance_metrics (correct_assessment : Assessment) : M t unit :=
  mret tt.

(** The [for entry in self.learning_memory] loop of [learn_from_feedback]. *)
Fixpoint attach_feedback (transaction_id : string) (correct_assessment : Assessment)
    (memory : list LearningEntry) : list LearningEntry :=
  match memory with
  | [] => []
  | entry :: rest =>
      if decide (tx_transaction_id (le_transaction entry) = Some transaction_id)
      then set_feedback correct_assessment entry :: rest
      else entry :: attach_feedback transaction_id correct_assessment rest
  end.

Definition learn_from_feedback (transaction_id : string)
    (correct_assessment : Assessment) : M t unit :=
  modify (λ e, set_learning_memory
                 (attach_feedback transaction_id correct_assessment (learning_memory e)) e);;
  _update_performance_metrics correct_assessment.

End IntelligentAIEngine.

(** ** bank_system.py *)

(** The dict built by [_submit_alert] and handed to the data source. *)
Record AlertData : Type := {
  alert_id : string;
  ad_transaction_id : option string;
  ad_risk_level : string;
  ad_risk_score : Q;
  ad_detected_patterns : list string;
  reasoning : string;
  ad_timestamp : string
}.

(** The abstract class [BankSystemInterface]: four methods over the
    adapter's own state [St]. A method may raise, and may return the object
    [None] (the [option] of each result), as the adapters whose bodies are
    [pass] do. [class_name] is [type(system).__name__] and [is_simulation]
    is [isinstance(system, SimulationSystem)]. *)
Record BankSystemInterface (St : Type) : Type := {
  get_customer_profile : string → M St (option CustomerProfile);
  get_transaction_history : string → Z → M St (option (list Transaction));
  submit_alert : AlertData → M St (option bool);
  check_system_health : M St (option bool);
  class_name : string;
  is_simulation : bool
}.
Arguments get_customer_profile {St} _ _ _.
Arguments get_transaction_history {St} _ _ _ _.
Arguments submit_alert {St} _ _ _.
Arguments check_system_health {St} _ _.
Arguments class_name {St} _.
Arguments is_simulation {St} _.

Module SimulationSystem.

(** [{**alert_data, "submitted_at": ..., "alert_status": ...}] *)
Record SubmittedAlert : Type := {
  sa_alert : AlertData;
  submitted_at : string;
  alert_status : string
}.

Record t : Type := {
  customers : gmap string CustomerProfile;
  transactions : list Transaction;
  alerts : list SubmittedAlert
}.

Definition _initialize_sample_customers : gmap string CustomerProfile :=
  <["CUST001" :=
      {| cp_customer_id := Some "CUST001";
         cp_name := Some "John's Fine Dining Restaurant";
         risk_tier := Some "medium_risk";
         business_type := Some "Restaurant & Hospitality";
         kyc_status := Some "verified";
         monthly_volume := Some 75000%Q;
         account_age_days := Some 420%Z;
         pep_status := Some false;
         sanctions_match := Some false;
         account_balance := Some 150000%Q |}]>
  (<["CUST002" :=
      {| cp_customer_id := Some "CUST002";
         cp_name := Some "Tech Startup Inc.";
         risk_tier := Some "low_risk";
         business_type := Some "Technology Services";
         kyc_status := Some "verified";
         monthly_volume := Some 50000%Q;
         account_age_days := Some 180%Z;
         pep_status := Some false;
         sanctions_match := Some false;
         account_balance := Some 75000%Q |}]>
  (<["CUST003" :=
      {| cp_customer_id := Some "CUST003";
         cp_name := Some "Global Trading LLC";
         risk_tier := Some "high_risk";
         business_type := Some "International Trade";
         kyc_status := Some "enhanced_due_diligence";
         monthly_volume := Some 500000%Q;
         account_age_days := Some 730%Z;
         pep_status := Some true;
         sanctions_match := Some false;
         account_balance := Some 1000000%Q |}]> ∅)).

Definition _initialize_sample_transactions : list Transaction :=
  [ {| tx_transaction_id := Some "TX001"; tx_customer_id := Some "CUST001";
       amount := Some 9500%Q; tx_type := Some "cash_deposit";
       currency := None; counterparty := Some "Business Account";
       channel := Some "branch"; description := None;
       tx_timestamp := Some "2024-01-15T10:30:00" |};
    {| tx_transaction_id := Some "TX002"; tx_customer_id := Some "CUST001";
       amount := Some 12000%Q; tx_type := Some "wire_transfer";
       currency := None; counterparty := Some "Supplier Corp";
       channel := Some "online"; description := None;
       tx_timestamp := Some "2024-01-14T14:20:00" |} ].

Definition __init__ : t :=
  {| customers := _initialize_sample_customers;
     transactions := _initialize_sample_transactions;
     alerts := [] |}.

Definition get_customer_profile (customer_id : string)
    : M t (option CustomerProfile) :=
  s ← get;
  mret (Some (default empty_profile (customers s !! customer_id))).

(** [[tx for tx in self.transactions if tx['customer_id'] == customer_id]] *)
Fixpoint history_of (customer_id : string) (txs : list Transaction)
    : outcome (list Transaction) :=
  match txs with
  | [] => Returned []
  | tx :: txs' =>
      match tx_customer_id tx with
      | None => Raised KeyError
      | Some c =>
          match history_of customer_id txs' with
          | Raised e => Raised e
          | Returned l => Returned (if decide (c = customer_id) then tx :: l else l)
          end
      end
  end.

Definition get_transaction_history (customer_id : string) (days : Z)
    : M t (option (list Transaction)) :=
  s ← get;
  l ← lift_outcome (history_of customer_id (transactions s));
  mret (Some l).

Definition submit_alert (alert_data : AlertData) : M t (option bool) :=
  modify (λ s, {| customers := customers s; transactions := transactions s;
                  alerts := alerts s ++
                    [ {| sa_alert := alert_data;
                         submitted_at := "2024-01-15T12:00:00";
                         alert_status := "open" |} ] |});;
  mret (Some true).

Definition check_system_health : M t (option bool) := mret (Some true).

Definition interface : BankSystemInterface t :=
  Build_BankSystemInterface t
    get_customer_profile get_transaction_history submit_alert check_system_health
    "SimulationSystem" true.

End SimulationSystem.

(** [TemenosSystem], [FlexcubeSystem], [FinacleSystem] and
    [CustomAPISystem]: every method body is [pass]. *)
Definition stub_system (name : string) : BankSystemInterface unit :=
  {| get_customer_profile := λ _, mret None;
     get_transaction_history := λ _ _, mret None;
     submit_alert := λ _, mret None;
     check_system_health := mret None;
     class_name := name;
     is_simulation := false |}.

Definition TemenosSystem := stub_system "TemenosSystem".
Definition FlexcubeSystem := stub_system "FlexcubeSystem".
Definition FinacleSystem := stub_system "FinacleSystem".
Definition CustomAPISystem := stub_system "CustomAPISystem".

Module BankIntegrationManager.

(** The dict returned by [process_transaction]. *)
Record bank_context : Type := {
  customer_profile : option CustomerProfile;
  recent_transactions : option (list Transaction);
  system_type : string;
  bc_simulation_mode : bool
}.

Definition process_transaction {St} (system : BankSystemInterface St)
    (transaction_data : Transaction) : M St bank_context :=
  cid ← match tx_customer_id transaction_data with
        | Some c => mret c
        | None => raise KeyError
        end;
  customer_profile ← get_customer_profile system cid;
  transaction_history ← get_transaction_history system cid 30%Z;
  mret {| customer_profile := customer_profile;
          recent_transactions := transaction_history;
          system_type := class_name system;
          bc_simulation_mode := is_simulation system |}.

End BankIntegrationManager.

(** ** aml_assistant.py *)

Module RiskLevel.
(** [class RiskLevel(str, Enum)]: the members compare equal to their
    string values. *)
Definition LOW : string := "low".
Definition MEDIUM : string := "medium".
Definition HIGH : string := "high".
Definition SEVERE : string := "severe".
End RiskLevel.

(** [f"{n:06d}"]: decimal digits, padded with zeros on the left to six
    characters. *)
Fixpoint zeros (k : nat) : string :=
  match k with
  | O => ""
  | S k' => String "0"%char (zeros k')
  end.

Definition format_06d (n : nat) : string :=
  let digits := NilEmpty.string_of_uint (Nat.to_uint n) in
  zeros (6 - String.length digits) +:+ digits.

(** [f"{l}"] for a list of strings. It is Python's [repr] for strings
    without quotes, backslashes and unprintable characters. *)
Fixpoint repr_items (l : list string) : string :=
  match l with
  | [] => ""
  | [s] => "'" +:+ s +:+ "'"
  | s :: l' => "'" +:+ s +:+ "', " +:+ repr_items l'
  end.

Definition format_list (l : list string) : string := "[" +:+ repr_items l +:+ "]".

Module UltimateAMLAssistant.

Record risk_assessment_t : Type := {
  ra_risk_level : string;
  ra_risk_score : Q;
  primary_factors : list string;
  ra_confidence : Q;
  ra_ai_provider : string
}.

Record system_info_t : Type := {
  bank_system_name : string;
  simulation_mode : bool;
  si_analysis_method : string
}.

Record context_t : Type := {
  customer_risk_tier : string;
  transaction_count : nat;
  customer_since_days : Z
}.

(** The dict returned by [analyze_transaction]. *)
Record AnalysisResult : Type := {
  ar_transaction_id : option string;
  ar_timestamp : string;
  risk_assessment : risk_assessment_t;
  ar_detected_patterns : list string;
  ar_recommended_actions : list string;
  system_info : system_info_t;
  context : context_t
}.

(** [x.get(...)] on a value that may be the object [None]. *)
Definition attr {A} (x : option A) : outcome A :=
  match x with
  | Some a => Returned a
  | None => Raised AttributeError
  end.

(** [len(x)] on a value that may be the object [None]. *)
Definition len {A} (x : option (list A)) : outcome nat :=
  match x with
  | Some l => Returned (length l)
  | None => Raised TypeError
  end.

Definition _generate_comprehensive_result (now : string)
    (transaction_data : Transaction)
    (bank_context : BankIntegrationManager.bank_context)
    (ai_analysis : option Assessment) : outcome AnalysisResult :=
  match attr ai_analysis with
  | Raised e => Raised e
  | Returned ai =>
    match attr (BankIntegrationManager.customer_profile bank_context) with
    | Raised e => Raised e
    | Returned profile =>
      match len (BankIntegrationManager.recent_transactions bank_context) with
      | Raised e => Raised e
      | Returned count =>
        Returned
          {| ar_transaction_id := tx_transaction_id transaction_data;
             ar_timestamp := now;
             risk_assessment :=
               {| ra_risk_level := default RiskLevel.MEDIUM (risk_level ai);
                  ra_risk_score := default 50%Q (risk_score ai);
                  primary_factors := default [] (risk_factors ai);
                  ra_confidence := default 0.5%Q (confidence ai);
                  ra_ai_provider := default "local" (ai_provider ai) |};
             ar_detected_patterns := default [] (detected_patterns ai);
             ar_recommended_actions := default [] (recommended_actions ai);
             system_info :=
               {| bank_system_name := BankIntegrationManager.system_type bank_context;
                  simulation_mode := BankIntegrationManager.bc_simulation_mode bank_context;
                  si_analysis_method :=
                    default "local_intelligence" (analysis_method ai) |};
             context :=
               {| customer_risk_tier := default "unknown" (risk_tier profile);
                  transaction_count := count;
                  customer_since_days := default 0%Z (account_age_days profile) |} |}
      end
    end
  end.

(** [level in [RiskLevel.HIGH, RiskLevel.SEVERE]] *)
Definition is_high_or_severe (level : string) : bool :=
  bool_decide (level = RiskLevel.HIGH) || bool_decide (level = RiskLevel.SEVERE).

Section Assistant.
Context {St : Type} (system : BankSystemInterface St).

(** The attributes of the assistant; [bank_integration] is the state of
    [self.bank_integration.system]. *)
Record t : Type := {
  ai_engine : IntelligentAIEngine.t;
  bank_integration : St;
  alert_counter : nat
}.

Definition set_ai_engine (e : IntelligentAIEngine.t) (a : t) : t :=
  {| ai_engine := e; bank_integration := bank_integration a;
     alert_counter := alert_counter a |}.

Definition set_bank_integration (b : St) (a : t) : t :=
  {| ai_engine := ai_engine a; bank_integration := b;
     alert_counter := alert_counter a |}.

Definition increment_alert_counter (a : t) : t :=
  {| ai_engine := ai_engine a; bank_integration := bank_integration a;
     alert_counter := alert_counter a + 1 |}.

Definition __init__ (e : IntelligentAIEngine.t) (b : St) : t :=
  {| ai_engine := e; bank_integration := b; alert_counter := 0 |}.

(** The alert dict of [_submit_alert], for the counter value [n] reached
    after the increment. *)
Definition alert_data_of (n : nat) (now : string)
    (analysis_result : AnalysisResult) : AlertData :=
  {| alert_id := "ALERT_" +:+ format_06d n;
     ad_transaction_id := ar_transaction_id analysis_result;
     ad_risk_level := ra_risk_level (risk_assessment analysis_result);
     ad_risk_score := ra_risk_score (risk_assessment analysis_result);
     ad_detected_patterns := ar_detected_patterns analysis_result;
     reasoning := "High risk transaction detected: "
                  +:+ format_list (primary_factors (risk_assessment analysis_result));
     ad_timestamp := now |}.

Definition _submit_alert (now : string) (analysis_result : AnalysisResult)
    : M t unit :=
  modify increment_alert_counter;;
  a ← get;
  let alert_data := alert_data_of (alert_counter a) now analysis_result in
  try_except
    (success ← zoom bank_integration set_bank_integration
                 (submit_alert system alert_data);
     mret tt)
    (λ _, mret tt).

Definition analyze_transaction (cm : ConfigManager.t) (now : string)
    (transaction_data : Transaction) : M t AnalysisResult :=
  bank_context ← zoom bank_integration set_bank_integration
                   (BankIntegrationManager.process_transaction system transaction_data);
  ai_analysis ← zoom ai_engine set_ai_engine
                  (IntelligentAIEngine.analyze_transaction cm now transaction_data
                     (BankIntegrationManager.customer_profile bank_context));
  result ← lift_outcome
             (_generate_comprehensive_result now transaction_data bank_context ai_analysis);
  (if is_high_or_severe (ra_risk_level (risk_assessment result))
   then _submit_alert now result
   else mret tt);;
  mret result.

Definition provide_feedback (transaction_id : string)
    (correct_assessment : Assessment) : M t unit :=
  zoom ai_engine set_ai_engine
    (IntelligentAIEngine.learn_from_feedback transaction_id correct_assessment).

End Assistant.

End UltimateAMLAssistant.

(** ** core_config.py and bank_system.py: detection of the environment

    The methods of [ConfigManager] that read the process environment and
    the ['banking'] section of the configuration, and the factory that
    turns the configured system type into an adapter. Writing the
    configuration file ([save_config]) is left out. *)

(** [s.lower()], for strings of ASCII characters. *)
Definition lower_char (c : ascii) : ascii :=
  let n := nat_of_ascii c in
  if (65 <=? n)%nat && (n <=? 90)%nat then ascii_of_nat (n + 32) else c.

Fixpoint str_lower (s : string) : string :=
  match s with
  | EmptyString => EmptyString
  | String c s' => String (lower_char c) (str_lower s')
  end.

(** [s.replace(old, new)] for a non-empty [old]: the occurrences of [old]
    are replaced from left to right, without overlap. [skip] counts the
    characters of an occurrence that are still to be passed over. *)
Fixpoint replace_from (old new s : string) (skip : nat) : string :=
  match s with
  | EmptyString => EmptyString
  | String c s' =>
      match skip with
      | S k => replace_from old new s' k
      | O =>
          if String.prefix old s
          then new +:+ replace_from old new s' (String.length old - 1)
          else String c (replace_from old new s' 0)
      end
  end.

(** [s.replace("", new)] puts [new] before every character and at the end. *)
Fixpoint intersperse_with (new s : string) : string :=
  match s with
  | EmptyString => new
  | String c s' => new +:+ String c (intersperse_with new s')
  end.

Definition str_replace (old new s : string) : string :=
  if String.eqb old "" then intersperse_with new s else replace_from old new s 0.

Module Environment.

(** [os.environ]; [os.getenv(name)] is the lookup. *)
Definition t : Type := gmap string string.

Definition getenv (env : t) (name : string) : option string := env !! name.

(** The ['banking'] section of the configuration. *)
Record banking : Type := {
  simulation_mode : bool;
  core_system : string;
  integration_type : string;
  auto_detect_changes : bool
}.

Definition default_banking : banking :=
  {| simulation_mode := true; core_system := "auto";
     integration_type := "api"; auto_detect_changes := true |}.

(** [config_manager.config]: the entries modelled by [ConfigManager.t]
    together with the ['banking'] section. *)
Record config : Type := {
  base : ConfigManager.t;
  banking_section : banking
}.

Definition default_config : config :=
  {| base := ConfigManager.default_config; banking_section := default_banking |}.

(** The entries of [ConfigManager.t] with [OPENAI_API_KEY] as the
    environment [env] has it. *)
Definition in_environment (env : t) (cm : ConfigManager.t) : ConfigManager.t :=
  {| ConfigManager.ai_provider_setting := ConfigManager.ai_provider_setting cm;
     ConfigManager.ai_api_key := ConfigManager.ai_api_key cm;
     ConfigManager.ai_model := ConfigManager.ai_model cm;
     ConfigManager.high_risk_score := ConfigManager.high_risk_score cm;
     ConfigManager.pattern_memory_size := ConfigManager.pattern_memory_size cm;
     ConfigManager.env_openai_api_key := getenv env "OPENAI_API_KEY" |}.

Definition set_ai_provider_setting (p : string) (cm : ConfigManager.t) : ConfigManager.t :=
  {| ConfigManager.ai_provider_setting := p;
     ConfigManager.ai_api_key := ConfigManager.ai_api_key cm;
     ConfigManager.ai_model := ConfigManager.ai_model cm;
     ConfigManager.high_risk_score := ConfigManager.high_risk_score cm;
     ConfigManager.pattern_memory_size := ConfigManager.pattern_memory_size cm;
     ConfigManager.env_openai_api_key := ConfigManager.env_openai_api_key cm |}.

Definition banking_indicators : list string :=
  ["T24_HOME"; "FLEXCUBE_HOME"; "FINACLE_PATH"; "CORE_BANKING_SYSTEM"; "BANKING_API_URL"].

(** [indicator.lower().replace('_home', '').replace('_path', '').replace('_url', '')] *)
Definition system_name (indicator : string) : string :=
  str_replace "_url" "" (str_replace "_path" "" (str_replace "_home" "" (str_lower indicator))).

(** The [for indicator in banking_indicators] loop, appending to [systems]. *)
Fixpoint detect_loop (env : t) (indicators systems : list string) : list string :=
  match indicators with
  | [] => systems
  | indicator :: rest =>
      if ConfigManager.truthy (getenv env indicator)
      then detect_loop env rest (systems ++ [system_name indicator])
      else detect_loop env rest systems
  end.

Definition _detect_banking_systems (env : t) : list string :=
  let systems := detect_loop env banking_indicators [] in
  if ConfigManager.truthy (getenv env "BANKING_API_URL")
  then systems ++ ["api_custom"]
  else systems.

(** [auto_detect_environment], which updates the configuration in place
    and returns it. *)
Definition auto_detect_environment (env : t) (c : config) : config :=
  let ai_providers := ConfigManager._detect_ai_providers (in_environment env (base c)) in
  let banking_systems := _detect_banking_systems env in
  let base' :=
    match ai_providers with
    | p :: _ => set_ai_provider_setting p (base c)
    | [] => set_ai_provider_setting "local" (base c)
    end in
  let banking' :=
    match banking_systems with
    | system :: _ =>
        {| simulation_mode := false; core_system := system;
           integration_type := integration_type (banking_section c);
           auto_detect_changes := auto_detect_changes (banking_section c) |}
    | [] =>
        {| simulation_mode := true; core_system := core_system (banking_section c);
           integration_type := integration_type (banking_section c);
           auto_detect_changes := auto_detect_changes (banking_section c) |}
    end in
  {| base := base'; banking_section := banking' |}.

End Environment.

Module BankSystemFactory.

(** The adapter classes. *)
Inductive system_class : Type :=
| SimulationSystemClass
| TemenosSystemClass
| FlexcubeSystemClass
| FinacleSystemClass
| CustomAPISystemClass.

Definition system_map : list (string * system_class) :=
  [ ("temenos", TemenosSystemClass);
    ("flexcube", FlexcubeSystemClass);
    ("finacle", FinacleSystemClass);
    ("api_custom", CustomAPISystemClass);
    ("simulation", SimulationSystemClass) ].

(** [create_system(system_type)]: the class that is instantiated. *)
Definition create_system (c : Environment.config) (system_type : option string)
    : system_class :=
  let system_type :=
    match system_type with
    | Some ty =>
        if String.eqb ty "" || String.eqb ty "auto"
        then Environment.core_system (Environment.banking_section c)
        else ty
    | None => Environment.core_system (Environment.banking_section c)
    end in
  default SimulationSystemClass (dict_get system_type system_map).

(** The state of an instance of each class, its methods and its state
    after construction. *)
Definition state_of (k : system_class) : Type :=
  match k with
  | SimulationSystemClass => SimulationSystem.t
  | _ => unit
  end.

Definition interface_of (k : system_class) : BankSystemInterface (state_of k) :=
  match k with
  | SimulationSystemClass => SimulationSystem.interface
  | TemenosSystemClass => TemenosSystem
  | FlexcubeSystemClass => FlexcubeSystem
  | FinacleSystemClass => FinacleSystem
  | CustomAPISystemClass => CustomAPISystem
  end.

Definition instance_of (k : system_class) : state_of k :=
  match k with
  | SimulationSystemClass => SimulationSystem.__init__
  | _ => tt
  end.

(** [BankIntegrationManager._initialize_system]: the configuration after
    the detection and the class of [self.system]. *)
Definition _initialize_system (env : Environment.t) (c : Environment.config)
    : Environment.config * system_class :=
  let c' := Environment.auto_detect_environment env c in
  (c', create_system c' None).

End BankSystemFactory.

(** * Notions used by the statements

    The definitions of this part do not come from the sources: they name
    the notions in which the properties below are stated. *)

Module ConfidenceSpec.

(** Clamping to the interval [0, 1]. *)
Definition clamp_unit (x : Q) : Q := Qmax 0 (Qmin x 1).

(** The performance metric of a backend: its recorded accuracy, and 0.8
    when nothing is recorded for it. *)
Definition backend_performance (metrics : gmap string (gmap string Q))
    (backend : string) : Q :=
  match metrics !! backend with
  | Some m => default 0.8%Q (m !! "accuracy")
  | None => 0.8%Q
  end.

Definition complexity_factor (risk_factor_count : nat) : Q :=
  Qmin (inject_Z (Z.of_nat risk_factor_count) / 10) 1.

Definition adjusted_confidence (base_confidence performance complexity : Q) : Q :=
  clamp_unit (0.6 * base_confidence + 0.3 * performance + 0.1 * complexity).

End ConfidenceSpec.

Module FusionSpec.

(** A score and a level are threshold-consistent when a score at or
    above [high_risk_score] comes with the level high or severe. *)
Definition threshold_consistent (cm : ConfigManager.t) (score : Q)
    (level : string) : Prop :=
  (ConfigManager.high_risk_score cm <= score)%Q →
  level = RiskLevel.HIGH ∨ level = RiskLevel.SEVERE.

End FusionSpec.

Module LearningStoreSpec.

(** One record operation: the arguments of [_store_analysis_result]. *)
Record insertion : Type := {
  ins_now : string;
  ins_transaction : Transaction;
  ins_customer : option CustomerProfile;
  ins_result : Assessment
}.

(** The entry that an insertion appends. *)
Definition entry_of (i : insertion) : LearningEntry :=
  {| le_timestamp := ins_now i; le_transaction := ins_transaction i;
     le_customer := ins_customer i; le_result := ins_result i;
     le_feedback := None |}.

(** A sequence of record operations, in order. *)
Fixpoint record_all (cm : ConfigManager.t) (items : list insertion)
    : M IntelligentAIEngine.t unit :=
  match items with
  | [] => mret tt
  | i :: items' =>
      IntelligentAIEngine._store_analysis_result cm (ins_now i)
        (ins_transaction i) (ins_customer i) (ins_result i);;
      record_all cm items'
  end.

End LearningStoreSpec.

Module OrchestratorSpec.

(** The engine [e] with the record of attempts replaced by [a]. *)
Definition with_attempts (a : list string) (e : IntelligentAIEngine.t)
    : IntelligentAIEngine.t :=
  {| IntelligentAIEngine.config := IntelligentAIEngine.config e;
     IntelligentAIEngine.available_providers := IntelligentAIEngine.available_providers e;
     IntelligentAIEngine.learning_memory := IntelligentAIEngine.learning_memory e;
     IntelligentAIEngine.performance_metrics := IntelligentAIEngine.performance_metrics e;
     IntelligentAIEngine.attempts := a |}.

(** A computation fails in a state when it raises there, and succeeds
    when it returns. *)
Definition fails {A} (m : M IntelligentAIEngine.t A) (e : IntelligentAIEngine.t) : Prop :=
  ∃ ex e', m e = (Raised ex, e').


(** The names of the registered backends, in registration order, and
    those of them that are not the primary one. *)
Definition registered (e : IntelligentAIEngine.t) : list string :=
  (IntelligentAIEngine.available_providers e).*1.

Definition not_primary (primary : string) (names : list string) : list string :=
  filter (λ n, n ≠ primary) names.

(** What the last call of a request, on the value stored under
    ['local'], comes to. *)
Definition last_local_call (e : IntelligentAIEngine.t)
    (transaction_data : Transaction) (customer_data : option CustomerProfile)
    : outcome (option Assessment) :=
  match dict_get "local" (IntelligentAIEngine.available_providers e) with
  | None => Raised KeyError
  | Some None => Raised AttributeError
  | Some (Some prov) => analyze prov transaction_data customer_data
  end.

(** The attempt that a request makes on the backend registered as [name]:
    the [try] of the primary backend, or the [try] inside the loop for
    any other backend. *)
Definition attempt (cm : ConfigManager.t) (now : string)
    (transaction_data : Transaction) (customer_data : option CustomerProfile)
    (e : IntelligentAIEngine.t) (name : string) : M IntelligentAIEngine.t Assessment :=
  match dict_get name (IntelligentAIEngine.available_providers e) with
  | Some p =>
      if decide (name = ConfigManager.provider (IntelligentAIEngine.config e))
      then IntelligentAIEngine.primary_body cm now name p transaction_data customer_data
      else IntelligentAIEngine.fallback_body cm now name p transaction_data customer_data
  | None => raise KeyError
  end.



End OrchestratorSpec.

Module ProcessSpec.

(** The calls that a client makes on the assistant during the life of a
    process. *)
Inductive operation : Type :=
| Analyze (now : string) (transaction_data : Transaction)
| Feedback (transaction_id : string) (correct_assessment : Assessment).

(** The assistant after one call; an exception ends the call, not the
    process. *)
Definition step {St} (system : BankSystemInterface St) (cm : ConfigManager.t)
    (op : operation) (a : UltimateAMLAssistant.t (St:=St)) : UltimateAMLAssistant.t :=
  match op with
  | Analyze now transaction_data =>
      (UltimateAMLAssistant.analyze_transaction system cm now transaction_data a).2
  | Feedback transaction_id correct_assessment =>
      (UltimateAMLAssistant.provide_feedback transaction_id correct_assessment a).2
  end.

Definition run {St} (system : BankSystemInterface St) (cm : ConfigManager.t)
    (ops : list operation) (a : UltimateAMLAssistant.t (St:=St)) : UltimateAMLAssistant.t :=
  foldl (λ a op, step system cm op a) a ops.

(** The identifiers of the alerts that the simulation has received, in
    the order of their submission. *)
Definition alert_ids (s : SimulationSystem.t) : list string :=
  (λ sa, alert_id (SimulationSystem.sa_alert sa)) <$> SimulationSystem.alerts s.

(** The identifier of the alert numbered [n]. *)
Definition alert_id_of (n : nat) : string := "ALERT_" +:+ format_06d n.

(** Reading the number back from the digits of an identifier. *)
Definition number_of_digits (digits : string) : option nat :=
  Nat.of_uint <$> NilEmpty.uint_of_string digits.

(** The data source [system] with its [submit_alert] replaced. *)
Definition with_submit_alert {St} (f : AlertData → M St (option bool))
    (system : BankSystemInterface St) : BankSystemInterface St :=
  {| get_customer_profile := get_customer_profile system;
     get_transaction_history := get_transaction_history system;
     submit_alert := f;
     check_system_health := check_system_health system;
     class_name := class_name system;
     is_simulation := is_simulation system |}.

End ProcessSpec.

(** ** Sample values

    The transactions of the demo in [main.py], a transaction of a customer
    that the simulation does not know, and configurations that differ from
    the default one in a single entry. *)
Module Samples.

Definition demo_normal : Transaction :=
  {| tx_transaction_id := Some "DEMO_NORMAL_001"; tx_customer_id := Some "CUST002";
     amount := Some 2500%Q; tx_type := Some "wire_transfer";
     currency := Some "USD"; counterparty := Some "Regular Supplier";
     channel := Some "online"; description := Some "Monthly service payment";
     tx_timestamp := None |}.

Definition demo_high_risk : Transaction :=
  {| tx_transaction_id := Some "DEMO_HIGH_RISK_001"; tx_customer_id := Some "CUST003";
     amount := Some 15000%Q; tx_type := Some "cash_deposit";
     currency := Some "USD"; counterparty := Some "Unknown";
     channel := Some "branch"; description := Some "Large cash deposit";
     tx_timestamp := None |}.

Definition demo_struct : Transaction :=
  {| tx_transaction_id := Some "DEMO_STRUCT_001"; tx_customer_id := Some "CUST001";
     amount := Some 9500%Q; tx_type := Some "cash_deposit";
     currency := Some "USD"; counterparty := Some "Multiple Sources";
     channel := Some "branch"; description := Some "Business cash deposit";
     tx_timestamp := None |}.

Definition unknown_customer_tx : Transaction :=
  {| tx_transaction_id := Some "TX_UNKNOWN_001"; tx_customer_id := Some "CUST404";
     amount := Some 100%Q; tx_type := Some "wire_transfer";
     currency := Some "USD"; counterparty := Some "Somebody";
     channel := Some "online"; description := None;
     tx_timestamp := None |}.

Definition with_pattern_memory_size (n : Z) (cm : ConfigManager.t) : ConfigManager.t :=
  {| ConfigManager.ai_provider_setting := ConfigManager.ai_provider_setting cm;
     ConfigManager.ai_api_key := ConfigManager.ai_api_key cm;
     ConfigManager.ai_model := ConfigManager.ai_model cm;
     ConfigManager.high_risk_score := ConfigManager.high_risk_score cm;
     ConfigManager.pattern_memory_size := n;
     ConfigManager.env_openai_api_key := ConfigManager.env_openai_api_key cm |}.

Definition with_high_risk_score (x : Q) (cm : ConfigManager.t) : ConfigManager.t :=
  {| ConfigManager.ai_provider_setting := ConfigManager.ai_provider_setting cm;
     ConfigManager.ai_api_key := ConfigManager.ai_api_key cm;
     ConfigManager.ai_model := ConfigManager.ai_model cm;
     ConfigManager.high_risk_score := x;
     ConfigManager.pattern_memory_size := ConfigManager.pattern_memory_size cm;
     ConfigManager.env_openai_api_key := ConfigManager.env_openai_api_key cm |}.

Definition with_env_openai_api_key (k : string) (cm : ConfigManager.t) : ConfigManager.t :=
  {| ConfigManager.ai_provider_setting := ConfigManager.ai_provider_setting cm;
     ConfigManager.ai_api_key := ConfigManager.ai_api_key cm;
     ConfigManager.ai_model := ConfigManager.ai_model cm;
     ConfigManager.high_risk_score := ConfigManager.high_risk_score cm;
     ConfigManager.pattern_memory_size := ConfigManager.pattern_memory_size cm;
     ConfigManager.env_openai_api_key := Some k |}.

(** The engine of a process started with the default configuration and
    no [OPENAI_API_KEY]: the only backend is ['local']. *)
Definition default_engine : IntelligentAIEngine.t :=
  IntelligentAIEngine.__init__ None ConfigManager.default_config.

(** The assessment that the local backend returns, as the engine holds it
    when it computes the confidence. *)
Definition local_assessment : Assessment :=
  {| risk_level := Some "medium"; risk_score := Some 65%Q;
     risk_factors := Some ["rule_based_factor_1"; "rule_based_factor_2";
                           "pattern_based_factor_1"];
     recommended_actions := Some ["action_1"; "action_2"];
     detected_patterns := Some ["structuring"; "unusual_behavior"];
     confidence := Some 0.7%Q;
     analysis_method := Some "local_intelligence";
     ai_provider := Some "local"; fallback_used := None |}.

(** The engine of a process started with [OPENAI_API_KEY] set while the
    module of the OpenAI backend cannot be imported: ['openai'] is the
    primary backend and is registered as the object [None]. *)
Definition openai_key_engine : IntelligentAIEngine.t :=
  IntelligentAIEngine.__init__ None
    (with_env_openai_api_key "sk-demo" ConfigManager.default_config).

(** A stand-in for the OpenAI backend, whose module is not part of the
    sources: it reports every transaction as high risk. *)
Definition high_risk_openai (api_key : option string) (model : string) : Provider :=
  {| analyze := λ _ _,
       Returned (Some
         {| risk_level := Some "high"; risk_score := Some 85%Q;
            risk_factors := Some ["large_cash_deposit"];
            recommended_actions := Some ["file_sar"];
            detected_patterns := Some ["structuring"];
            confidence := Some 0.9%Q;
            analysis_method := Some "openai";
            ai_provider := None; fallback_used := None |}) |}.

Definition high_risk_engine : IntelligentAIEngine.t :=
  IntelligentAIEngine.__init__ (Some high_risk_openai)
    (with_env_openai_api_key "sk-demo" ConfigManager.default_config).

(** The simulation with an alert endpoint that is down. *)
Definition alerts_down_system : BankSystemInterface SimulationSystem.t :=
  ProcessSpec.with_submit_alert (λ _, raise (ExternalError "alert endpoint down"))
    SimulationSystem.interface.

Definition insertion_at (now : string) (transaction_data : Transaction)
    : LearningStoreSpec.insertion :=
  {| LearningStoreSpec.ins_now := now;
     LearningStoreSpec.ins_transaction := transaction_data;
     LearningStoreSpec.ins_customer := None;
     LearningStoreSpec.ins_result := local_assessment |}.

Definition three_insertions : list LearningStoreSpec.insertion :=
  [ insertion_at "2024-01-15T10:00:00" demo_normal;
    insertion_at "2024-01-15T10:00:01" demo_high_risk;
    insertion_at "2024-01-15T10:00:02" demo_struct ].

(** A reviewer's corrected assessment, as handed to [provide_feedback]. *)
Definition corrected_assessment : Assessment :=
  {| risk_level := Some "low"; risk_score := Some 10%Q;
     risk_factors := Some []; recommended_actions := Some [];
     detected_patterns := Some []; confidence := Some 1%Q;
     analysis_method := Some "human_review";
     ai_provider := None; fallback_used := None |}.

End Samples.

(** ** Further notions and sample values *)

Module EngineSpec.

(** Two engine states have the same setup when they agree on the
    configuration, the registered backends and the performance metrics. *)
Definition same_setup (e e' : IntelligentAIEngine.t) : Prop :=
  IntelligentAIEngine.config e' = IntelligentAIEngine.config e
  ∧ IntelligentAIEngine.available_providers e' = IntelligentAIEngine.available_providers e
  ∧ IntelligentAIEngine.performance_metrics e' = IntelligentAIEngine.performance_metrics e.

(** The dict that [LocalIntelligenceProvider.analyze] returns. *)
Definition local_raw : Assessment :=
  {| risk_level := Some "medium"; risk_score := Some 65%Q;
     risk_factors := Some ["rule_based_factor_1"; "rule_based_factor_2";
                           "pattern_based_factor_1"];
     recommended_actions := Some ["action_1"; "action_2"];
     detected_patterns := Some ["structuring"; "unusual_behavior"];
     confidence := Some 0.7%Q;
     analysis_method := Some "local_intelligence";
     ai_provider := None; fallback_used := None |}.

(** The entry that a request appends to the learning store. *)
Definition entry_for (now : string) (transaction_data : Transaction)
    (customer_data : option CustomerProfile) (result : Assessment) : LearningEntry :=
  {| le_timestamp := now; le_transaction := transaction_data;
     le_customer := customer_data; le_result := result; le_feedback := None |}.

(** The key of the OpenAI backend is well-formed. *)
Definition well_formed_key (k : option string) : Prop :=
  ∃ s, k = Some s ∧ String.prefix "sk-" s = true.

End EngineSpec.

Module AlertSpec.

(** Reading the number back from an alert identifier. *)
Definition parse_alert_id (id : string) : option nat :=
  match id with
  | String "A" (String "L" (String "E" (String "R" (String "T" (String "_" digits))))) =>
      ProcessSpec.number_of_digits digits
  | _ => None
  end.

End AlertSpec.

Module SimulationSpec.

(** What a process may do to the simulation between two moments: the
    customers and the stored transactions are kept, and alerts are
    appended, one for each increment of the alert counter, each of them
    open and of a high or severe level. *)
Definition only_alerts_appended (a a' : UltimateAMLAssistant.t (St:=SimulationSystem.t))
    : Prop :=
  let s := UltimateAMLAssistant.bank_integration a in
  let s' := UltimateAMLAssistant.bank_integration a' in
  SimulationSystem.customers s' = SimulationSystem.customers s
  ∧ SimulationSystem.transactions s' = SimulationSystem.transactions s
  ∧ ∃ appended,
      SimulationSystem.alerts s' = SimulationSystem.alerts s ++ appended
      ∧ UltimateAMLAssistant.alert_counter a'
        = UltimateAMLAssistant.alert_counter a + length appended
      ∧ Forall (λ sa,
                  SimulationSystem.alert_status sa = "open"
                  ∧ (ad_risk_level (SimulationSystem.sa_alert sa) = "high"
                     ∨ ad_risk_level (SimulationSystem.sa_alert sa) = "severe"))
               appended.

End SimulationSpec.

Module MoreSamples.

Definition no_customer_tx : Transaction :=
  {| tx_transaction_id := Some "TX_NO_CUSTOMER"; tx_customer_id := None;
     amount := Some 100%Q; tx_type := Some "wire_transfer";
     currency := Some "USD"; counterparty := None;
     channel := Some "online"; description := None;
     tx_timestamp := None |}.

(** A process environment with a key for OpenAI that is set but does not
    start with [sk-]. *)
Definition malformed_key_config : ConfigManager.t :=
  Samples.with_env_openai_api_key "my-key" ConfigManager.default_config.

Definition flexcube_environment : Environment.t :=
  <["FLEXCUBE_HOME" := "/opt/flexcube"]> (<["BANKING_API_URL" := "https://bank/api"]> ∅).

Definition t24_environment : Environment.t :=
  <["T24_HOME" := "/opt/t24"]> ∅.

(** A dict with a negative base confidence, as a backend outside this
    repository may return it: nothing validates the value. *)
Definition negative_confidence_assessment : Assessment :=
  {| risk_level := None; risk_score := None; risk_factors := None;
     recommended_actions := None; detected_patterns := None;
     confidence := Some (-1)%Q; analysis_method := None;
     ai_provider := None; fallback_used := None |}.



(** The default engine after the analysis of two of the demo
    transactions: its learning store holds one entry for each. *)
Definition two_entries_engine : IntelligentAIEngine.t :=
  (IntelligentAIEngine.analyze_transaction ConfigManager.default_config
     "2024-01-15T10:01:00" Samples.demo_high_risk None
     (IntelligentAIEngine.analyze_transaction ConfigManager.default_config
        "2024-01-15T10:00:00" Samples.demo_normal None Samples.default_engine).2).2.

End MoreSamples.

(** * Properties *)

(** ** Confidence calculation *)

Lemma complexity_factor_nonneg (n : nat) :
  (0 <= ConfidenceSpec.complexity_factor n)%Q.
Proof.
  unfold ConfidenceSpec.complexity_factor.
  apply Q.min_glb; [| discriminate].
  apply Qle_shift_div_l; [reflexivity |].
  rewrite Qmult_0_l. change 0%Q with (inject_Z 0).
  rewrite <- Zle_Qle. lia.
Qed.

Lemma Qplus_nonneg (a b : Q) : (0 <= a)%Q → (0 <= b)%Q → (0 <= a + b)%Q.
Proof.
  intros Ha Hb. rewrite <- (Qplus_0_l 0). by apply Qplus_le_compat.
Qed.

Lemma engine_performance_lookup (e : IntelligentAIEngine.t) (backend : string) :
  default 0.8%Q (default ∅ (IntelligentAIEngine.performance_metrics e !! backend) !! "accuracy")
  = ConfidenceSpec.backend_performance (IntelligentAIEngine.performance_metrics e) backend.
Proof.
  unfold ConfidenceSpec.backend_performance.
  destruct (IntelligentAIEngine.performance_metrics e !! backend) as [m|]; simpl;
    [reflexivity | by rewrite lookup_empty].
Qed.

(** What the code computes: the weighted sum, capped at 1. *)
Lemma calculate_confidence_eq (e : IntelligentAIEngine.t) (result : Assessment) :
  let base := default 0.5%Q (confidence result) in
  let backend := default "local" (ai_provider result) in
  let performance :=
    ConfidenceSpec.backend_performance (IntelligentAIEngine.performance_metrics e) backend in
  let count := length (default [] (risk_factors result)) in
  IntelligentAIEngine._calculate_confidence e result
  == Qmin (0.6 * base + 0.3 * performance + 0.1 * ConfidenceSpec.complexity_factor count) 1.
Proof.
  intros base backend performance count.
  unfold IntelligentAIEngine._calculate_confidence.
  rewrite engine_performance_lookup.
  fold base backend performance count.
  apply Q.min_compat; [| reflexivity].
  unfold ConfidenceSpec.complexity_factor.
  assert (Hone : 1.0%Q == 1) by reflexivity.
  rewrite Hone. ring.
Qed.

(** C3, as stated, fails: the code has no lower clamp. For a dict with the
    base confidence -1 and no risk factors, under empty performance
    metrics, [_calculate_confidence] is -0.36, below 0, while the clamp to
    [0, 1] of the weighted sum is 0. *)
Lemma calculate_confidence_negative_below_zero :
  let c := IntelligentAIEngine._calculate_confidence Samples.default_engine
             MoreSamples.negative_confidence_assessment in
  let clamped := ConfidenceSpec.adjusted_confidence (-1) 0.8
                   (ConfidenceSpec.complexity_factor 0) in
  c == -0.36
  ∧ (c < 0)%Q
  ∧ clamped == 0
  ∧ ¬ c == clamped.
Proof.
  intros c clamped.
  assert (Hc : c == -0.36) by reflexivity.
  assert (Hclamped : clamped == 0) by reflexivity.
  split; [exact Hc |]. split; [by rewrite Hc |]. split; [exact Hclamped |].
  rewrite Hc, Hclamped. discriminate.
Qed.

(** C3, amended. [_calculate_confidence] is 0.6 times the base confidence
    plus 0.3 times the backend performance plus 0.1 times the complexity
    factor min(count/10, 1), capped at 1 from above and not clamped from
    below. So the result is at most 1; it agrees with the clamp of the
    weighted sum to [0, 1] exactly when the weighted sum is not negative,
    which holds whenever the base confidence and the backend performance
    are not negative, and then the result lies in [0, 1]. The backend
    performance is 0.8 when nothing is recorded for the backend. *)
Theorem calculate_confidence_weighted_and_capped_at_one
    (e : IntelligentAIEngine.t) (result : Assessment) :
  let base := default 0.5%Q (confidence result) in
  let backend := default "local" (ai_provider result) in
  let performance :=
    ConfidenceSpec.backend_performance (IntelligentAIEngine.performance_metrics e) backend in
  let count := length (default [] (risk_factors result)) in
  let weighted :=
    (0.6 * base + 0.3 * performance + 0.1 * ConfidenceSpec.complexity_factor count)%Q in
  let c := IntelligentAIEngine._calculate_confidence e result in
  c == Qmin weighted 1
  ∧ (c <= 1)%Q
  ∧ (c == ConfidenceSpec.adjusted_confidence base performance
            (ConfidenceSpec.complexity_factor count)
     ↔ (0 <= weighted)%Q)
  ∧ ((0 <= c)%Q ↔ (0 <= weighted)%Q)
  ∧ ((0 <= base)%Q → (0 <= performance)%Q → (0 <= weighted)%Q)
  ∧ (IntelligentAIEngine.performance_metrics e !! backend = None →
     performance = 0.8%Q).
Proof.
  intros base backend performance count weighted c.
  pose proof (calculate_confidence_eq e result) as Hcode.
  cbv zeta in Hcode. fold base backend performance count weighted c in Hcode.
  assert (Hsign : (0 <= Qmin weighted 1)%Q ↔ (0 <= weighted)%Q).
  { split.
    - intros H. eapply Qle_trans; [exact H | apply Q.le_min_l].
    - intros H. apply Q.min_glb; [exact H | discriminate]. }
  split; [exact Hcode |].
  split; [rewrite Hcode; apply Q.le_min_r |].
  split; [| split; [by rewrite Hcode | split]].
  - unfold ConfidenceSpec.adjusted_confidence, ConfidenceSpec.clamp_unit.
    fold weighted. rewrite Hcode. split.
    + intros Heq. apply Hsign. rewrite Heq. apply Q.le_max_l.
    + intros Hw. symmetry. apply Q.max_r. by apply Hsign.
  - intros Hbase Hperf. pose proof (complexity_factor_nonneg count) as Hcf.
    subst weighted.
    repeat apply Qplus_nonneg; apply Qmult_le_0_compat; (discriminate || assumption).
  - intros Hnone. unfold performance, ConfidenceSpec.backend_performance.
    by rewrite Hnone.
Qed.

Lemma calculate_confidence_local_sample :
  let c := IntelligentAIEngine._calculate_confidence Samples.default_engine
             Samples.local_assessment in
  c == ConfidenceSpec.adjusted_confidence 0.7 0.8 (ConfidenceSpec.complexity_factor 3)
  ∧ (0 <= c)%Q.
Proof.
  intros c.
  destruct (calculate_confidence_weighted_and_capped_at_one
              Samples.default_engine Samples.local_assessment)
    as (_ & _ & Hclamp & Hsign & Hweighted & _).
  assert (Hw : (0 <= 0.6 * 0.7 + 0.3 * 0.8 + 0.1 * ConfidenceSpec.complexity_factor 3)%Q).
  { apply Hweighted; discriminate. }
  split; [by apply Hclamp | by apply Hsign].
Defined.

(** ** Result fusion *)

(** C4, as stated, fails: with [high_risk_score] configured to 60, the
    local backend reports the score 65 with the level medium, and fusion of
    a score of 80 under the default threshold 70 reports medium too. *)
Lemma local_result_not_threshold_consistent :
  let cm := Samples.with_high_risk_score 60 ConfigManager.default_config in
  (∃ r, LocalIntelligenceProvider.analyze Samples.demo_high_risk None = Returned (Some r)
        ∧ risk_score r = Some 65%Q ∧ risk_level r = Some "medium"
        ∧ ¬ FusionSpec.threshold_consistent cm 65 "medium")
  ∧ (let f := LocalIntelligenceProvider._fuse_results
                (RuleBasedEngine.analyze Samples.demo_high_risk None)
                (PatternDetectionEngine.detect_patterns Samples.demo_high_risk None) 80 in
     ¬ FusionSpec.threshold_consistent ConfigManager.default_config
         (LocalIntelligenceProvider.f_risk_score f)
         (LocalIntelligenceProvider.f_risk_level f)).
Proof.
  split.
  - eexists. do 3 (split; [reflexivity |]).
    intros H. assert (Hle : (60 <= 65)%Q) by discriminate.
    destruct (H Hle) as [H1 | H1]; discriminate H1.
  - intros f H. assert (Hle : (70 <= 80)%Q) by discriminate.
    destruct (H Hle) as [H1 | H1]; discriminate H1.
Qed.

(** C4, amended. Fusion passes the score through and reports the level
    medium whatever the thresholds are, so a fused result is
    threshold-consistent exactly when its score is below [high_risk_score];
    and the local backend always returns the score 65 with the level
    medium. *)
Theorem fuse_results_level_is_always_medium :
  (∀ rule_result pattern_result score,
     let f := LocalIntelligenceProvider._fuse_results rule_result pattern_result score in
     LocalIntelligenceProvider.f_risk_level f = "medium"
     ∧ LocalIntelligenceProvider.f_risk_score f = score
     ∧ ∀ cm, FusionSpec.threshold_consistent cm
               (LocalIntelligenceProvider.f_risk_score f)
               (LocalIntelligenceProvider.f_risk_level f)
             ↔ (score < ConfigManager.high_risk_score cm)%Q)
  ∧ (∀ transaction_data customer_data,
       ∃ r, LocalIntelligenceProvider.analyze transaction_data customer_data
            = Returned (Some r)
            ∧ risk_level r = Some "medium" ∧ risk_score r = Some 65%Q).
Proof.
  split.
  - intros rule_result pattern_result score f.
    split; [reflexivity |]. split; [reflexivity |].
    intros cm. subst f. simpl. split.
    + intros H.
      destruct (Qlt_le_dec score (ConfigManager.high_risk_score cm)) as [Hlt | Hle];
        [exact Hlt |].
      destruct (H Hle) as [Hhigh | Hsevere]; discriminate.
    + intros Hlt Hle. exfalso. exact (Qlt_not_le _ _ Hlt Hle).
  - intros transaction_data customer_data. eexists.
    split; [reflexivity |]. split; reflexivity.
Qed.

(** ** Learning store *)

(** What one call of [_store_analysis_result] does, by cases on the length
    of the memory. *)
Lemma store_analysis_result_cases cm now transaction_data customer_data result
    (e : IntelligentAIEngine.t) :
  let memory := IntelligentAIEngine.learning_memory e in
  let entry :=
    {| le_timestamp := now; le_transaction := transaction_data;
       le_customer := customer_data; le_result := result; le_feedback := None |} in
  IntelligentAIEngine._store_analysis_result cm now transaction_data customer_data result e
  = if decide (ConfigManager.pattern_memory_size cm ≤ Z.of_nat (length memory))%Z
    then match memory with
         | [] => (Raised IndexError, e)
         | _ :: rest =>
             (Returned tt, IntelligentAIEngine.set_learning_memory (rest ++ [entry]) e)
         end
    else (Returned tt, IntelligentAIEngine.set_learning_memory (memory ++ [entry]) e).
Proof.
  intros memory entry. subst memory.
  unfold IntelligentAIEngine._store_analysis_result, mbind, M_bind, get, modify; simpl.
  destruct (decide _) as [Hfull | Hroom]; [| reflexivity].
  destruct (IntelligentAIEngine.learning_memory e) as [| oldest rest]; reflexivity.
Qed.

(** With a capacity of at least one, a record operation on a memory within
    the capacity returns, and the memory becomes the last [capacity]
    entries of the old memory followed by the new entry. *)
Lemma store_analysis_result_within_capacity cm now transaction_data customer_data result
    (e : IntelligentAIEngine.t) :
  let capacity := Z.to_nat (ConfigManager.pattern_memory_size cm) in
  let memory := IntelligentAIEngine.learning_memory e in
  let entry :=
    {| le_timestamp := now; le_transaction := transaction_data;
       le_customer := customer_data; le_result := result; le_feedback := None |} in
  (1 ≤ ConfigManager.pattern_memory_size cm)%Z →
  (length memory ≤ capacity)%nat →
  IntelligentAIEngine._store_analysis_result cm now transaction_data customer_data result e
  = (Returned tt,
     IntelligentAIEngine.set_learning_memory
       (drop (length (memory ++ [entry]) - capacity) (memory ++ [entry])) e).
Proof.
  intros capacity memory entry Hcap Hlen.
  rewrite store_analysis_result_cases. fold memory entry.
  rewrite length_app. simpl.
  destruct (decide _) as [Hfull | Hroom].
  - assert (Heq : length memory = capacity) by (subst capacity; lia).
    destruct memory as [| oldest rest] eqn:Hmem; [simpl in Heq; subst capacity; lia |].
    replace (length (oldest :: rest) + 1 - capacity) with 1 by lia.
    reflexivity.
  - replace (length memory + 1 - capacity) with 0 by (subst capacity; lia).
    reflexivity.
Qed.

(** Keeping the last [capacity] elements after each append keeps the last
    [capacity] elements of the whole. *)
Lemma drop_keep_last {A} (capacity : nat) (l es : list A) :
  let kept := drop (length l - capacity) l in
  drop (length (kept ++ es) - capacity) (kept ++ es)
  = drop (length (l ++ es) - capacity) (l ++ es).
Proof.
  intros kept. subst kept.
  rewrite <- drop_app_le by lia.
  rewrite drop_drop. f_equal.
  rewrite length_drop, !length_app. lia.
Qed.

Lemma record_all_from_within_capacity cm (items : list LearningStoreSpec.insertion) :
  let capacity := Z.to_nat (ConfigManager.pattern_memory_size cm) in
  (1 ≤ ConfigManager.pattern_memory_size cm)%Z →
  ∀ e : IntelligentAIEngine.t,
    (length (IntelligentAIEngine.learning_memory e) ≤ capacity)%nat →
    let all := IntelligentAIEngine.learning_memory e
               ++ (LearningStoreSpec.entry_of <$> items) in
    LearningStoreSpec.record_all cm items e
    = (Returned tt,
       IntelligentAIEngine.set_learning_memory (drop (length all - capacity) all) e).
Proof.
  intros capacity Hcap. induction items as [| i items IH]; intros e Hlen all.
  - subst all. simpl. rewrite app_nil_r.
    replace (length (IntelligentAIEngine.learning_memory e) - capacity) with 0 by lia.
    destruct e; reflexivity.
  - subst all. simpl. unfold mbind, M_bind.
    rewrite store_analysis_result_within_capacity by assumption.
    fold (LearningStoreSpec.entry_of i). fold capacity.
    set (memory := IntelligentAIEngine.learning_memory e) in *.
    set (kept := drop (length (memory ++ [LearningStoreSpec.entry_of i]) - capacity)
                   (memory ++ [LearningStoreSpec.entry_of i])).
    assert (Hkept : (length kept ≤ capacity)%nat).
    { subst kept. rewrite length_drop, length_app. simpl. lia. }
    rewrite (IH (IntelligentAIEngine.set_learning_memory kept e) Hkept).
    f_equal. unfold IntelligentAIEngine.set_learning_memory. cbn [IntelligentAIEngine.learning_memory
      IntelligentAIEngine.config IntelligentAIEngine.available_providers
      IntelligentAIEngine.performance_metrics IntelligentAIEngine.attempts].
    f_equal. subst kept.
    rewrite (drop_keep_last capacity (memory ++ [LearningStoreSpec.entry_of i])).
    by rewrite <- app_assoc.
Qed.

(** C5. The learning store is a bounded FIFO. With a capacity of at least
    one (1000 by default), any sequence of record operations from the empty
    store returns and leaves a store of at most [capacity] entries, namely
    the most recent [capacity] appended entries in insertion order; after
    [capacity + 1] insertions the store is the sequence of appended entries
    without the first one, which is then absent when the entries are
    pairwise different. *)
Theorem learning_store_is_bounded_fifo cm (items : list LearningStoreSpec.insertion)
    (e : IntelligentAIEngine.t) :
  let capacity := Z.to_nat (ConfigManager.pattern_memory_size cm) in
  let appended := LearningStoreSpec.entry_of <$> items in
  (1 ≤ ConfigManager.pattern_memory_size cm)%Z →
  IntelligentAIEngine.learning_memory e = [] →
  ConfigManager.pattern_memory_size ConfigManager.default_config = 1000%Z
  ∧ ∃ e', LearningStoreSpec.record_all cm items e = (Returned tt, e')
      ∧ (length (IntelligentAIEngine.learning_memory e') ≤ capacity)%nat
      ∧ IntelligentAIEngine.learning_memory e' = drop (length items - capacity) appended
      ∧ (length items = S capacity →
         IntelligentAIEngine.learning_memory e' = drop 1 appended
         ∧ length (IntelligentAIEngine.learning_memory e') = capacity
         ∧ ∀ first, head appended = Some first → NoDup appended →
             first ∉ IntelligentAIEngine.learning_memory e').
Proof.
  intros capacity appended Hcap Hempty. split; [reflexivity |].
  pose proof (record_all_from_within_capacity cm items Hcap e) as Hrun.
  rewrite Hempty in Hrun. simpl in Hrun. specialize (Hrun ltac:(lia)).
  rewrite length_fmap in Hrun. fold appended capacity in Hrun.
  eexists. split; [exact Hrun |]. simpl.
  split; [| split; [reflexivity |]].
  - rewrite length_drop. subst appended. rewrite length_fmap. lia.
  - intros Hlen. rewrite Hlen.
    replace (S capacity - capacity) with 1 by lia.
    split; [reflexivity |]. split.
    + rewrite length_drop. subst appended. rewrite length_fmap. lia.
    + intros first Hhead Hnodup Hin.
      destruct appended as [| x rest]; [discriminate |].
      simpl in Hhead. injection Hhead as ->. simpl in Hin. rewrite drop_0 in Hin.
      apply NoDup_cons in Hnodup. tauto.
Qed.

Lemma learning_store_capacity_two_sample :
  ∃ e', LearningStoreSpec.record_all
          (Samples.with_pattern_memory_size 2 ConfigManager.default_config)
          Samples.three_insertions Samples.default_engine = (Returned tt, e')
        ∧ IntelligentAIEngine.learning_memory e'
          = drop 1 (LearningStoreSpec.entry_of <$> Samples.three_insertions).
Proof.
  destruct (learning_store_is_bounded_fifo
              (Samples.with_pattern_memory_size 2 ConfigManager.default_config)
              Samples.three_insertions Samples.default_engine)
    as [_ (e' & Hrun & _ & _ & Hfull)].
  - simpl. lia.
  - reflexivity.
  - exists e'. split; [exact Hrun |]. apply Hfull. reflexivity.
Defined.

(** ** Feedback *)

(** C6, as stated, fails: after the same transaction has been analysed
    twice, feedback for its id lands on the older of the two entries and
    the most recent one is left without feedback. *)
Lemma feedback_misses_most_recent_entry :
  let cm := ConfigManager.default_config in
  let run : M IntelligentAIEngine.t unit :=
    IntelligentAIEngine.analyze_transaction cm "2024-01-15T10:00:00" Samples.demo_normal None;;
    IntelligentAIEngine.analyze_transaction cm "2024-01-15T11:00:00" Samples.demo_normal None;;
    IntelligentAIEngine.learn_from_feedback "DEMO_NORMAL_001" Samples.corrected_assessment in
  ∃ older newer e',
    run Samples.default_engine = (Returned tt, e')
    ∧ IntelligentAIEngine.learning_memory e' = [older; newer]
    ∧ tx_transaction_id (le_transaction older) = Some "DEMO_NORMAL_001"
    ∧ tx_transaction_id (le_transaction newer) = Some "DEMO_NORMAL_001"
    ∧ le_timestamp older = "2024-01-15T10:00:00"
    ∧ le_timestamp newer = "2024-01-15T11:00:00"
    ∧ le_feedback older = Some Samples.corrected_assessment
    ∧ le_feedback newer = None.
Proof.
  do 3 eexists. split; [vm_compute; reflexivity |].
  repeat split.
Qed.

Lemma attach_feedback_first_match (transaction_id : string) (fb : Assessment)
    (memory : list LearningEntry) :
  let matches (entry : LearningEntry) :=
    tx_transaction_id (le_transaction entry) = Some transaction_id in
  (Forall (λ entry, ¬ matches entry) memory
   ∧ IntelligentAIEngine.attach_feedback transaction_id fb memory = memory)
  ∨ (∃ before entry after,
       memory = before ++ entry :: after
       ∧ Forall (λ entry, ¬ matches entry) before
       ∧ matches entry
       ∧ IntelligentAIEngine.attach_feedback transaction_id fb memory
         = before ++ set_feedback fb entry :: after).
Proof.
  intros matches. induction memory as [| entry rest IH]; simpl.
  - left. split; [constructor | reflexivity].
  - destruct (decide _) as [Hyes | Hno].
    + right. exists [], entry, rest. repeat split; [constructor | exact Hyes].
    + destruct IH as [[Hnone Heq] | (before & hit & after & Hmem & Hbefore & Hhit & Heq)].
      * left. split; [by constructor | by rewrite Heq].
      * right. exists (entry :: before), hit, after.
        split; [by rewrite Hmem |]. split; [by constructor |].
        split; [exact Hhit | by rewrite Heq].
Qed.

(** C6, amended. [learn_from_feedback] returns, and attaches the feedback
    to the first entry of the learning store, in insertion order (the
    oldest one), whose transaction id matches; every other entry, the
    length of the store and the performance metrics are unchanged, and
    without a matching entry the store is unchanged. *)
Theorem feedback_attaches_to_oldest_matching_entry (transaction_id : string)
    (fb : Assessment) (e : IntelligentAIEngine.t) :
  let matches (entry : LearningEntry) :=
    tx_transaction_id (le_transaction entry) = Some transaction_id in
  let memory := IntelligentAIEngine.learning_memory e in
  ∃ e', IntelligentAIEngine.learn_from_feedback transaction_id fb e = (Returned tt, e')
    ∧ IntelligentAIEngine.performance_metrics e' = IntelligentAIEngine.performance_metrics e
    ∧ IntelligentAIEngine.available_providers e' = IntelligentAIEngine.available_providers e
    ∧ ((Forall (λ entry, ¬ matches entry) memory
        ∧ IntelligentAIEngine.learning_memory e' = memory)
       ∨ (∃ before entry after,
            memory = before ++ entry :: after
            ∧ Forall (λ entry, ¬ matches entry) before
            ∧ matches entry
            ∧ IntelligentAIEngine.learning_memory e'
              = before ++ set_feedback fb entry :: after)).
Proof.
  intros matches memory. eexists. split; [reflexivity |]. simpl.
  split; [reflexivity |]. split; [reflexivity |].
  apply attach_feedback_first_match.
Qed.

(** ** The fallback orchestrator *)

(** The two [try] bodies, step by step. *)
Lemma primary_body_cases cm now name p transaction_data customer_data
    (e : IntelligentAIEngine.t) :
  IntelligentAIEngine.primary_body cm now name p transaction_data customer_data e
  = let e1 := IntelligentAIEngine.log_attempt name e in
    match p with
    | None => (Raised AttributeError, e1)
    | Some prov =>
        match analyze prov transaction_data customer_data with
        | Raised ex => (Raised ex, e1)
        | Returned None => (Raised TypeError, e1)
        | Returned (Some d) =>
            let d1 := set_ai_provider name d in
            let r := set_confidence (IntelligentAIEngine._calculate_confidence e1 d1) d1 in
            match IntelligentAIEngine._store_analysis_result cm now
                    transaction_data customer_data r e1 with
            | (Returned _, e2) => (Returned r, e2)
            | (Raised ex, e2) => (Raised ex, e2)
            end
        end
    end.
Proof.
  unfold IntelligentAIEngine.primary_body, IntelligentAIEngine.call_analyze,
    IntelligentAIEngine.as_dict, mbind, M_bind, modify, get, raise, lift_outcome, mret, M_ret.
  destruct p as [prov |]; [| reflexivity].
  destruct (analyze prov transaction_data customer_data) as [[d |] | ex]; reflexivity.
Qed.

Lemma fallback_body_cases cm now name p transaction_data customer_data
    (e : IntelligentAIEngine.t) :
  IntelligentAIEngine.fallback_body cm now name p transaction_data customer_data e
  = let e1 := IntelligentAIEngine.log_attempt name e in
    match p with
    | None => (Raised AttributeError, e1)
    | Some prov =>
        match analyze prov transaction_data customer_data with
        | Raised ex => (Raised ex, e1)
        | Returned None => (Raised TypeError, e1)
        | Returned (Some d) =>
            let d1 := set_ai_provider name d in
            let r := set_fallback_used true
                       (set_confidence (IntelligentAIEngine._calculate_confidence e1 d1) d1) in
            match IntelligentAIEngine._store_analysis_result cm now
                    transaction_data customer_data r e1 with
            | (Returned _, e2) => (Returned r, e2)
            | (Raised ex, e2) => (Raised ex, e2)
            end
        end
    end.
Proof.
  unfold IntelligentAIEngine.fallback_body, IntelligentAIEngine.call_analyze,
    IntelligentAIEngine.as_dict, mbind, M_bind, modify, get, raise, lift_outcome, mret, M_ret.
  destruct p as [prov |]; [| reflexivity].
  destruct (analyze prov transaction_data customer_data) as [[d |] | ex]; reflexivity.
Qed.

Lemma with_attempts_same (e : IntelligentAIEngine.t) :
  OrchestratorSpec.with_attempts (IntelligentAIEngine.attempts e) e = e.
Proof. by destruct e. Qed.

Lemma log_attempt_with_attempts name a (e : IntelligentAIEngine.t) :
  IntelligentAIEngine.log_attempt name (OrchestratorSpec.with_attempts a e)
  = OrchestratorSpec.with_attempts (a ++ [name]) e.
Proof. reflexivity. Qed.

(** The record of attempts does not influence a record operation. *)
Lemma store_with_attempts cm now transaction_data customer_data result a
    (e : IntelligentAIEngine.t) :
  IntelligentAIEngine._store_analysis_result cm now transaction_data customer_data result
    (OrchestratorSpec.with_attempts a e)
  = let '(o, e') := IntelligentAIEngine._store_analysis_result cm now
                      transaction_data customer_data result e in
    (o, OrchestratorSpec.with_attempts a e').
Proof.
  rewrite !store_analysis_result_cases. simpl.
  destruct (decide _) as [Hfull | Hroom]; [| reflexivity].
  destruct (IntelligentAIEngine.learning_memory e) as [| oldest rest]; reflexivity.
Qed.

(** A record operation that raises leaves the engine as it was. *)
Lemma store_raises_unchanged cm now transaction_data customer_data result
    (e e' : IntelligentAIEngine.t) ex :
  IntelligentAIEngine._store_analysis_result cm now transaction_data customer_data result e
  = (Raised ex, e') → e' = e.
Proof.
  rewrite store_analysis_result_cases. simpl.
  destruct (decide _) as [Hfull | Hroom]; [| discriminate].
  destruct (IntelligentAIEngine.learning_memory e) as [| oldest rest];
    [congruence | discriminate].
Qed.

(** A record operation touches only the learning memory. *)
Lemma store_frame cm now transaction_data customer_data result
    (e e' : IntelligentAIEngine.t) o :
  IntelligentAIEngine._store_analysis_result cm now transaction_data customer_data result e
  = (o, e') →
  IntelligentAIEngine.attempts e' = IntelligentAIEngine.attempts e
  ∧ IntelligentAIEngine.available_providers e' = IntelligentAIEngine.available_providers e
  ∧ IntelligentAIEngine.config e' = IntelligentAIEngine.config e.
Proof.
  rewrite store_analysis_result_cases. simpl.
  destruct (decide _) as [Hfull | Hroom];
    [destruct (IntelligentAIEngine.learning_memory e) as [| oldest rest] |];
    intros [= <- <-]; done.
Qed.

(** A fallback attempt runs the same way whatever the record of attempts
    is, and appends its own name to it. *)
Lemma fallback_body_with_attempts cm now name p transaction_data customer_data a
    (e : IntelligentAIEngine.t) :
  IntelligentAIEngine.fallback_body cm now name p transaction_data customer_data
    (OrchestratorSpec.with_attempts a e)
  = let '(o, e') := IntelligentAIEngine.fallback_body cm now name p
                      transaction_data customer_data e in
    (o, OrchestratorSpec.with_attempts (a ++ [name]) e').
Proof.
  rewrite !fallback_body_cases. simpl.
  destruct p as [prov |]; [| reflexivity].
  destruct (analyze prov transaction_data customer_data) as [[d |] | ex]; try reflexivity.
  change (IntelligentAIEngine.log_attempt name (OrchestratorSpec.with_attempts a e))
    with (OrchestratorSpec.with_attempts (a ++ [name]) (IntelligentAIEngine.log_attempt name e)).
  change (IntelligentAIEngine._calculate_confidence
            (OrchestratorSpec.with_attempts (a ++ [name]) (IntelligentAIEngine.log_attempt name e))
            (set_ai_provider name d))
    with (IntelligentAIEngine._calculate_confidence
            (IntelligentAIEngine.log_attempt name e) (set_ai_provider name d)).
  rewrite store_with_attempts.
  destruct (IntelligentAIEngine._store_analysis_result _ _ _ _ _ _) as [[[] | ex] e2];
    reflexivity.
Qed.

(** An attempt that raises has recorded its name and changed nothing else. *)
Lemma fallback_body_raises cm now name p transaction_data customer_data
    (e e' : IntelligentAIEngine.t) ex :
  IntelligentAIEngine.fallback_body cm now name p transaction_data customer_data e
  = (Raised ex, e') → e' = IntelligentAIEngine.log_attempt name e.
Proof.
  rewrite fallback_body_cases. simpl.
  destruct p as [prov |]; [| congruence].
  destruct (analyze prov transaction_data customer_data) as [[d |] | ex']; try congruence.
  destruct (IntelligentAIEngine._store_analysis_result _ _ _ _ _ _) as [[[] | ex'] e2] eqn:Hstore;
    [discriminate |].
  intros [= -> <-]. by apply store_raises_unchanged in Hstore.
Qed.

Lemma primary_body_raises cm now name p transaction_data customer_data
    (e e' : IntelligentAIEngine.t) ex :
  IntelligentAIEngine.primary_body cm now name p transaction_data customer_data e
  = (Raised ex, e') → e' = IntelligentAIEngine.log_attempt name e.
Proof.
  rewrite primary_body_cases. simpl.
  destruct p as [prov |]; [| congruence].
  destruct (analyze prov transaction_data customer_data) as [[d |] | ex']; try congruence.
  destruct (IntelligentAIEngine._store_analysis_result _ _ _ _ _ _) as [[[] | ex'] e2] eqn:Hstore;
    [discriminate |].
  intros [= -> <-]. by apply store_raises_unchanged in Hstore.
Qed.

(** An attempt that returns has recorded its name once, kept the
    registered backends, and marked the result. *)
Lemma fallback_body_returns cm now name p transaction_data customer_data
    (e e' : IntelligentAIEngine.t) r :
  IntelligentAIEngine.fallback_body cm now name p transaction_data customer_data e
  = (Returned r, e') →
  IntelligentAIEngine.attempts e' = IntelligentAIEngine.attempts e ++ [name]
  ∧ ai_provider r = Some name ∧ fallback_used r = Some true.
Proof.
  rewrite fallback_body_cases. simpl.
  destruct p as [prov |]; [| discriminate].
  destruct (analyze prov transaction_data customer_data) as [[d |] | ex']; try discriminate.
  destruct (IntelligentAIEngine._store_analysis_result _ _ _ _ _ _) as [[[] | ex'] e2] eqn:Hstore;
    [| discriminate].
  intros [= <- <-]. apply store_frame in Hstore as (-> & _ & _). done.
Qed.

Lemma primary_body_returns cm now name p transaction_data customer_data
    (e e' : IntelligentAIEngine.t) r :
  IntelligentAIEngine.primary_body cm now name p transaction_data customer_data e
  = (Returned r, e') →
  IntelligentAIEngine.attempts e' = IntelligentAIEngine.attempts e ++ [name]
  ∧ ai_provider r = Some name.
Proof.
  rewrite primary_body_cases. simpl.
  destruct p as [prov |]; [| discriminate].
  destruct (analyze prov transaction_data customer_data) as [[d |] | ex']; try discriminate.
  destruct (IntelligentAIEngine._store_analysis_result _ _ _ _ _ _) as [[[] | ex'] e2] eqn:Hstore;
    [| discriminate].
  intros [= <- <-]. apply store_frame in Hstore as (-> & _ & _). done.
Qed.

(** The fallback loop never raises. It tries the backends other than the
    primary one in registration order and stops at the first attempt that
    returns; when it runs to its end every attempt has failed and only the
    record of attempts has changed. [e0] is the engine at the start of the
    request and [a] the record of attempts when the loop is entered. *)
Lemma fallback_loop_sweep cm now primary transaction_data customer_data
    (e0 : IntelligentAIEngine.t) (items : list (string * option Provider)) :
  ∀ a,
    let others := OrchestratorSpec.not_primary primary items.*1 in
    ∃ k o e',
      IntelligentAIEngine.fallback_loop cm now primary items transaction_data customer_data
        (OrchestratorSpec.with_attempts a e0) = (Returned o, e')
      ∧ (k ≤ length others)%nat
      ∧ IntelligentAIEngine.attempts e' = a ++ take k others
      ∧ match o with
        | None =>
            k = length others
            ∧ e' = OrchestratorSpec.with_attempts (a ++ others) e0
            ∧ ∀ name p, (name, p) ∈ items → name ≠ primary →
                OrchestratorSpec.fails
                  (IntelligentAIEngine.fallback_body cm now name p
                     transaction_data customer_data) e0
        | Some r =>
            ∃ name p e1,
              (name, p) ∈ items ∧ name ≠ primary
              ∧ IntelligentAIEngine.fallback_body cm now name p
                  transaction_data customer_data e0 = (Returned r, e1)
        end.
Proof.
  induction items as [| [name p] items IH]; intros a others.
  - exists 0, None, (OrchestratorSpec.with_attempts a e0). subst others. simpl.
    split; [reflexivity |]. split; [lia |]. split; [by rewrite app_nil_r |].
    split; [reflexivity |].
    split; [unfold OrchestratorSpec.not_primary; by rewrite filter_nil, app_nil_r |].
    intros name p Hin. by apply elem_of_nil in Hin.
  - simpl. destruct (decide (name ≠ primary)) as [Hother | Hprimary].
    + assert (Hothers : others = name :: OrchestratorSpec.not_primary primary items.*1).
      { subst others. unfold OrchestratorSpec.not_primary. simpl.
        by rewrite filter_cons_True. }
      unfold mbind at 1, M_bind at 1, try_except, mbind at 1, M_bind at 1.
      rewrite fallback_body_with_attempts.
      destruct (IntelligentAIEngine.fallback_body cm now name p
                  transaction_data customer_data e0) as [[r | ex] e1] eqn:Hbody.
      * exists 1, (Some r), (OrchestratorSpec.with_attempts (a ++ [name]) e1).
        rewrite Hothers. simpl. repeat split; try done; [lia |].
        exists name, p, e1. repeat split; [apply elem_of_cons; by left | done | done].
      * pose proof (fallback_body_raises _ _ _ _ _ _ _ _ _ Hbody) as ->.
        change (OrchestratorSpec.with_attempts (a ++ [name])
                  (IntelligentAIEngine.log_attempt name e0))
          with (OrchestratorSpec.with_attempts (a ++ [name]) e0).
        destruct (IH (a ++ [name])) as (k & o & e' & Hrun & Hk & Hatt & Ho).
        exists (S k), o, e'. rewrite Hothers. simpl.
        split; [exact Hrun |]. split; [lia |].
        split; [by rewrite Hatt, <- app_assoc |].
        destruct o as [r |].
        -- destruct Ho as (name' & p' & e1 & Hin & Hne & Hret).
           exists name', p', e1. repeat split; [apply elem_of_cons; by right | done | done].
        -- destruct Ho as (-> & -> & Hfail). split; [done |].
           split; [by rewrite <- app_assoc |].
           intros name' p' Hin Hne. apply elem_of_cons in Hin as [[= -> ->] | Hin].
           ++ unfold OrchestratorSpec.fails. eauto.
           ++ by apply Hfail.
    + assert (Hothers : others = OrchestratorSpec.not_primary primary items.*1).
      { subst others. unfold OrchestratorSpec.not_primary. simpl.
        by rewrite filter_cons_False. }
      destruct (IH a) as (k & o & e' & Hrun & Hk & Hatt & Ho).
      exists k, o, e'. rewrite Hothers.
      split; [exact Hrun |]. split; [exact Hk |]. split; [exact Hatt |].
      destruct o as [r |].
      * destruct Ho as (name' & p' & e1 & Hin & Hne & Hret).
        exists name', p', e1. repeat split; [apply elem_of_cons; by right | done | done].
      * destruct Ho as (-> & -> & Hfail). repeat split; try done.
        intros name' p' Hin Hne. apply elem_of_cons in Hin as [[= -> ->] | Hin];
          [by destruct Hprimary | by apply Hfail].
Qed.

(** [analyze_transaction] in terms of its three phases. *)
Lemma analyze_transaction_cases cm now transaction_data customer_data
    (e : IntelligentAIEngine.t) :
  IntelligentAIEngine.analyze_transaction cm now transaction_data customer_data e
  = let primary := ConfigManager.provider (IntelligentAIEngine.config e) in
    let providers := IntelligentAIEngine.available_providers e in
    let after_primary :=
      match dict_get primary providers with
      | Some p =>
          match IntelligentAIEngine.primary_body cm now primary p
                  transaction_data customer_data e with
          | (Returned r, e1) => (Some r, e1)
          | (Raised _, e1) => (None, e1)
          end
      | None => (None, e)
      end in
    match after_primary with
    | (Some r, e1) => (Returned (Some r), e1)
    | (None, e1) =>
        match IntelligentAIEngine.fallback_loop cm now primary providers
                transaction_data customer_data e1 with
        | (Returned (Some r), e2) => (Returned (Some r), e2)
        | (Returned None, e2) =>
            match dict_get "local" providers with
            | None => (Raised KeyError, e2)
            | Some p =>
                IntelligentAIEngine.call_analyze "local" p
                  transaction_data customer_data e2
            end
        | (Raised ex, e2) => (Raised ex, e2)
        end
    end.
Proof.
  unfold IntelligentAIEngine.analyze_transaction.
  unfold mbind at 1, M_bind at 1, get. simpl.
  unfold mbind at 1, M_bind at 1.
  destruct (dict_get _ _) as [p |].
  - unfold try_except, mbind at 1, M_bind at 1.
    destruct (IntelligentAIEngine.primary_body _ _ _ _ _ _ _) as [[r | ex] e1]; simpl.
    + reflexivity.
    + unfold mbind, M_bind.
      destruct (IntelligentAIEngine.fallback_loop _ _ _ _ _ _ _) as [[[r |] | ex'] e2];
        try reflexivity.
      destruct (dict_get "local" _); reflexivity.
  - simpl. unfold mbind, M_bind.
    destruct (IntelligentAIEngine.fallback_loop _ _ _ _ _ _ _) as [[[r |] | ex'] e2];
      try reflexivity.
    destruct (dict_get "local" _); reflexivity.
Qed.

Lemma dict_get_elem_of {V} (k : string) (d : list (string * V)) (v : V) :
  dict_get k d = Some v → (k, v) ∈ d.
Proof.
  induction d as [| [k' v'] d IH]; simpl; [discriminate |].
  destruct (decide (k' = k)) as [-> | Hne].
  - intros [= ->]. apply elem_of_cons. by left.
  - intros H. apply elem_of_cons. right. by apply IH.
Qed.

Lemma dict_get_None {V} (k : string) (d : list (string * V)) :
  dict_get k d = None ↔ k ∉ d.*1.
Proof.
  induction d as [| [k' v'] d IH]; simpl.
  - split; [intros _; apply not_elem_of_nil | done].
  - destruct (decide (k' = k)) as [-> | Hne].
    + split; [discriminate |]. intros H. destruct H. apply elem_of_cons. by left.
    + rewrite IH, not_elem_of_cons.
      split; [intros H; split; [congruence | done] | by intros [_ H]].
Qed.

Lemma filter_absent (name : string) (l : list string) :
  name ∉ l → filter (λ n, n = name) l = [].
Proof.
  induction l as [| x l IH]; [done |].
  intros Hn. apply not_elem_of_cons in Hn as [Hne Hn].
  rewrite filter_cons_False by done. by apply IH.
Qed.

(** A name occurs at most once in a list without duplicates. *)
Lemma NoDup_occurrences (name : string) (l : list string) :
  NoDup l → (length (filter (λ n, n = name) l) ≤ 1)%nat.
Proof.
  induction 1 as [| x l Hx Hl IH]; [rewrite filter_nil; simpl; lia |].
  destruct (decide (x = name)) as [-> | Hne].
  - rewrite filter_cons_True by done. rewrite filter_absent by done. simpl. lia.
  - by rewrite filter_cons_False.
Qed.

Lemma call_analyze_logs name p transaction_data customer_data
    (e e' : IntelligentAIEngine.t) o :
  IntelligentAIEngine.call_analyze name p transaction_data customer_data e = (o, e') →
  e' = IntelligentAIEngine.log_attempt name e
  ∧ o = match p with
        | None => Raised AttributeError
        | Some prov => analyze prov transaction_data customer_data
        end.
Proof.
  unfold IntelligentAIEngine.call_analyze, mbind, M_bind, modify, raise, lift_outcome.
  destruct p as [prov |]; intros [= <- <-]; done.
Qed.

(** The sweep returns the result of the first backend, in registration
    order and not the primary one, whose attempt succeeds. *)
Lemma fallback_loop_first_success cm now primary transaction_data customer_data
    (e0 e1 : IntelligentAIEngine.t) (before : list (string * option Provider))
    name p after r :
  name ≠ primary →
  (∀ n q, (n, q) ∈ before → n ≠ primary →
     OrchestratorSpec.fails
       (IntelligentAIEngine.fallback_body cm now n q transaction_data customer_data) e0) →
  IntelligentAIEngine.fallback_body cm now name p transaction_data customer_data e0
  = (Returned r, e1) →
  ∀ a,
    IntelligentAIEngine.fallback_loop cm now primary (before ++ (name, p) :: after)
      transaction_data customer_data (OrchestratorSpec.with_attempts a e0)
    = (Returned (Some r),
       OrchestratorSpec.with_attempts
         (a ++ OrchestratorSpec.not_primary primary before.*1 ++ [name]) e1).
Proof.
  intros Hname Hbefore Hbody.
  induction before as [| [n q] before IH]; intros a; simpl.
  - rewrite decide_True by done.
    unfold mbind at 1, M_bind at 1, try_except, mbind at 1, M_bind at 1.
    rewrite fallback_body_with_attempts, Hbody. reflexivity.
  - assert (Hrest : ∀ n' q', (n', q') ∈ before → n' ≠ primary →
              OrchestratorSpec.fails
                (IntelligentAIEngine.fallback_body cm now n' q'
                   transaction_data customer_data) e0).
    { intros n' q' Hin. apply Hbefore. apply elem_of_cons. by right. }
    destruct (decide (n ≠ primary)) as [Hother | Hprimary].
    + destruct (Hbefore n q ltac:(apply elem_of_cons; by left) Hother) as (ex & e2 & Hfail).
      unfold mbind at 1, M_bind at 1, try_except, mbind at 1, M_bind at 1.
      rewrite fallback_body_with_attempts, Hfail.
      pose proof (fallback_body_raises _ _ _ _ _ _ _ _ _ Hfail) as ->.
      change (OrchestratorSpec.with_attempts (a ++ [n])
                (IntelligentAIEngine.log_attempt n e0))
        with (OrchestratorSpec.with_attempts (a ++ [n]) e0).
      simpl. rewrite (IH Hrest (a ++ [n])).
      unfold OrchestratorSpec.not_primary. rewrite filter_cons_True by done.
      by rewrite <- !app_assoc.
    + rewrite (IH Hrest a).
      unfold OrchestratorSpec.not_primary. by rewrite filter_cons_False.
Qed.

Lemma dict_get_of_elem_of {V} (k : string) (v : V) (d : list (string * V)) :
  NoDup d.*1 → (k, v) ∈ d → dict_get k d = Some v.
Proof.
  induction d as [| [k' v'] d IH]; simpl; intros Hnodup Hin.
  - by apply elem_of_nil in Hin.
  - apply NoDup_cons in Hnodup as [Hfresh Hnodup].
    apply elem_of_cons in Hin as [[= -> ->] | Hin].
    + by rewrite decide_True.
    + rewrite decide_False; [by apply IH |].
      intros ->. apply Hfresh. apply list_elem_of_fmap. by exists (k, v).
Qed.

(** Either some backend other than the primary one is the first, in
    registration order, whose attempt succeeds, or the attempt on every
    one of them fails. *)
Lemma first_success_split cm now primary transaction_data customer_data
    (e0 : IntelligentAIEngine.t) (items : list (string * option Provider)) :
  (∃ before name p after r e1,
     items = before ++ (name, p) :: after
     ∧ name ≠ primary
     ∧ (∀ n q, (n, q) ∈ before → n ≠ primary →
          OrchestratorSpec.fails
            (IntelligentAIEngine.fallback_body cm now n q transaction_data customer_data) e0)
     ∧ IntelligentAIEngine.fallback_body cm now name p transaction_data customer_data e0
       = (Returned r, e1))
  ∨ (∀ n q, (n, q) ∈ items → n ≠ primary →
       OrchestratorSpec.fails
         (IntelligentAIEngine.fallback_body cm now n q transaction_data customer_data) e0).
Proof.
  induction items as [| [n q] items IH].
  - right. intros n q Hin. by apply elem_of_nil in Hin.
  - destruct (decide (n ≠ primary)) as [Hother | Hprimary].
    + destruct (IntelligentAIEngine.fallback_body cm now n q
                  transaction_data customer_data e0) as [[r | ex] e1] eqn:Hbody.
      * left. exists [], n, q, items, r, e1.
        split; [done |]. split; [done |]. split; [| done].
        intros n' q' Hin. by apply elem_of_nil in Hin.
      * destruct IH as [(before & name & p & after & r & e2 & -> & Hne & Hbefore & Hret)
                       | Hall].
        -- left. exists ((n, q) :: before), name, p, after, r, e2.
           split; [done |]. split; [done |]. split; [| done].
           intros n' q' Hin Hne'. apply elem_of_cons in Hin as [[= -> ->] | Hin];
             [by exists ex, e1 | by apply Hbefore].
        -- right. intros n' q' Hin Hne'. apply elem_of_cons in Hin as [[= -> ->] | Hin];
             [by exists ex, e1 | by apply Hall].
    + destruct IH as [(before & name & p & after & r & e2 & -> & Hne & Hbefore & Hret)
                     | Hall].
      * left. exists ((n, q) :: before), name, p, after, r, e2.
        split; [done |]. split; [done |]. split; [| done].
        intros n' q' Hin Hne'. apply elem_of_cons in Hin as [[= -> ->] | Hin];
          [by destruct Hprimary | by apply Hbefore].
      * right. intros n' q' Hin Hne'. apply elem_of_cons in Hin as [[= -> ->] | Hin];
          [by destruct Hprimary | by apply Hall].
Qed.

(** When every attempt fails, the sweep runs to its end and changes only
    the record of attempts. *)
Lemma fallback_loop_all_fail cm now primary transaction_data customer_data
    (e0 : IntelligentAIEngine.t) (items : list (string * option Provider)) a :
  (∀ n q, (n, q) ∈ items → n ≠ primary →
     OrchestratorSpec.fails
       (IntelligentAIEngine.fallback_body cm now n q transaction_data customer_data) e0) →
  IntelligentAIEngine.fallback_loop cm now primary items transaction_data customer_data
    (OrchestratorSpec.with_attempts a e0)
  = (Returned None,
     OrchestratorSpec.with_attempts (a ++ OrchestratorSpec.not_primary primary items.*1) e0).
Proof.
  intros Hall.
  destruct (fallback_loop_sweep cm now primary transaction_data customer_data e0 items a)
    as (k & o & e' & Hrun & _ & _ & Ho).
  destruct o as [r |].
  - destruct Ho as (name & p & e1 & Hin & Hne & Hret).
    destruct (Hall name p Hin Hne) as (ex & e2 & Hraise). congruence.
  - destruct Ho as (_ & -> & _). exact Hrun.
Qed.

(** The part of a request that follows a failed or skipped primary
    attempt. Either the sweep stops at the first backend, other than the
    primary one, whose attempt succeeds, and the request returns its
    result; or every such attempt fails, and the request is the last call
    on ['local']. [a] is the record of attempts when the sweep starts. *)
Lemma sweep_then_last_call_outcome cm now transaction_data customer_data
    (e e' : IntelligentAIEngine.t) (a : list string) o :
  let primary := ConfigManager.provider (IntelligentAIEngine.config e) in
  let providers := IntelligentAIEngine.available_providers e in
  let others := OrchestratorSpec.not_primary primary (OrchestratorSpec.registered e) in
  match IntelligentAIEngine.fallback_loop cm now primary providers
          transaction_data customer_data (OrchestratorSpec.with_attempts a e) with
  | (Returned (Some r), e2) => (Returned (Some r), e2)
  | (Returned None, e2) =>
      match dict_get "local" providers with
      | None => (Raised KeyError, e2)
      | Some p => IntelligentAIEngine.call_analyze "local" p transaction_data customer_data e2
      end
  | (Raised ex, e2) => (Raised ex, e2)
  end = (o, e') →
  (∃ before name p after r e1,
     providers = before ++ (name, p) :: after
     ∧ name ≠ primary
     ∧ (∀ n q, (n, q) ∈ before → n ≠ primary →
          OrchestratorSpec.fails
            (IntelligentAIEngine.fallback_body cm now n q transaction_data customer_data) e)
     ∧ IntelligentAIEngine.fallback_body cm now name p transaction_data customer_data e
       = (Returned r, e1)
     ∧ o = Returned (Some r)
     ∧ IntelligentAIEngine.attempts e'
       = a ++ OrchestratorSpec.not_primary primary before.*1 ++ [name])
  ∨ ((∀ n q, (n, q) ∈ providers → n ≠ primary →
        OrchestratorSpec.fails
          (IntelligentAIEngine.fallback_body cm now n q transaction_data customer_data) e)
     ∧ o = OrchestratorSpec.last_local_call e transaction_data customer_data
     ∧ IntelligentAIEngine.attempts e'
       = a ++ others
           ++ (if decide ("local" ∈ OrchestratorSpec.registered e) then ["local"] else [])).
Proof.
  intros primary providers others.
  destruct (first_success_split cm now primary transaction_data customer_data e providers)
    as [(before & name & p & after & r & e1 & Hsplit & Hne & Hbefore & Hret) | Hall].
  - rewrite Hsplit at 1.
    rewrite (fallback_loop_first_success cm now primary transaction_data customer_data
               e e1 before name p after r Hne Hbefore Hret a).
    intros [= <- <-]. left. exists before, name, p, after, r, e1.
    repeat split; done.
  - rewrite (fallback_loop_all_fail cm now primary transaction_data customer_data
               e providers a Hall).
    intros Hlast. right. split; [exact Hall |].
    unfold OrchestratorSpec.last_local_call. fold providers.
    destruct (dict_get "local" providers) as [p |] eqn:Hget.
    + apply call_analyze_logs in Hlast as [-> ->].
      rewrite decide_True.
      * split; [by destruct p |]. simpl. by rewrite <- app_assoc.
      * apply dict_get_elem_of in Hget. unfold OrchestratorSpec.registered.
        apply list_elem_of_fmap. by exists ("local", p).
    + injection Hlast as <- <-.
      rewrite decide_False by by apply dict_get_None.
      split; [done |]. simpl. by rewrite app_nil_r.
Qed.

Lemma not_primary_split primary (before : list (string * option Provider)) name p after :
  name ≠ primary →
  OrchestratorSpec.not_primary primary (before ++ (name, p) :: after).*1
  = (OrchestratorSpec.not_primary primary before.*1 ++ [name])
      ++ OrchestratorSpec.not_primary primary after.*1.
Proof.
  intros Hne. unfold OrchestratorSpec.not_primary.
  rewrite fmap_app, filter_app, fmap_cons. simpl.
  rewrite filter_cons_True by done. by rewrite <- app_assoc.
Qed.

(** C1, as stated, fails: with a learning store of capacity 0 every record
    operation raises, so the attempt on the primary backend ['local'] fails
    after its [analyze] has returned, and ['local'] is then called a second
    time as the last resort. *)
Lemma local_backend_attempted_twice :
  let cm := Samples.with_pattern_memory_size 0 ConfigManager.default_config in
  let e := IntelligentAIEngine.__init__ None cm in
  ∃ o e',
    IntelligentAIEngine.analyze_transaction cm "2024-01-15T10:00:00"
      Samples.demo_normal None e = (o, e')
    ∧ IntelligentAIEngine.attempts e' = ["local"; "local"]
    ∧ ¬ NoDup (IntelligentAIEngine.attempts e').
Proof.
  do 2 eexists. split; [vm_compute; reflexivity |]. simpl.
  split; [reflexivity |].
  intros Hnodup. apply NoDup_cons in Hnodup as [Hnotin _].
  apply Hnotin. apply list_elem_of_singleton. reflexivity.
Qed.

(** C1, amended. A request first tries the primary backend when it is
    registered, then the other registered backends in registration order,
    and stops at the first attempt that succeeds: every backend tried
    before the one that answers has failed, the one that answers is tried
    last, and in this part no backend is tried twice. Only when the attempt
    on every backend has failed is ['local'] called once more, last, if it
    is registered. So a backend other than ['local'] is tried at most once
    per request, and ['local'] at most twice. A failed attempt leaves the
    engine as it was, so every attempt is stated from the engine at the
    start of the request. *)
Theorem backends_swept_once_then_local_last cm now transaction_data customer_data
    (e e' : IntelligentAIEngine.t) o :
  let primary := ConfigManager.provider (IntelligentAIEngine.config e) in
  let first := if decide (primary ∈ OrchestratorSpec.registered e) then [primary] else [] in
  let others := OrchestratorSpec.not_primary primary (OrchestratorSpec.registered e) in
  let attempt := OrchestratorSpec.attempt cm now transaction_data customer_data e in
  NoDup (OrchestratorSpec.registered e) →
  IntelligentAIEngine.analyze_transaction cm now transaction_data customer_data e = (o, e') →
  ∃ k final,
    let swept := first ++ take k others in
    (k ≤ length others)%nat
    ∧ IntelligentAIEngine.attempts e' = IntelligentAIEngine.attempts e ++ swept ++ final
    ∧ NoDup swept
    ∧ (∀ name,
         (length (filter (λ n, n = name) (swept ++ final))
          ≤ if decide (name = "local") then 2 else 1)%nat)
    ∧ ((∃ tried winner r e1,
          swept = tried ++ [winner]
          ∧ final = []
          ∧ (∀ name, name ∈ tried → OrchestratorSpec.fails (attempt name) e)
          ∧ attempt winner e = (Returned r, e1)
          ∧ o = Returned (Some r))
       ∨ (k = length others
          ∧ (∀ name, name ∈ swept → OrchestratorSpec.fails (attempt name) e)
          ∧ final = (if decide ("local" ∈ OrchestratorSpec.registered e)
                     then ["local"] else [])
          ∧ o = OrchestratorSpec.last_local_call e transaction_data customer_data)).
Proof.
  intros primary first others attempt Hnodup Hrun.
  set (providers := IntelligentAIEngine.available_providers e).
  assert (Hloop : ∀ n q, (n, q) ∈ providers → n ≠ primary →
            attempt n
            = IntelligentAIEngine.fallback_body cm now n q transaction_data customer_data).
  { intros n q Hin Hne. unfold attempt, OrchestratorSpec.attempt.
    rewrite (dict_get_of_elem_of n q _ Hnodup Hin). fold primary.
    by rewrite decide_False. }
  assert (Hsweep : ∀ k, NoDup (first ++ take k others)).
  { intros k. assert (Hothers : NoDup (take k others)).
    { eapply sublist_NoDup; [| apply sublist_take]. by apply NoDup_filter. }
    subst first. destruct (decide _); [| done].
    simpl. apply NoDup_cons. split; [| done].
    intros Hin. apply elem_of_take in Hin as (i & Hi & _).
    apply list_elem_of_lookup_2 in Hi.
    apply list_elem_of_filter in Hi as [Hne _]. done. }
  assert (Hcount : ∀ k final name,
            final = [] ∨ final = ["local"] →
            (length (filter (λ n, n = name) ((first ++ take k others) ++ final))
             ≤ if decide (name = "local") then 2 else 1)%nat).
  { intros k final name Hfinal.
    rewrite (filter_app _ (first ++ take k others) final), length_app.
    pose proof (NoDup_occurrences name _ (Hsweep k)) as Hocc.
    set (n := length (filter (λ n, n = name) (first ++ take k others))) in *.
    destruct Hfinal as [-> | ->].
    - rewrite filter_nil. simpl. destruct (decide (name = "local")); lia.
    - destruct (decide (name = "local")) as [-> | Hne].
      + rewrite filter_cons_True by done. rewrite filter_nil. simpl. lia.
      + rewrite filter_cons_False by done. rewrite filter_nil. simpl. lia. }
  assert (Hafter : ∀ a,
    (∀ name, name ∈ first → OrchestratorSpec.fails (attempt name) e) →
    match IntelligentAIEngine.fallback_loop cm now primary providers
            transaction_data customer_data (OrchestratorSpec.with_attempts a e) with
    | (Returned (Some r), e2) => (Returned (Some r), e2)
    | (Returned None, e2) =>
        match dict_get "local" providers with
        | None => (Raised KeyError, e2)
        | Some p =>
            IntelligentAIEngine.call_analyze "local" p transaction_data customer_data e2
        end
    | (Raised ex, e2) => (Raised ex, e2)
    end = (o, e') →
    ∃ k final,
      (k ≤ length others)%nat
      ∧ IntelligentAIEngine.attempts e' = a ++ take k others ++ final
      ∧ (final = [] ∨ final = ["local"])
      ∧ ((∃ tried winner r e1,
            first ++ take k others = tried ++ [winner]
            ∧ final = []
            ∧ (∀ name, name ∈ tried → OrchestratorSpec.fails (attempt name) e)
            ∧ attempt winner e = (Returned r, e1)
            ∧ o = Returned (Some r))
         ∨ (k = length others
            ∧ (∀ name, name ∈ first ++ take k others →
                 OrchestratorSpec.fails (attempt name) e)
            ∧ final = (if decide ("local" ∈ OrchestratorSpec.registered e)
                       then ["local"] else [])
            ∧ o = OrchestratorSpec.last_local_call e transaction_data customer_data))).
  { intros a Hfirst Hphase.
    apply sweep_then_last_call_outcome in Hphase
      as [(before & name & p & after & r & e1 & Hsplit & Hne & Hbefore & Hret & -> & Hatt)
         | (Hall & -> & Hatt)].
    - fold providers in Hsplit.
      set (tried := OrchestratorSpec.not_primary primary before.*1) in *.
      assert (Htake : take (length (tried ++ [name])) others = tried ++ [name]).
      { unfold others, OrchestratorSpec.registered. fold providers.
        rewrite Hsplit, not_primary_split by done. fold tried.
        by rewrite take_app_length. }
      exists (length (tried ++ [name])), [].
      split. { rewrite <- Htake at 1. rewrite length_take. lia. }
      rewrite Htake. split; [by rewrite app_nil_r |]. split; [by left |].
      left. exists (first ++ tried), name, r, e1.
      split; [by rewrite app_assoc |]. split; [done |]. split.
      + intros n Hn. apply elem_of_app in Hn as [Hn | Hn]; [by apply Hfirst |].
        apply list_elem_of_filter in Hn as [Hnp Hn].
        apply list_elem_of_fmap in Hn as ([n' q] & -> & Hn). simpl in *.
        assert (Hin : (n', q) ∈ providers).
        { rewrite Hsplit. apply elem_of_app. by left. }
        rewrite (Hloop n' q Hin Hnp). by apply Hbefore.
      + split; [| done].
        assert (Hin : (name, p) ∈ providers).
        { rewrite Hsplit. apply elem_of_app. right. apply elem_of_cons. by left. }
        by rewrite (Hloop name p Hin Hne).
    - exists (length others),
        (if decide ("local" ∈ OrchestratorSpec.registered e) then ["local"] else []).
      rewrite take_ge by done.
      split; [done |]. split; [exact Hatt |].
      split.
      { destruct (decide ("local" ∈ OrchestratorSpec.registered e)); [by right | by left]. }
      right. split; [done |]. split; [| done].
      intros n Hn. apply elem_of_app in Hn as [Hn | Hn]; [by apply Hfirst |].
      apply list_elem_of_filter in Hn as [Hnp Hn].
      apply list_elem_of_fmap in Hn as ([n' q] & -> & Hn). simpl in *.
      rewrite (Hloop n' q Hn Hnp). by apply Hall. }
  rewrite analyze_transaction_cases in Hrun. simpl in Hrun. fold primary providers in Hrun.
  destruct (dict_get primary providers) as [p |] eqn:Hget.
  - assert (Hin : primary ∈ OrchestratorSpec.registered e).
    { apply dict_get_elem_of in Hget. unfold OrchestratorSpec.registered.
      apply list_elem_of_fmap. by exists (primary, p). }
    assert (Hfirst : first = [primary]) by (subst first; by rewrite decide_True).
    assert (Hprimary : attempt primary
              = IntelligentAIEngine.primary_body cm now primary p
                  transaction_data customer_data).
    { unfold attempt, OrchestratorSpec.attempt. fold providers primary.
      rewrite Hget. by rewrite decide_True. }
    destruct (IntelligentAIEngine.primary_body _ _ _ _ _ _ _) as [[r | ex] e1] eqn:Hbody.
    + injection Hrun as <- <-.
      apply primary_body_returns in Hbody as Hatt. destruct Hatt as [Hatt _].
      exists 0, []. cbv zeta. rewrite take_0, !app_nil_r.
      split; [lia |]. split; [by rewrite Hfirst |].
      split; [specialize (Hsweep 0); by rewrite take_0, app_nil_r in Hsweep |].
      split. { intros name. specialize (Hcount 0 [] name (or_introl eq_refl)).
               by rewrite take_0, !app_nil_r in Hcount. }
      left. exists [], primary, r, e1. rewrite Hfirst, Hprimary.
      split; [done |]. split; [done |]. split; [| done].
      intros name Hname. by apply elem_of_nil in Hname.
    + apply primary_body_raises in Hbody as Hlog. subst e1.
      change (IntelligentAIEngine.log_attempt primary e)
        with (OrchestratorSpec.with_attempts
                (IntelligentAIEngine.attempts e ++ [primary]) e) in Hrun.
      apply Hafter in Hrun as (k & final & Hk & Hatt & Hfinal & Hend).
      * exists k, final. cbv zeta.
        split; [done |]. split; [rewrite Hatt, Hfirst; by rewrite <- !app_assoc |].
        split; [apply Hsweep |]. split; [intros name; by apply Hcount | done].
      * intros name Hname. rewrite Hfirst in Hname.
        apply list_elem_of_singleton in Hname as ->.
        rewrite Hprimary. by exists ex, (IntelligentAIEngine.log_attempt primary e).
  - assert (Hfirst : first = []).
    { subst first. rewrite decide_False; [done |]. by apply dict_get_None. }
    pose proof (with_attempts_same e) as Hsame.
    rewrite <- Hsame in Hrun at 1.
    apply Hafter in Hrun as (k & final & Hk & Hatt & Hfinal & Hend).
    + exists k, final. cbv zeta.
      split; [done |]. split; [rewrite Hatt, Hfirst; done |].
      split; [apply Hsweep |]. split; [intros name; by apply Hcount | done].
    + intros name Hname. rewrite Hfirst in Hname. by apply elem_of_nil in Hname.
Qed.

Lemma three_backend_requests_sample :
  let e := Samples.openai_key_engine in
  let capacity_zero := Samples.with_pattern_memory_size 0 ConfigManager.default_config in
  let run cm :=
    IntelligentAIEngine.analyze_transaction cm "2024-01-15T10:00:00"
      Samples.demo_normal None e in
  let attempt cm :=
    OrchestratorSpec.attempt cm "2024-01-15T10:00:00" Samples.demo_normal None e in
  let swept_once cm :=
    ∃ k final,
      let swept := ["openai"] ++ take k ["local"; "hybrid"] in
      (k ≤ 2)%nat
      ∧ IntelligentAIEngine.attempts (run cm).2 = [] ++ swept ++ final
      ∧ NoDup swept
      ∧ (∀ name,
           (length (filter (λ n, n = name) (swept ++ final))
            ≤ if decide (name = "local") then 2 else 1)%nat)
      ∧ ((∃ tried winner r e1,
            swept = tried ++ [winner]
            ∧ final = []
            ∧ (∀ name, name ∈ tried → OrchestratorSpec.fails (attempt cm name) e)
            ∧ attempt cm winner e = (Returned r, e1)
            ∧ (run cm).1 = Returned (Some r))
         ∨ (k = 2
            ∧ (∀ name, name ∈ swept → OrchestratorSpec.fails (attempt cm name) e)
            ∧ final = ["local"]
            ∧ (run cm).1
              = OrchestratorSpec.last_local_call e Samples.demo_normal None)) in
  IntelligentAIEngine.attempts (run ConfigManager.default_config).2 = ["openai"; "local"]
  ∧ IntelligentAIEngine.attempts (run capacity_zero).2
    = ["openai"; "local"; "hybrid"; "local"]
  ∧ swept_once ConfigManager.default_config
  ∧ swept_once capacity_zero.
Proof.
  intros e capacity_zero run attempt swept_once.
  assert (Hnodup : NoDup (OrchestratorSpec.registered e)).
  { change (NoDup ["openai"; "local"; "hybrid"]).
    apply (bool_decide_unpack _). vm_compute. exact I. }
  split; [vm_compute; reflexivity |]. split; [vm_compute; reflexivity |].
  split.
  - apply (backends_swept_once_then_local_last ConfigManager.default_config
             "2024-01-15T10:00:00" Samples.demo_normal None e
             (run ConfigManager.default_config).2 (run ConfigManager.default_config).1 Hnodup).
    apply surjective_pairing.
  - apply (backends_swept_once_then_local_last capacity_zero
             "2024-01-15T10:00:00" Samples.demo_normal None e
             (run capacity_zero).2 (run capacity_zero).1 Hnodup).
    apply surjective_pairing.
Defined.






(** C9: the assessment returned by the last call on ['local'] carries no
    backend identifier. With a learning store of capacity 0 the attempt on
    the primary backend ['local'] fails at the record operation, and the
    request returns the raw result of the second call: without
    ['ai_provider'], with the unadjusted confidence, and not recorded. *)
Theorem last_resort_result_has_no_backend_identifier :
  let cm := Samples.with_pattern_memory_size 0 ConfigManager.default_config in
  let e := IntelligentAIEngine.__init__ None cm in
  ∃ r e',
    IntelligentAIEngine.analyze_transaction cm "2024-01-15T10:00:00"
      Samples.demo_normal None e = (Returned (Some r), e')
    ∧ ai_provider r = None
    ∧ confidence r = Some 0.7%Q
    ∧ IntelligentAIEngine.learning_memory e' = [].
Proof.
  do 2 eexists. split; [vm_compute; reflexivity |]. repeat split.
Qed.

(** ** The assistant facade *)

Section Facade.
Context {St : Type} (system : BankSystemInterface St).

(** [_submit_alert] never raises: it increments the counter, builds the
    alert for the new counter value and hands it to the data source,
    whose answer or exception is dropped. *)
Lemma submit_alert_effect now result (a : UltimateAMLAssistant.t (St:=St)) :
  UltimateAMLAssistant._submit_alert system now result a
  = (Returned tt,
     UltimateAMLAssistant.set_bank_integration
       (submit_alert system
          (UltimateAMLAssistant.alert_data_of
             (UltimateAMLAssistant.alert_counter a + 1) now result)
          (UltimateAMLAssistant.bank_integration a)).2
       (UltimateAMLAssistant.increment_alert_counter a)).
Proof.
  unfold UltimateAMLAssistant._submit_alert, mbind, M_bind, modify, get, try_except, zoom.
  simpl.
  destruct (submit_alert system _ _) as [[success | ex] b]; reflexivity.
Qed.

(** The workflow of [analyze_transaction], phase by phase. *)
Lemma facade_analyze_phases cm now transaction_data
    (a : UltimateAMLAssistant.t (St:=St)) :
  UltimateAMLAssistant.analyze_transaction system cm now transaction_data a
  = match BankIntegrationManager.process_transaction system transaction_data
            (UltimateAMLAssistant.bank_integration a) with
    | (Raised ex, b) => (Raised ex, UltimateAMLAssistant.set_bank_integration b a)
    | (Returned bank_context, b) =>
        let a0 := UltimateAMLAssistant.set_bank_integration b a in
        match IntelligentAIEngine.analyze_transaction cm now transaction_data
                (BankIntegrationManager.customer_profile bank_context)
                (UltimateAMLAssistant.ai_engine a0) with
        | (Raised ex, e) => (Raised ex, UltimateAMLAssistant.set_ai_engine e a0)
        | (Returned ai_analysis, e) =>
            let a1 := UltimateAMLAssistant.set_ai_engine e a0 in
            match UltimateAMLAssistant._generate_comprehensive_result now
                    transaction_data bank_context ai_analysis with
            | Raised ex => (Raised ex, a1)
            | Returned result =>
                (Returned result,
                 if UltimateAMLAssistant.is_high_or_severe
                      (UltimateAMLAssistant.ra_risk_level
                         (UltimateAMLAssistant.risk_assessment result))
                 then (UltimateAMLAssistant._submit_alert system now result a1).2
                 else a1)
            end
        end
    end.
Proof.
  unfold UltimateAMLAssistant.analyze_transaction.
  unfold mbind at 1, M_bind at 1, zoom at 1.
  destruct (BankIntegrationManager.process_transaction _ _ _) as [[bank_context | ex] b];
    [| reflexivity].
  unfold mbind at 1, M_bind at 1, zoom at 1. simpl.
  destruct (IntelligentAIEngine.analyze_transaction _ _ _ _ _) as [[ai_analysis | ex] e];
    [| reflexivity].
  unfold mbind at 1, M_bind at 1, lift_outcome.
  destruct (UltimateAMLAssistant._generate_comprehensive_result _ _ _ _) as [result | ex];
    [| reflexivity].
  unfold mbind, M_bind.
  destruct (UltimateAMLAssistant.is_high_or_severe _); [| reflexivity].
  rewrite submit_alert_effect. reflexivity.
Qed.

(** What a call of [analyze_transaction] does to the alert counter and to
    the data source, whose state after the fetch of the context is [b1]:
    a call that returns a high or severe result increments the counter
    and submits the alert numbered by the new counter value, and every
    other call leaves both as they are. *)
Lemma facade_analyze_footprint cm now transaction_data
    (a a' : UltimateAMLAssistant.t (St:=St)) o :
  UltimateAMLAssistant.analyze_transaction system cm now transaction_data a = (o, a') →
  let b1 := (BankIntegrationManager.process_transaction system transaction_data
               (UltimateAMLAssistant.bank_integration a)).2 in
  match o with
  | Returned result =>
      if UltimateAMLAssistant.is_high_or_severe
           (UltimateAMLAssistant.ra_risk_level (UltimateAMLAssistant.risk_assessment result))
      then UltimateAMLAssistant.alert_counter a' = UltimateAMLAssistant.alert_counter a + 1
           ∧ UltimateAMLAssistant.bank_integration a'
             = (submit_alert system
                  (UltimateAMLAssistant.alert_data_of
                     (UltimateAMLAssistant.alert_counter a + 1) now result) b1).2
      else UltimateAMLAssistant.alert_counter a' = UltimateAMLAssistant.alert_counter a
           ∧ UltimateAMLAssistant.bank_integration a' = b1
  | Raised _ =>
      UltimateAMLAssistant.alert_counter a' = UltimateAMLAssistant.alert_counter a
      ∧ UltimateAMLAssistant.bank_integration a' = b1
  end.
Proof.
  rewrite facade_analyze_phases.
  destruct (BankIntegrationManager.process_transaction _ _ _) as [[bank_context | ex] b];
    [| by intros [= <- <-]].
  simpl.
  destruct (IntelligentAIEngine.analyze_transaction _ _ _ _ _) as [[ai_analysis | ex] e];
    [| by intros [= <- <-]].
  destruct (UltimateAMLAssistant._generate_comprehensive_result _ _ _ _) as [result | ex];
    [| by intros [= <- <-]].
  intros [= <- <-].
  destruct (UltimateAMLAssistant.is_high_or_severe _); [| done].
  rewrite submit_alert_effect. done.
Qed.

End Facade.

(** C8. Whatever the alert submission of the data source does (return
    true, false or the object [None], or raise), [analyze_transaction]
    returns the same result or raises the same exception as with any other
    alert submission; and a call that returns a result has synthesized and
    submitted an alert, numbered by the incremented counter, exactly when
    the risk level of the result is high or severe. *)
Theorem alert_iff_high_or_severe_and_submission_not_fatal {St}
    (system : BankSystemInterface St) cm now transaction_data
    (a : UltimateAMLAssistant.t (St:=St)) :
  (∀ other_submit_alert,
     (UltimateAMLAssistant.analyze_transaction
        (ProcessSpec.with_submit_alert other_submit_alert system)
        cm now transaction_data a).1
     = (UltimateAMLAssistant.analyze_transaction system cm now transaction_data a).1)
  ∧ (∀ result a',
       UltimateAMLAssistant.analyze_transaction system cm now transaction_data a
       = (Returned result, a') →
       let level := UltimateAMLAssistant.ra_risk_level
                      (UltimateAMLAssistant.risk_assessment result) in
       let b1 := (BankIntegrationManager.process_transaction system transaction_data
                    (UltimateAMLAssistant.bank_integration a)).2 in
       (UltimateAMLAssistant.is_high_or_severe level = true
        ↔ level = RiskLevel.HIGH ∨ level = RiskLevel.SEVERE)
       ∧ if UltimateAMLAssistant.is_high_or_severe level
         then UltimateAMLAssistant.alert_counter a' = UltimateAMLAssistant.alert_counter a + 1
              ∧ UltimateAMLAssistant.bank_integration a'
                = (submit_alert system
                     (UltimateAMLAssistant.alert_data_of
                        (UltimateAMLAssistant.alert_counter a + 1) now result) b1).2
         else UltimateAMLAssistant.alert_counter a' = UltimateAMLAssistant.alert_counter a
              ∧ UltimateAMLAssistant.bank_integration a' = b1).
Proof.
  split.
  - intros other. rewrite !facade_analyze_phases.
    change (BankIntegrationManager.process_transaction
              (ProcessSpec.with_submit_alert other system))
      with (BankIntegrationManager.process_transaction system).
    destruct (BankIntegrationManager.process_transaction _ _ _) as [[bank_context | ex] b];
      [| reflexivity].
    simpl.
    destruct (IntelligentAIEngine.analyze_transaction _ _ _ _ _) as [[ai_analysis | ex] e];
      [| reflexivity].
    destruct (UltimateAMLAssistant._generate_comprehensive_result _ _ _ _) as [result | ex];
      reflexivity.
  - intros result a' Hrun level b1. split.
    + unfold UltimateAMLAssistant.is_high_or_severe.
      rewrite orb_true_iff, !bool_decide_eq_true. done.
    + exact (facade_analyze_footprint system cm now transaction_data a a' _ Hrun).
Qed.

Lemma alert_submission_failure_sample :
  let a := UltimateAMLAssistant.__init__ Samples.high_risk_engine SimulationSystem.__init__ in
  let run := UltimateAMLAssistant.analyze_transaction Samples.alerts_down_system
               ConfigManager.default_config "2024-01-15T10:00:00" Samples.demo_high_risk a in
  (∃ result, run.1 = Returned result
             ∧ UltimateAMLAssistant.ra_risk_level (UltimateAMLAssistant.risk_assessment result)
               = "high")
  ∧ run.1 = (UltimateAMLAssistant.analyze_transaction SimulationSystem.interface
               ConfigManager.default_config "2024-01-15T10:00:00" Samples.demo_high_risk a).1
  ∧ UltimateAMLAssistant.alert_counter run.2 = 1.
Proof.
  intros a run.
  destruct (alert_iff_high_or_severe_and_submission_not_fatal
              SimulationSystem.interface ConfigManager.default_config
              "2024-01-15T10:00:00" Samples.demo_high_risk a) as [Hsame _].
  split; [eexists; split; vm_compute; reflexivity |].
  split; [exact (Hsame _) | vm_compute; reflexivity].
Defined.

(** ** The simulation data source *)

Lemma history_of_total (customer_id : string) (txs : list Transaction) :
  Forall (λ tx, is_Some (tx_customer_id tx)) txs →
  ∃ l, SimulationSystem.history_of customer_id txs = Returned l.
Proof.
  induction 1 as [| tx txs [c Hc] _ [l IH]]; simpl; [by eexists |].
  rewrite Hc, IH. by eexists.
Qed.

(** Fetching the context reads the simulation and does not change it. *)
Lemma simulation_process_transaction_state transaction_data (s : SimulationSystem.t) :
  (BankIntegrationManager.process_transaction SimulationSystem.interface
     transaction_data s).2 = s.
Proof.
  unfold BankIntegrationManager.process_transaction, mbind, M_bind, raise. simpl.
  destruct (tx_customer_id transaction_data) as [cid |]; simpl; [| reflexivity].
  unfold SimulationSystem.get_transaction_history, mbind, M_bind, get, lift_outcome. simpl.
  destruct (SimulationSystem.history_of cid (SimulationSystem.transactions s)); reflexivity.
Qed.

(** For a transaction with a customer id, fetching the context from the
    simulation returns, with the stored profile of the customer or the
    empty profile. *)
Lemma simulation_process_transaction_returns transaction_data (cid : string)
    (s : SimulationSystem.t) :
  tx_customer_id transaction_data = Some cid →
  Forall (λ tx, is_Some (tx_customer_id tx)) (SimulationSystem.transactions s) →
  ∃ l,
    BankIntegrationManager.process_transaction SimulationSystem.interface transaction_data s
    = (Returned
         {| BankIntegrationManager.customer_profile :=
              Some (default empty_profile (SimulationSystem.customers s !! cid));
            BankIntegrationManager.recent_transactions := Some l;
            BankIntegrationManager.system_type := "SimulationSystem";
            BankIntegrationManager.bc_simulation_mode := true |}, s).
Proof.
  intros Hcid Htxs. destruct (history_of_total cid _ Htxs) as [l Hl]. exists l.
  unfold BankIntegrationManager.process_transaction, mbind, M_bind.
  rewrite Hcid. simpl.
  unfold SimulationSystem.get_transaction_history, mbind, M_bind, get, lift_outcome.
  by rewrite Hl.
Qed.

(** An engine whose ['local'] backend is the local provider returns an
    assessment for every request. *)
Lemma engine_with_local_provider_returns cm now transaction_data customer_data
    (e : IntelligentAIEngine.t) :
  dict_get "local" (IntelligentAIEngine.available_providers e)
  = Some (Some LocalIntelligenceProvider.provider) →
  ∃ r e',
    IntelligentAIEngine.analyze_transaction cm now transaction_data customer_data e
    = (Returned (Some r), e').
Proof.
  intros Hlocal. rewrite analyze_transaction_cases. simpl.
  set (primary := ConfigManager.provider (IntelligentAIEngine.config e)).
  assert (Hsweep : ∀ a, ∃ r e',
    match IntelligentAIEngine.fallback_loop cm now primary
            (IntelligentAIEngine.available_providers e)
            transaction_data customer_data (OrchestratorSpec.with_attempts a e) with
    | (Returned (Some r), e2) => (Returned (Some r), e2)
    | (Returned None, e2) =>
        match dict_get "local" (IntelligentAIEngine.available_providers e) with
        | None => (Raised KeyError, e2)
        | Some p =>
            IntelligentAIEngine.call_analyze "local" p transaction_data customer_data e2
        end
    | (Raised ex, e2) => (Raised ex, e2)
    end = (Returned (Some r), e')).
  { intros a.
    destruct (fallback_loop_sweep cm now primary transaction_data customer_data e
                (IntelligentAIEngine.available_providers e) a)
      as (k & o2 & e2 & Hrun & _ & _ & _).
    rewrite Hrun, Hlocal. destruct o2 as [r |]; [by eauto |].
    by do 2 eexists. }
  destruct (dict_get primary (IntelligentAIEngine.available_providers e)) as [p |].
  - destruct (IntelligentAIEngine.primary_body _ _ _ _ _ _ _) as [[r | ex] e1] eqn:Hbody;
      [by eauto |].
    apply primary_body_raises in Hbody as ->.
    apply (Hsweep (IntelligentAIEngine.attempts e ++ [primary])).
  - pose proof (Hsweep (IntelligentAIEngine.attempts e)) as Hrun.
    by rewrite with_attempts_same in Hrun.
Qed.

(** C10. The simulation answers a request for the profile of an unknown
    customer with the empty profile and raises nothing; and the assistant,
    with the local provider registered as ['local'], then returns an
    analysis result whose customer risk tier is ['unknown']. *)
Theorem unknown_customer_gets_empty_profile_and_unknown_tier cm now transaction_data
    (cid : string) (a : UltimateAMLAssistant.t (St:=SimulationSystem.t)) :
  let s := UltimateAMLAssistant.bank_integration a in
  tx_customer_id transaction_data = Some cid →
  SimulationSystem.customers s !! cid = None →
  Forall (λ tx, is_Some (tx_customer_id tx)) (SimulationSystem.transactions s) →
  dict_get "local" (IntelligentAIEngine.available_providers (UltimateAMLAssistant.ai_engine a))
  = Some (Some LocalIntelligenceProvider.provider) →
  SimulationSystem.get_customer_profile cid s = (Returned (Some empty_profile), s)
  ∧ ∃ result a',
      UltimateAMLAssistant.analyze_transaction SimulationSystem.interface
        cm now transaction_data a = (Returned result, a')
      ∧ UltimateAMLAssistant.customer_risk_tier (UltimateAMLAssistant.context result)
        = "unknown".
Proof.
  intros s Hcid Hunknown Htxs Hlocal.
  assert (Hprofile : SimulationSystem.get_customer_profile cid s
                     = (Returned (Some empty_profile), s)).
  { unfold SimulationSystem.get_customer_profile, mbind, M_bind, get, mret, M_ret.
    by rewrite Hunknown. }
  split; [exact Hprofile |].
  rewrite facade_analyze_phases. fold s.
  destruct (simulation_process_transaction_returns transaction_data cid s Hcid Htxs)
    as [l ->].
  rewrite Hunknown. simpl.
  destruct (engine_with_local_provider_returns cm now transaction_data (Some empty_profile)
              (UltimateAMLAssistant.ai_engine a) Hlocal) as (r & e' & Hrun).
  rewrite Hrun. simpl. by do 2 eexists.
Qed.

Lemma unknown_customer_sample :
  let a := UltimateAMLAssistant.__init__ Samples.default_engine SimulationSystem.__init__ in
  SimulationSystem.get_customer_profile "CUST404" SimulationSystem.__init__
  = (Returned (Some empty_profile), SimulationSystem.__init__)
  ∧ ∃ result a',
      UltimateAMLAssistant.analyze_transaction SimulationSystem.interface
        ConfigManager.default_config "2024-01-15T10:00:00" Samples.unknown_customer_tx a
      = (Returned result, a')
      ∧ UltimateAMLAssistant.customer_risk_tier (UltimateAMLAssistant.context result)
        = "unknown".
Proof.
  intros a.
  apply (unknown_customer_gets_empty_profile_and_unknown_tier
           ConfigManager.default_config "2024-01-15T10:00:00"
           Samples.unknown_customer_tx "CUST404" a).
  - reflexivity.
  - vm_compute. reflexivity.
  - repeat constructor; by eexists.
  - reflexivity.
Defined.

(** ** Alert identifiers *)

Lemma uint_of_zeros (k : nat) (s : string) :
  NilEmpty.uint_of_string (zeros k +:+ s)
  = Nat.iter k Decimal.D0 <$> NilEmpty.uint_of_string s.
Proof.
  induction k as [| k IH].
  - change (zeros 0 +:+ s) with s. by destruct (NilEmpty.uint_of_string s).
  - change (zeros (S k) +:+ s) with (String "0"%char (zeros k +:+ s)).
    change (NilEmpty.uint_of_string (String "0"%char (zeros k +:+ s)))
      with (uint_of_char "0"%char (NilEmpty.uint_of_string (zeros k +:+ s))).
    rewrite IH. by destruct (NilEmpty.uint_of_string s).
Qed.

Lemma of_uint_leading_zeros (k : nat) (d : Decimal.uint) :
  Nat.of_uint (Nat.iter k Decimal.D0 d) = Nat.of_uint d.
Proof.
  induction k as [| k IH]; [reflexivity |].
  simpl. exact IH.
Qed.

(** The digits of an alert identifier determine its number. *)
Lemma number_of_format_06d (n : nat) :
  ProcessSpec.number_of_digits (format_06d n) = Some n.
Proof.
  unfold ProcessSpec.number_of_digits, format_06d.
  rewrite uint_of_zeros, NilEmpty.usu. simpl.
  by rewrite of_uint_leading_zeros, DecimalNat.Unsigned.of_to.
Qed.

Lemma alert_id_of_inj (n m : nat) :
  ProcessSpec.alert_id_of n = ProcessSpec.alert_id_of m → n = m.
Proof.
  unfold ProcessSpec.alert_id_of.
  change ("ALERT_" +:+ format_06d n)
    with (String "A" (String "L" (String "E" (String "R" (String "T" (String "_"
            (format_06d n))))))).
  change ("ALERT_" +:+ format_06d m)
    with (String "A" (String "L" (String "E" (String "R" (String "T" (String "_"
            (format_06d m))))))).
  intros [= Hdigits].
  apply (f_equal ProcessSpec.number_of_digits) in Hdigits.
  rewrite !number_of_format_06d in Hdigits. congruence.
Qed.

(** The alerts that the simulation has received are numbered 1, 2, ..., up
    to the alert counter; every call of the assistant keeps it so. *)
Lemma alert_numbering_step cm (op : ProcessSpec.operation)
    (a : UltimateAMLAssistant.t (St:=SimulationSystem.t)) :
  ProcessSpec.alert_ids (UltimateAMLAssistant.bank_integration a)
  = ProcessSpec.alert_id_of <$> seq 1 (UltimateAMLAssistant.alert_counter a) →
  let a' := ProcessSpec.step SimulationSystem.interface cm op a in
  ProcessSpec.alert_ids (UltimateAMLAssistant.bank_integration a')
  = ProcessSpec.alert_id_of <$> seq 1 (UltimateAMLAssistant.alert_counter a').
Proof.
  intros Hinv. destruct op as [now transaction_data | transaction_id fb]; simpl; [| exact Hinv].
  destruct (UltimateAMLAssistant.analyze_transaction SimulationSystem.interface
              cm now transaction_data a) as [o a'] eqn:Hrun.
  apply facade_analyze_footprint in Hrun.
  rewrite simulation_process_transaction_state in Hrun. simpl.
  assert (Hsame : UltimateAMLAssistant.alert_counter a' = UltimateAMLAssistant.alert_counter a
                  ∧ UltimateAMLAssistant.bank_integration a'
                    = UltimateAMLAssistant.bank_integration a →
                  ProcessSpec.alert_ids (UltimateAMLAssistant.bank_integration a')
                  = ProcessSpec.alert_id_of <$> seq 1 (UltimateAMLAssistant.alert_counter a')).
  { intros [-> ->]. exact Hinv. }
  destruct o as [result | ex]; [| by apply Hsame].
  destruct (UltimateAMLAssistant.is_high_or_severe _); [| by apply Hsame].
  destruct Hrun as [-> ->]. simpl.
  unfold ProcessSpec.alert_ids. simpl.
  rewrite fmap_app, seq_app, fmap_app. simpl.
  unfold ProcessSpec.alert_ids in Hinv. rewrite Hinv.
  by rewrite Nat.add_comm.
Qed.

Lemma alert_numbering_run cm (ops : list ProcessSpec.operation) :
  ∀ a : UltimateAMLAssistant.t (St:=SimulationSystem.t),
    ProcessSpec.alert_ids (UltimateAMLAssistant.bank_integration a)
    = ProcessSpec.alert_id_of <$> seq 1 (UltimateAMLAssistant.alert_counter a) →
    let a' := ProcessSpec.run SimulationSystem.interface cm ops a in
    ProcessSpec.alert_ids (UltimateAMLAssistant.bank_integration a')
    = ProcessSpec.alert_id_of <$> seq 1 (UltimateAMLAssistant.alert_counter a').
Proof.
  induction ops as [| op ops IH]; intros a Hinv; [exact Hinv |].
  simpl. apply IH. by apply alert_numbering_step.
Qed.

(** C7. Over the life of a process, whatever the sequence of calls, the
    identifiers of the alerts that the assistant has generated are
    ALERT_000001, ALERT_000002, ... in the order of generation, one for each
    value of the alert counter; so of two alerts the later one has the
    strictly greater number and a different identifier. *)
Theorem alert_ids_strictly_increasing_and_distinct cm (e : IntelligentAIEngine.t)
    (ops : list ProcessSpec.operation) :
  let a := ProcessSpec.run SimulationSystem.interface cm ops
             (UltimateAMLAssistant.__init__ e SimulationSystem.__init__) in
  let ids := ProcessSpec.alert_ids (UltimateAMLAssistant.bank_integration a) in
  ids = ProcessSpec.alert_id_of <$> seq 1 (UltimateAMLAssistant.alert_counter a)
  ∧ ∀ i j earlier later,
      (i < j)%nat → ids !! i = Some earlier → ids !! j = Some later →
      ∃ n m, earlier = ProcessSpec.alert_id_of n ∧ later = ProcessSpec.alert_id_of m
             ∧ (n < m)%nat ∧ earlier ≠ later.
Proof.
  intros a ids.
  assert (Hids : ids = ProcessSpec.alert_id_of
                       <$> seq 1 (UltimateAMLAssistant.alert_counter a)).
  { subst ids a. by apply alert_numbering_run. }
  split; [exact Hids |].
  intros i j earlier later Hij Hi Hj.
  rewrite Hids in Hi, Hj.
  apply list_lookup_fmap_Some in Hi as (n & -> & Hn).
  apply list_lookup_fmap_Some in Hj as (m & -> & Hm).
  apply lookup_seq in Hn as [-> _]. apply lookup_seq in Hm as [-> _].
  exists (1 + i), (1 + j). repeat split; [lia |].
  intros Heq. apply alert_id_of_inj in Heq. lia.
Qed.

Example two_high_risk_alerts_sample :
  let a := ProcessSpec.run SimulationSystem.interface ConfigManager.default_config
             [ProcessSpec.Analyze "2024-01-15T10:00:00" Samples.demo_high_risk;
              ProcessSpec.Analyze "2024-01-15T10:05:00" Samples.demo_normal]
             (UltimateAMLAssistant.__init__ Samples.high_risk_engine SimulationSystem.__init__) in
  ProcessSpec.alert_ids (UltimateAMLAssistant.bank_integration a)
  = ["ALERT_000001"; "ALERT_000002"].
Proof. vm_compute. reflexivity. Qed.

(** * Further properties of the code *)

(** ** Registration of the backends *)

Lemma check_openai_availability_iff (c : ConfigManager.ai_config) :
  IntelligentAIEngine._check_openai_availability c = true
  ↔ EngineSpec.well_formed_key (ConfigManager.api_key c).
Proof.
  unfold IntelligentAIEngine._check_openai_availability, EngineSpec.well_formed_key.
  destruct (ConfigManager.api_key c) as [k |].
  - rewrite andb_true_iff. split.
    + intros [_ Hprefix]. by exists k.
    + intros (s & [= <-] & Hprefix). split; [| done].
      destruct k; [discriminate Hprefix | reflexivity].
  - split; [discriminate | by intros (s & [=] & _)].
Qed.

(** X1. The registry built at start-up holds ['local'] alone when the key
    of the OpenAI backend is absent or does not start with [sk-], and holds
    ['openai'], ['local'], ['hybrid'] in this order when it does; the names
    are pairwise different, ['local'] is always the local provider, and
    ['openai'] is registered as the object [None] when its module cannot be
    imported. *)
Theorem initialize_providers_registry
    (openai_module : option (option string → string → Provider))
    (c : ConfigManager.ai_config) :
  let providers := IntelligentAIEngine._initialize_providers openai_module c in
  (EngineSpec.well_formed_key (ConfigManager.api_key c)
   ∧ providers.*1 = ["openai"; "local"; "hybrid"]
   ∧ dict_get "openai" providers
     = Some (IntelligentAIEngine._create_openai_provider openai_module c)
   ∧ dict_get "hybrid" providers = Some (Some HybridIntelligenceProvider.provider)
   ∨ ¬ EngineSpec.well_formed_key (ConfigManager.api_key c)
     ∧ providers.*1 = ["local"])
  ∧ NoDup providers.*1
  ∧ dict_get "local" providers = Some (Some LocalIntelligenceProvider.provider)
  ∧ (openai_module = None → dict_get "openai" providers = Some None ∨ providers.*1 = ["local"]).
Proof.
  intros providers. subst providers.
  unfold IntelligentAIEngine._initialize_providers.
  pose proof (check_openai_availability_iff c) as Hkey.
  destruct (IntelligentAIEngine._check_openai_availability c); simpl.
  - split; [left; split; [by apply Hkey | done] |].
    split; [| split; [reflexivity |]].
    + apply (bool_decide_unpack _). vm_compute. exact I.
    + intros ->. by left.
  - split; [right; split; [| done] |].
    + intros H. apply Hkey in H. discriminate.
    + split; [apply NoDup_singleton |]. split; [reflexivity | by right].
Qed.

Lemma initialize_providers_without_module_sample :
  let providers :=
    IntelligentAIEngine._initialize_providers None
      (IntelligentAIEngine.config Samples.openai_key_engine) in
  dict_get "openai" providers = Some None ∨ providers.*1 = ["local"].
Proof.
  intros providers.
  destruct (initialize_providers_registry None
              (IntelligentAIEngine.config Samples.openai_key_engine))
    as (_ & _ & _ & Hmodule).
  apply Hmodule. reflexivity.
Defined.

(** ** What the engine keeps *)

Lemma store_keeps_metrics cm now transaction_data customer_data result
    (e e' : IntelligentAIEngine.t) o :
  IntelligentAIEngine._store_analysis_result cm now transaction_data customer_data result e
  = (o, e') →
  IntelligentAIEngine.performance_metrics e' = IntelligentAIEngine.performance_metrics e.
Proof.
  rewrite store_analysis_result_cases. simpl.
  destruct (decide _) as [Hfull | Hroom];
    [destruct (IntelligentAIEngine.learning_memory e) as [| oldest rest] |];
    intros [= <- <-]; done.
Qed.

Lemma store_same_setup cm now transaction_data customer_data result
    (e e' : IntelligentAIEngine.t) o :
  IntelligentAIEngine._store_analysis_result cm now transaction_data customer_data result e
  = (o, e') → EngineSpec.same_setup e e'.
Proof.
  intros Hstore. pose proof (store_keeps_metrics _ _ _ _ _ _ _ _ Hstore) as Hmetrics.
  apply store_frame in Hstore as (_ & Hproviders & Hconfig). done.
Qed.

Lemma same_setup_refl (e : IntelligentAIEngine.t) : EngineSpec.same_setup e e.
Proof. done. Qed.

Lemma same_setup_trans (e1 e2 e3 : IntelligentAIEngine.t) :
  EngineSpec.same_setup e1 e2 → EngineSpec.same_setup e2 e3 → EngineSpec.same_setup e1 e3.
Proof.
  intros (H1 & H2 & H3) (H4 & H5 & H6). unfold EngineSpec.same_setup.
  rewrite H4, H5, H6. done.
Qed.

Lemma fallback_body_same_setup cm now name p transaction_data customer_data
    (e e' : IntelligentAIEngine.t) o :
  IntelligentAIEngine.fallback_body cm now name p transaction_data customer_data e = (o, e') →
  EngineSpec.same_setup e e'.
Proof.
  destruct o as [r | ex].
  - rewrite fallback_body_cases. simpl.
    destruct p as [prov |]; [| discriminate].
    destruct (analyze prov transaction_data customer_data) as [[d |] | ex']; try discriminate.
    destruct (IntelligentAIEngine._store_analysis_result _ _ _ _ _ _) as [[[] | ex'] e2] eqn:Hstore;
      [| discriminate].
    intros [= _ <-]. by apply store_same_setup in Hstore.
  - intros Hbody. by apply fallback_body_raises in Hbody as ->.
Qed.

Lemma primary_body_same_setup cm now name p transaction_data customer_data
    (e e' : IntelligentAIEngine.t) o :
  IntelligentAIEngine.primary_body cm now name p transaction_data customer_data e = (o, e') →
  EngineSpec.same_setup e e'.
Proof.
  destruct o as [r | ex].
  - rewrite primary_body_cases. simpl.
    destruct p as [prov |]; [| discriminate].
    destruct (analyze prov transaction_data customer_data) as [[d |] | ex']; try discriminate.
    destruct (IntelligentAIEngine._store_analysis_result _ _ _ _ _ _) as [[[] | ex'] e2] eqn:Hstore;
      [| discriminate].
    intros [= _ <-]. by apply store_same_setup in Hstore.
  - intros Hbody. by apply primary_body_raises in Hbody as ->.
Qed.

Lemma fallback_loop_same_setup cm now primary transaction_data customer_data
    (items : list (string * option Provider)) :
  ∀ (e e' : IntelligentAIEngine.t) o,
    IntelligentAIEngine.fallback_loop cm now primary items transaction_data customer_data e
    = (o, e') → EngineSpec.same_setup e e'.
Proof.
  induction items as [| [name p] items IH]; intros e e' o; simpl.
  - by intros [= <- <-].
  - destruct (decide (name ≠ primary)) as [Hother | Hprimary]; [| apply IH].
    unfold mbind at 1, M_bind at 1, try_except, mbind at 1, M_bind at 1.
    destruct (IntelligentAIEngine.fallback_body cm now name p
                transaction_data customer_data e) as [[r | ex] e1] eqn:Hbody.
    + intros [= <- <-]. by apply fallback_body_same_setup in Hbody.
    + apply fallback_body_same_setup in Hbody. simpl. intros Hrest.
      apply IH in Hrest. by eapply same_setup_trans.
Qed.

Lemma analyze_transaction_same_setup cm now transaction_data customer_data
    (e e' : IntelligentAIEngine.t) o :
  IntelligentAIEngine.analyze_transaction cm now transaction_data customer_data e = (o, e') →
  EngineSpec.same_setup e e'.
Proof.
  rewrite analyze_transaction_cases. simpl.
  set (primary := ConfigManager.provider (IntelligentAIEngine.config e)).
  assert (Hrest : ∀ e1, EngineSpec.same_setup e e1 →
    match IntelligentAIEngine.fallback_loop cm now primary
            (IntelligentAIEngine.available_providers e)
            transaction_data customer_data e1 with
    | (Returned (Some r), e2) => (Returned (Some r), e2)
    | (Returned None, e2) =>
        match dict_get "local" (IntelligentAIEngine.available_providers e) with
        | None => (Raised KeyError, e2)
        | Some p =>
            IntelligentAIEngine.call_analyze "local" p transaction_data customer_data e2
        end
    | (Raised ex, e2) => (Raised ex, e2)
    end = (o, e') → EngineSpec.same_setup e e').
  { intros e1 He1.
    destruct (IntelligentAIEngine.fallback_loop _ _ _ _ _ _ e1) as [o2 e2] eqn:Hloop.
    apply fallback_loop_same_setup in Hloop.
    pose proof (same_setup_trans _ _ _ He1 Hloop) as He2.
    destruct o2 as [[r |] | ex]; try (by intros [= <- <-]).
    destruct (dict_get "local" _) as [p |]; [| by intros [= <- <-]].
    intros Hcall. by apply call_analyze_logs in Hcall as [-> _]. }
  destruct (dict_get primary (IntelligentAIEngine.available_providers e)) as [p |].
  - destruct (IntelligentAIEngine.primary_body _ _ _ _ _ _ _) as [[r | ex] e1] eqn:Hbody;
      apply primary_body_same_setup in Hbody.
    + by intros [= <- <-].
    + by apply Hrest.
  - apply Hrest, same_setup_refl.
Qed.

(** X2. An engine whose ['local'] backend is the local provider answers
    every request: [analyze_transaction] never raises and never returns the
    object [None]; and it keeps the configuration, the registered backends
    and the performance metrics, so that the same holds for the next
    request. *)
Theorem engine_with_local_backend_always_answers cm now transaction_data customer_data
    (e : IntelligentAIEngine.t) :
  dict_get "local" (IntelligentAIEngine.available_providers e)
  = Some (Some LocalIntelligenceProvider.provider) →
  ∃ r e',
    IntelligentAIEngine.analyze_transaction cm now transaction_data customer_data e
    = (Returned (Some r), e')
    ∧ EngineSpec.same_setup e e'
    ∧ dict_get "local" (IntelligentAIEngine.available_providers e')
      = Some (Some LocalIntelligenceProvider.provider).
Proof.
  intros Hlocal.
  destruct (engine_with_local_provider_returns cm now transaction_data customer_data e Hlocal)
    as (r & e' & Hrun).
  exists r, e'. split; [exact Hrun |].
  apply analyze_transaction_same_setup in Hrun as Hsetup.
  split; [exact Hsetup |]. destruct Hsetup as (_ & -> & _). exact Hlocal.
Qed.

Lemma engine_always_answers_sample :
  ∃ r e',
    IntelligentAIEngine.analyze_transaction
      (Samples.with_pattern_memory_size 0 ConfigManager.default_config)
      "2024-01-15T10:00:00" Samples.demo_struct None Samples.high_risk_engine
    = (Returned (Some r), e')
    ∧ EngineSpec.same_setup Samples.high_risk_engine e'
    ∧ dict_get "local" (IntelligentAIEngine.available_providers e')
      = Some (Some LocalIntelligenceProvider.provider).
Proof.
  apply (engine_with_local_backend_always_answers
           (Samples.with_pattern_memory_size 0 ConfigManager.default_config)
           "2024-01-15T10:00:00" Samples.demo_struct None Samples.high_risk_engine).
  reflexivity.
Defined.

Section EngineOfAssistant.
Context {St : Type} (system : BankSystemInterface St).

(** A call of the assistant changes the engine only through the calls of
    the engine itself. *)
Lemma step_same_setup cm (op : ProcessSpec.operation)
    (a : UltimateAMLAssistant.t (St:=St)) :
  EngineSpec.same_setup (UltimateAMLAssistant.ai_engine a)
    (UltimateAMLAssistant.ai_engine (ProcessSpec.step system cm op a)).
Proof.
  destruct op as [now transaction_data | transaction_id fb]; simpl; [| done].
  rewrite facade_analyze_phases.
  destruct (BankIntegrationManager.process_transaction _ _ _) as [[bank_context | ex] b];
    [| done].
  simpl.
  destruct (IntelligentAIEngine.analyze_transaction _ _ _ _ _) as [[ai_analysis | ex] e]
    eqn:Hengine; apply analyze_transaction_same_setup in Hengine; [| done].
  destruct (UltimateAMLAssistant._generate_comprehensive_result _ _ _ _) as [result | ex];
    [| done].
  simpl. destruct (UltimateAMLAssistant.is_high_or_severe _); [| done].
  by rewrite submit_alert_effect.
Qed.

Lemma run_same_setup cm (ops : list ProcessSpec.operation) :
  ∀ a : UltimateAMLAssistant.t (St:=St),
    EngineSpec.same_setup (UltimateAMLAssistant.ai_engine a)
      (UltimateAMLAssistant.ai_engine (ProcessSpec.run system cm ops a)).
Proof.
  induction ops as [| op ops IH]; intros a; [apply same_setup_refl |].
  simpl. eapply same_setup_trans; [apply (step_same_setup cm op a) | apply IH].
Qed.

End EngineOfAssistant.

(** X3. Over the life of a process, with any data source and whatever the
    sequence of analyses and feedback calls, the engine keeps its
    configuration, its registered backends and its performance metrics:
    feedback never changes a metric, so the confidence computed for an
    assessment is the same at every moment, and with a fresh engine the
    metrics stay empty. *)
Theorem engine_setup_fixed_for_process_lifetime {St} (system : BankSystemInterface St)
    cm (ops : list ProcessSpec.operation) (a : UltimateAMLAssistant.t (St:=St)) :
  let a' := ProcessSpec.run system cm ops a in
  EngineSpec.same_setup (UltimateAMLAssistant.ai_engine a) (UltimateAMLAssistant.ai_engine a')
  ∧ (∀ result,
       IntelligentAIEngine._calculate_confidence (UltimateAMLAssistant.ai_engine a') result
       = IntelligentAIEngine._calculate_confidence (UltimateAMLAssistant.ai_engine a) result)
  ∧ (∀ openai_module cm0 b,
       a = UltimateAMLAssistant.__init__ (IntelligentAIEngine.__init__ openai_module cm0) b →
       IntelligentAIEngine.performance_metrics (UltimateAMLAssistant.ai_engine a') = ∅).
Proof.
  intros a'. pose proof (run_same_setup system cm ops a) as Hsetup. fold a' in Hsetup.
  split; [exact Hsetup |]. destruct Hsetup as (_ & _ & Hmetrics). split.
  - intros result. unfold IntelligentAIEngine._calculate_confidence. by rewrite Hmetrics.
  - intros openai_module cm0 b ->. by rewrite Hmetrics.
Qed.

Lemma fresh_engine_metrics_stay_empty_sample :
  let a := UltimateAMLAssistant.__init__
             (IntelligentAIEngine.__init__ None ConfigManager.default_config)
             SimulationSystem.__init__ in
  let a' := ProcessSpec.run SimulationSystem.interface ConfigManager.default_config
              [ProcessSpec.Analyze "2024-01-15T10:00:00" Samples.demo_normal;
               ProcessSpec.Feedback "DEMO_NORMAL_001" Samples.corrected_assessment] a in
  IntelligentAIEngine.performance_metrics (UltimateAMLAssistant.ai_engine a') = ∅.
Proof.
  intros a a'.
  destruct (engine_setup_fixed_for_process_lifetime SimulationSystem.interface
              ConfigManager.default_config
              [ProcessSpec.Analyze "2024-01-15T10:00:00" Samples.demo_normal;
               ProcessSpec.Feedback "DEMO_NORMAL_001" Samples.corrected_assessment] a)
    as (_ & _ & Hfresh).
  apply (Hfresh None ConfigManager.default_config SimulationSystem.__init__).
  reflexivity.
Defined.

(** ** Which backend answers *)

(** After a failed or skipped primary attempt a request is the sweep
    followed, when the sweep runs to its end, by the last call on
    ['local']; the sweep starts from the engine with some record of
    attempts. *)
Lemma analyze_transaction_after_primary_failure cm now transaction_data customer_data
    (e : IntelligentAIEngine.t) :
  let primary := ConfigManager.provider (IntelligentAIEngine.config e) in
  let providers := IntelligentAIEngine.available_providers e in
  match dict_get primary providers with
  | Some p =>
      OrchestratorSpec.fails
        (IntelligentAIEngine.primary_body cm now primary p transaction_data customer_data) e
  | None => True
  end →
  ∃ a,
    IntelligentAIEngine.analyze_transaction cm now transaction_data customer_data e
    = match IntelligentAIEngine.fallback_loop cm now primary providers
              transaction_data customer_data (OrchestratorSpec.with_attempts a e) with
      | (Returned (Some r), e2) => (Returned (Some r), e2)
      | (Returned None, e2) =>
          match dict_get "local" providers with
          | None => (Raised KeyError, e2)
          | Some p =>
              IntelligentAIEngine.call_analyze "local" p transaction_data customer_data e2
          end
      | (Raised ex, e2) => (Raised ex, e2)
      end.
Proof.
  intros primary providers Hprimary.
  rewrite analyze_transaction_cases. simpl. fold primary providers.
  destruct (dict_get primary providers) as [p |].
  - destruct Hprimary as (ex & e1 & Hbody). rewrite Hbody.
    apply primary_body_raises in Hbody as ->.
    by exists (IntelligentAIEngine.attempts e ++ [primary]).
  - exists (IntelligentAIEngine.attempts e). by rewrite with_attempts_same.
Qed.



Lemma store_returns_when_capacity_positive cm now transaction_data customer_data result
    (e : IntelligentAIEngine.t) :
  (1 ≤ ConfigManager.pattern_memory_size cm)%Z →
  ∃ e2,
    IntelligentAIEngine._store_analysis_result cm now transaction_data customer_data result e
    = (Returned tt, e2)
    ∧ last (IntelligentAIEngine.learning_memory e2)
      = Some (EngineSpec.entry_for now transaction_data customer_data result).
Proof.
  intros Hcap. rewrite store_analysis_result_cases. simpl.
  destruct (decide _) as [Hfull | Hroom].
  - destruct (IntelligentAIEngine.learning_memory e) as [| oldest rest];
      [simpl in Hfull; lia |].
    eexists. split; [reflexivity |]. simpl. apply last_snoc.
  - eexists. split; [reflexivity |]. simpl. apply last_snoc.
Qed.

Lemma store_raises_when_capacity_not_positive cm now transaction_data customer_data result
    (e : IntelligentAIEngine.t) :
  (ConfigManager.pattern_memory_size cm ≤ 0)%Z →
  IntelligentAIEngine.learning_memory e = [] →
  IntelligentAIEngine._store_analysis_result cm now transaction_data customer_data result e
  = (Raised IndexError, e).
Proof.
  intros Hcap Hempty. rewrite store_analysis_result_cases. simpl. rewrite Hempty. simpl.
  by rewrite decide_True by done.
Qed.

(** With room in the learning store, the attempt on the local provider
    succeeds, as the primary backend and in the sweep. *)
Lemma local_primary_body_returns cm now name transaction_data customer_data
    (e : IntelligentAIEngine.t) :
  (1 ≤ ConfigManager.pattern_memory_size cm)%Z →
  let d1 := set_ai_provider name EngineSpec.local_raw in
  let r := set_confidence (IntelligentAIEngine._calculate_confidence e d1) d1 in
  ∃ e2,
    IntelligentAIEngine.primary_body cm now name (Some LocalIntelligenceProvider.provider)
      transaction_data customer_data e = (Returned r, e2)
    ∧ last (IntelligentAIEngine.learning_memory e2)
      = Some (EngineSpec.entry_for now transaction_data customer_data r).
Proof.
  intros Hcap d1 r. rewrite primary_body_cases.
  destruct (store_returns_when_capacity_positive cm now transaction_data customer_data r
              (IntelligentAIEngine.log_attempt name e) Hcap) as (e2 & Hstore & Hlast).
  exists e2. split; [| exact Hlast].
  change (match IntelligentAIEngine._store_analysis_result cm now
                  transaction_data customer_data r
                  (IntelligentAIEngine.log_attempt name e) with
          | (Returned _, e3) => (Returned r, e3)
          | (Raised ex, e3) => (Raised ex, e3)
          end = (Returned r, e2)).
  by rewrite Hstore.
Qed.

Lemma local_fallback_body_returns cm now name transaction_data customer_data
    (e : IntelligentAIEngine.t) :
  (1 ≤ ConfigManager.pattern_memory_size cm)%Z →
  let d1 := set_ai_provider name EngineSpec.local_raw in
  let r := set_fallback_used true
             (set_confidence (IntelligentAIEngine._calculate_confidence e d1) d1) in
  ∃ e2,
    IntelligentAIEngine.fallback_body cm now name (Some LocalIntelligenceProvider.provider)
      transaction_data customer_data e = (Returned r, e2)
    ∧ last (IntelligentAIEngine.learning_memory e2)
      = Some (EngineSpec.entry_for now transaction_data customer_data r).
Proof.
  intros Hcap d1 r. rewrite fallback_body_cases.
  destruct (store_returns_when_capacity_positive cm now transaction_data customer_data r
              (IntelligentAIEngine.log_attempt name e) Hcap) as (e2 & Hstore & Hlast).
  exists e2. split; [| exact Hlast].
  change (match IntelligentAIEngine._store_analysis_result cm now
                  transaction_data customer_data r
                  (IntelligentAIEngine.log_attempt name e) with
          | (Returned _, e3) => (Returned r, e3)
          | (Raised ex, e3) => (Raised ex, e3)
          end = (Returned r, e2)).
  by rewrite Hstore.
Qed.

(** The attempt on a backend registered as the object [None], and the
    attempt on the hybrid provider, always fail. *)
Lemma none_and_hybrid_attempts_fail cm now name p transaction_data customer_data
    (e : IntelligentAIEngine.t) :
  p = None ∨ p = Some HybridIntelligenceProvider.provider →
  OrchestratorSpec.fails
    (IntelligentAIEngine.primary_body cm now name p transaction_data customer_data) e
  ∧ OrchestratorSpec.fails
      (IntelligentAIEngine.fallback_body cm now name p transaction_data customer_data) e.
Proof.
  intros [-> | ->]; split; unfold OrchestratorSpec.fails;
    rewrite ?primary_body_cases, ?fallback_body_cases; simpl; by do 2 eexists.
Qed.

Lemma registry_without_openai_module (c : ConfigManager.ai_config) :
  IntelligentAIEngine._initialize_providers None c
  = [("local", Some LocalIntelligenceProvider.provider)]
  ∨ IntelligentAIEngine._initialize_providers None c
    = [("openai", None); ("local", Some LocalIntelligenceProvider.provider);
       ("hybrid", Some HybridIntelligenceProvider.provider)].
Proof.
  unfold IntelligentAIEngine._initialize_providers.
  destruct (IntelligentAIEngine._check_openai_availability c); [by right | by left].
Qed.

(** X5. When the module of the OpenAI backend cannot be imported and the
    learning store has a capacity of at least one, every request is
    answered by the local backend: the result is the local assessment with
    ['ai_provider'] set to ['local'] and the adjusted confidence, it is
    marked [fallback_used] exactly when the configured primary backend is
    not ['local'], and it is the entry appended last to the learning store.
    With empty performance metrics the confidence is 0.69. *)
Theorem without_openai_module_local_backend_answers cm (c : ConfigManager.ai_config)
    now transaction_data customer_data (e : IntelligentAIEngine.t) :
  let primary := ConfigManager.provider (IntelligentAIEngine.config e) in
  let d1 := set_ai_provider "local" EngineSpec.local_raw in
  let marked := set_confidence (IntelligentAIEngine._calculate_confidence e d1) d1 in
  let answer := if decide (primary = "local") then marked else set_fallback_used true marked in
  IntelligentAIEngine.available_providers e
  = IntelligentAIEngine._initialize_providers None c →
  (1 ≤ ConfigManager.pattern_memory_size cm)%Z →
  ∃ e',
    IntelligentAIEngine.analyze_transaction cm now transaction_data customer_data e
    = (Returned (Some answer), e')
    ∧ last (IntelligentAIEngine.learning_memory e')
      = Some (EngineSpec.entry_for now transaction_data customer_data answer)
    ∧ (IntelligentAIEngine.performance_metrics e = ∅ →
       ∃ q, confidence answer = Some q ∧ q == 0.69).
Proof.
  intros primary d1 marked answer Hproviders Hcap.
  assert (Hconfidence : IntelligentAIEngine.performance_metrics e = ∅ →
                        ∃ q, confidence answer = Some q ∧ q == 0.69).
  { intros Hmetrics.
    exists (IntelligentAIEngine._calculate_confidence e d1). split.
    - subst answer. by destruct (decide _).
    - unfold IntelligentAIEngine._calculate_confidence. rewrite Hmetrics. reflexivity. }
  assert (Hanswer : ∃ e',
    IntelligentAIEngine.analyze_transaction cm now transaction_data customer_data e
    = (Returned (Some answer), e')
    ∧ last (IntelligentAIEngine.learning_memory e')
      = Some (EngineSpec.entry_for now transaction_data customer_data answer));
    [| destruct Hanswer as (e' & Hrun & Hlast); by exists e'].
  assert (Hlocal : dict_get "local" (IntelligentAIEngine.available_providers e)
                   = Some (Some LocalIntelligenceProvider.provider)).
  { rewrite Hproviders. by destruct (registry_without_openai_module c) as [-> | ->]. }
  subst answer. destruct (decide (primary = "local")) as [Hprimary | Hother].
  - rewrite analyze_transaction_cases. simpl. fold primary. rewrite Hprimary, Hlocal.
    destruct (local_primary_body_returns cm now "local" transaction_data customer_data e Hcap)
      as (e2 & Hbody & Hlast).
    rewrite Hbody. by exists e2.
  - destruct (local_fallback_body_returns cm now "local" transaction_data customer_data e Hcap)
      as (e1 & Hbody & Hlast).
    assert (Hfails : match dict_get primary (IntelligentAIEngine.available_providers e) with
                     | Some q =>
                         OrchestratorSpec.fails
                           (IntelligentAIEngine.primary_body cm now primary q
                              transaction_data customer_data) e
                     | None => True
                     end).
    { rewrite Hproviders.
      destruct (registry_without_openai_module c) as [-> | ->]; simpl.
      - by rewrite decide_False by done.
      - destruct (decide ("openai" = primary));
          [exact (proj1 (none_and_hybrid_attempts_fail cm now primary None
                           transaction_data customer_data e (or_introl eq_refl))) |].
        rewrite decide_False by done.
        destruct (decide ("hybrid" = primary)); [| done].
        exact (proj1 (none_and_hybrid_attempts_fail cm now primary
                        (Some HybridIntelligenceProvider.provider)
                        transaction_data customer_data e (or_intror eq_refl))). }
    destruct (analyze_transaction_after_primary_failure cm now transaction_data customer_data
                e Hfails) as (a & ->).
    fold primary. rewrite Hproviders.
    destruct (registry_without_openai_module c) as [-> | ->].
    + change [("local", Some LocalIntelligenceProvider.provider)]
        with ([] ++ ("local", Some LocalIntelligenceProvider.provider) :: []).
      rewrite (fallback_loop_first_success cm now primary transaction_data customer_data
                 e e1 [] "local" (Some LocalIntelligenceProvider.provider) []
                 _ ltac:(congruence) ltac:(by intros n q Hin; apply elem_of_nil in Hin) Hbody a).
      by eexists.
    + change [("openai", None); ("local", Some LocalIntelligenceProvider.provider);
              ("hybrid", Some HybridIntelligenceProvider.provider)]
        with ([("openai", None)] ++ ("local", Some LocalIntelligenceProvider.provider)
                :: [("hybrid", Some HybridIntelligenceProvider.provider)]).
      rewrite (fallback_loop_first_success cm now primary transaction_data customer_data
                 e e1 [("openai", None)] "local" (Some LocalIntelligenceProvider.provider)
                 [("hybrid", Some HybridIntelligenceProvider.provider)]
                 _ ltac:(congruence)
                 ltac:(intros n q Hin _; apply list_elem_of_singleton in Hin as [= -> ->];
                       exact (proj2 (none_and_hybrid_attempts_fail cm now "openai" None
                                       transaction_data customer_data e
                                       (or_introl eq_refl)))) Hbody a).
      by eexists.
Qed.

Lemma malformed_key_local_answers_sample :
  let e := IntelligentAIEngine.__init__ None MoreSamples.malformed_key_config in
  ConfigManager.provider (IntelligentAIEngine.config e) = "openai"
  ∧ OrchestratorSpec.registered e = ["local"]
  ∧ ∃ r e',
      IntelligentAIEngine.analyze_transaction ConfigManager.default_config
        "2024-01-15T10:00:00" Samples.demo_normal None e = (Returned (Some r), e')
      ∧ ai_provider r = Some "local" ∧ fallback_used r = Some true.
Proof.
  intros e. split; [reflexivity |]. split; [reflexivity |].
  destruct (without_openai_module_local_backend_answers ConfigManager.default_config
              (IntelligentAIEngine.config e) "2024-01-15T10:00:00" Samples.demo_normal None e)
    as (e' & Hrun & _).
  - reflexivity.
  - simpl. lia.
  - do 2 eexists. split; [exact Hrun |]. split; reflexivity.
Defined.

(** ** A learning store without capacity *)

Lemma attempts_fail_without_capacity cm now name p transaction_data customer_data
    (e : IntelligentAIEngine.t) :
  (ConfigManager.pattern_memory_size cm ≤ 0)%Z →
  IntelligentAIEngine.learning_memory e = [] →
  OrchestratorSpec.fails
    (IntelligentAIEngine.primary_body cm now name p transaction_data customer_data) e
  ∧ OrchestratorSpec.fails
      (IntelligentAIEngine.fallback_body cm now name p transaction_data customer_data) e.
Proof.
  intros Hcap Hempty. unfold OrchestratorSpec.fails.
  rewrite primary_body_cases, fallback_body_cases. cbv zeta.
  destruct p as [prov |]; [| split; by do 2 eexists].
  destruct (analyze prov transaction_data customer_data) as [[d |] | ex];
    [| split; by do 2 eexists | split; by do 2 eexists].
  rewrite !store_raises_when_capacity_not_positive by done.
  split; by do 2 eexists.
Qed.

(** X6. With a [pattern_memory_size] of zero or less and an empty learning
    store, every record operation raises [IndexError] and leaves the engine
    as it is; so the attempt on every backend fails, the store stays empty,
    and every request is answered by the last call on the local provider
    with its raw result: no ['ai_provider'], no [fallback_used] and the
    unadjusted confidence 0.7. *)
Theorem capacity_zero_disables_store_and_provenance cm now transaction_data customer_data
    (e : IntelligentAIEngine.t) :
  (ConfigManager.pattern_memory_size cm ≤ 0)%Z →
  IntelligentAIEngine.learning_memory e = [] →
  dict_get "local" (IntelligentAIEngine.available_providers e)
  = Some (Some LocalIntelligenceProvider.provider) →
  (∀ result,
     IntelligentAIEngine._store_analysis_result cm now transaction_data customer_data result e
     = (Raised IndexError, e))
  ∧ ∃ e',
      IntelligentAIEngine.analyze_transaction cm now transaction_data customer_data e
      = (Returned (Some EngineSpec.local_raw), e')
      ∧ IntelligentAIEngine.learning_memory e' = []
      ∧ last (IntelligentAIEngine.attempts e') = Some "local".
Proof.
  intros Hcap Hempty Hlocal.
  split; [intros result; by apply store_raises_when_capacity_not_positive |].
  assert (Hfails : match dict_get (ConfigManager.provider (IntelligentAIEngine.config e))
                           (IntelligentAIEngine.available_providers e) with
                   | Some q =>
                       OrchestratorSpec.fails
                         (IntelligentAIEngine.primary_body cm now
                            (ConfigManager.provider (IntelligentAIEngine.config e)) q
                            transaction_data customer_data) e
                   | None => True
                   end).
  { destruct (dict_get (ConfigManager.provider _) _) as [q |]; [| done].
    exact (proj1 (attempts_fail_without_capacity cm now _ q transaction_data customer_data
                    e Hcap Hempty)). }
  destruct (analyze_transaction_after_primary_failure cm now transaction_data customer_data
              e Hfails) as (a & ->).
  destruct (fallback_loop_sweep cm now
              (ConfigManager.provider (IntelligentAIEngine.config e))
              transaction_data customer_data e
              (IntelligentAIEngine.available_providers e) a)
    as (k & o2 & e2 & Hrun & _ & _ & Ho2).
  rewrite Hrun. destruct o2 as [r |].
  - destruct Ho2 as (name & p & e1 & _ & _ & Hok).
    destruct (attempts_fail_without_capacity cm now name p transaction_data customer_data
                e Hcap Hempty) as [_ (ex & e3 & Hfail)].
    congruence.
  - destruct Ho2 as (_ & -> & _). rewrite Hlocal.
    eexists. split; [reflexivity |]. simpl. split; [exact Hempty | apply last_snoc].
Qed.

Lemma capacity_zero_sample :
  let cm := Samples.with_pattern_memory_size 0 ConfigManager.default_config in
  ∃ e',
    IntelligentAIEngine.analyze_transaction cm "2024-01-15T10:00:00" Samples.demo_high_risk
      None Samples.high_risk_engine = (Returned (Some EngineSpec.local_raw), e')
    ∧ IntelligentAIEngine.learning_memory e' = []
    ∧ last (IntelligentAIEngine.attempts e') = Some "local".
Proof.
  intros cm.
  destruct (capacity_zero_disables_store_and_provenance cm "2024-01-15T10:00:00"
              Samples.demo_high_risk None Samples.high_risk_engine) as [_ Hrun].
  - simpl. lia.
  - reflexivity.
  - reflexivity.
  - exact Hrun.
Defined.

(** ** A deployment without the OpenAI module never alerts *)

(** An attempt that returns has got a dict from the backend and kept its
    level. *)
Lemma attempt_returns_backend_level cm now name p transaction_data customer_data
    (e e1 : IntelligentAIEngine.t) r :
  IntelligentAIEngine.primary_body cm now name p transaction_data customer_data e
  = (Returned r, e1)
  ∨ IntelligentAIEngine.fallback_body cm now name p transaction_data customer_data e
    = (Returned r, e1) →
  ∃ prov d, p = Some prov
            ∧ analyze prov transaction_data customer_data = Returned (Some d)
            ∧ risk_level r = risk_level d.
Proof.
  rewrite primary_body_cases, fallback_body_cases. cbv zeta.
  intros Hbody.
  destruct p as [prov |]; cbv iota beta in Hbody;
    [| destruct Hbody as [H | H]; discriminate H].
  destruct (analyze prov transaction_data customer_data) as [[d |] | ex] eqn:Hanalyze;
    cbv iota beta in Hbody;
    [| destruct Hbody as [H | H]; discriminate H
     | destruct Hbody as [H | H]; discriminate H].
  exists prov, d. split; [reflexivity |]. split; [exact Hanalyze |].
  destruct Hbody as [H | H];
    destruct (IntelligentAIEngine._store_analysis_result _ _ _ _ _ _) as [[[] | ex] e2];
    try discriminate H; by injection H as <- _.
Qed.

(** In a registry built without the OpenAI module, an attempt that returns
    is an attempt on the local provider, whose level is medium. *)
Lemma returned_level_without_openai_module cm (c : ConfigManager.ai_config) now name p
    transaction_data customer_data (e e1 : IntelligentAIEngine.t) r :
  (name, p) ∈ IntelligentAIEngine._initialize_providers None c →
  IntelligentAIEngine.primary_body cm now name p transaction_data customer_data e
  = (Returned r, e1)
  ∨ IntelligentAIEngine.fallback_body cm now name p transaction_data customer_data e
    = (Returned r, e1) →
  risk_level r = Some "medium".
Proof.
  intros Hin Hbody.
  apply attempt_returns_backend_level in Hbody as (prov & d & -> & Hanalyze & ->).
  assert (Hprov : prov = LocalIntelligenceProvider.provider
                  ∨ prov = HybridIntelligenceProvider.provider).
  { destruct (registry_without_openai_module c) as [Hreg | Hreg]; rewrite Hreg in Hin.
    - apply list_elem_of_singleton in Hin as [= _ ->]. by left.
    - apply elem_of_cons in Hin as [[= _] | Hin].
      apply elem_of_cons in Hin as [[= _ ->] | Hin]; [by left |].
      apply list_elem_of_singleton in Hin as [= _ ->]. by right. }
  destruct Hprov as [-> | ->].
  - by injection Hanalyze as <-.
  - discriminate Hanalyze.
Qed.

Lemma engine_level_without_openai_module cm (c : ConfigManager.ai_config) now
    transaction_data customer_data (e e' : IntelligentAIEngine.t) o :
  IntelligentAIEngine.available_providers e
  = IntelligentAIEngine._initialize_providers None c →
  IntelligentAIEngine.analyze_transaction cm now transaction_data customer_data e = (o, e') →
  ∃ r, o = Returned (Some r) ∧ risk_level r = Some "medium".
Proof.
  intros Hproviders.
  assert (Hlocal : dict_get "local" (IntelligentAIEngine.available_providers e)
                   = Some (Some LocalIntelligenceProvider.provider)).
  { rewrite Hproviders. by destruct (registry_without_openai_module c) as [-> | ->]. }
  rewrite analyze_transaction_cases. simpl.
  set (primary := ConfigManager.provider (IntelligentAIEngine.config e)).
  assert (Hrest : ∀ a,
    match IntelligentAIEngine.fallback_loop cm now primary
            (IntelligentAIEngine.available_providers e)
            transaction_data customer_data (OrchestratorSpec.with_attempts a e) with
    | (Returned (Some r), e2) => (Returned (Some r), e2)
    | (Returned None, e2) =>
        match dict_get "local" (IntelligentAIEngine.available_providers e) with
        | None => (Raised KeyError, e2)
        | Some p =>
            IntelligentAIEngine.call_analyze "local" p transaction_data customer_data e2
        end
    | (Raised ex, e2) => (Raised ex, e2)
    end = (o, e') → ∃ r, o = Returned (Some r) ∧ risk_level r = Some "medium").
  { intros a.
    destruct (fallback_loop_sweep cm now primary transaction_data customer_data e
                (IntelligentAIEngine.available_providers e) a)
      as (k & o2 & e2 & Hrun & _ & _ & Ho2).
    rewrite Hrun, Hlocal. destruct o2 as [r |].
    - intros [= <- <-]. exists r. split; [done |].
      destruct Ho2 as (name & p & e1 & Hin & _ & Hok). rewrite Hproviders in Hin.
      eapply returned_level_without_openai_module; [exact Hin | right; exact Hok].
    - intros [= <- <-]. by eexists. }
  destruct (dict_get primary (IntelligentAIEngine.available_providers e)) as [p |] eqn:Hget.
  - destruct (IntelligentAIEngine.primary_body _ _ _ _ _ _ _) as [[r | ex] e1] eqn:Hbody.
    + intros [= <- <-]. exists r. split; [done |].
      apply dict_get_elem_of in Hget. rewrite Hproviders in Hget.
      eapply returned_level_without_openai_module; [exact Hget | left; exact Hbody].
    + apply primary_body_raises in Hbody as ->.
      apply (Hrest (IntelligentAIEngine.attempts e ++ [primary])).
  - intros Hrun. apply (Hrest (IntelligentAIEngine.attempts e)).
    by rewrite with_attempts_same.
Qed.

Section NoAlerts.
Context {St : Type} (system : BankSystemInterface St).

Lemma analyze_without_openai_module_no_alert cm (c : ConfigManager.ai_config) now
    transaction_data (a a' : UltimateAMLAssistant.t (St:=St)) o :
  IntelligentAIEngine.available_providers (UltimateAMLAssistant.ai_engine a)
  = IntelligentAIEngine._initialize_providers None c →
  UltimateAMLAssistant.analyze_transaction system cm now transaction_data a = (o, a') →
  UltimateAMLAssistant.alert_counter a' = UltimateAMLAssistant.alert_counter a
  ∧ UltimateAMLAssistant.bank_integration a'
    = (BankIntegrationManager.process_transaction system transaction_data
         (UltimateAMLAssistant.bank_integration a)).2
  ∧ ∀ result, o = Returned result →
      UltimateAMLAssistant.ra_risk_level (UltimateAMLAssistant.risk_assessment result)
      = "medium".
Proof.
  intros Hproviders. rewrite facade_analyze_phases.
  destruct (BankIntegrationManager.process_transaction _ _ _) as [[bank_context | ex] b];
    [| by intros [= <- <-]].
  simpl.
  destruct (IntelligentAIEngine.analyze_transaction _ _ _ _ _) as [o2 e] eqn:Hengine.
  destruct (engine_level_without_openai_module cm c now transaction_data _ _ _ _
              Hproviders Hengine) as (r & -> & Hlevel).
  unfold UltimateAMLAssistant._generate_comprehensive_result. simpl.
  destruct (UltimateAMLAssistant.attr _) as [profile | ex]; [| by intros [= <- <-]].
  destruct (UltimateAMLAssistant.len _) as [count | ex]; [| by intros [= <- <-]].
  simpl. rewrite Hlevel. simpl. intros [= <- <-].
  split; [done |]. split; [done |]. by intros result [= <-].
Qed.

Lemma run_without_openai_module_no_alert cm (c : ConfigManager.ai_config)
    (ops : list ProcessSpec.operation) :
  ∀ a : UltimateAMLAssistant.t (St:=St),
    IntelligentAIEngine.available_providers (UltimateAMLAssistant.ai_engine a)
    = IntelligentAIEngine._initialize_providers None c →
    UltimateAMLAssistant.alert_counter (ProcessSpec.run system cm ops a)
    = UltimateAMLAssistant.alert_counter a.
Proof.
  induction ops as [| op ops IH]; intros a Hproviders; [reflexivity |].
  simpl. rewrite IH.
  - destruct op as [now transaction_data | transaction_id fb]; simpl; [| reflexivity].
    destruct (UltimateAMLAssistant.analyze_transaction system cm now transaction_data a)
      as [o a'] eqn:Hrun.
    by apply (analyze_without_openai_module_no_alert cm c) in Hrun as (? & _).
  - destruct (step_same_setup system cm op a) as (_ & -> & _). exact Hproviders.
Qed.

End NoAlerts.

(** X7. When the module of the OpenAI backend cannot be imported, the
    assistant never raises an alert: whatever the data source and the
    sequence of calls, the alert counter keeps its value, and every
    analysis that returns reports the level medium and submits nothing. *)
Theorem no_alert_without_openai_module {St} (system : BankSystemInterface St) cm
    (c : ConfigManager.ai_config) (ops : list ProcessSpec.operation)
    (a : UltimateAMLAssistant.t (St:=St)) :
  IntelligentAIEngine.available_providers (UltimateAMLAssistant.ai_engine a)
  = IntelligentAIEngine._initialize_providers None c →
  let a1 := ProcessSpec.run system cm ops a in
  UltimateAMLAssistant.alert_counter a1 = UltimateAMLAssistant.alert_counter a
  ∧ ∀ now transaction_data result a2,
      UltimateAMLAssistant.analyze_transaction system cm now transaction_data a1
      = (Returned result, a2) →
      UltimateAMLAssistant.ra_risk_level (UltimateAMLAssistant.risk_assessment result)
      = "medium"
      ∧ UltimateAMLAssistant.alert_counter a2 = UltimateAMLAssistant.alert_counter a
      ∧ UltimateAMLAssistant.bank_integration a2
        = (BankIntegrationManager.process_transaction system transaction_data
             (UltimateAMLAssistant.bank_integration a1)).2.
Proof.
  intros Hproviders a1.
  pose proof (run_without_openai_module_no_alert system cm c ops a Hproviders) as Hcounter.
  fold a1 in Hcounter. split; [exact Hcounter |].
  intros now transaction_data result a2 Hrun.
  assert (Hproviders1 :
    IntelligentAIEngine.available_providers (UltimateAMLAssistant.ai_engine a1)
    = IntelligentAIEngine._initialize_providers None c).
  { destruct (run_same_setup system cm ops a) as (_ & Hsame & _).
    fold a1 in Hsame. by rewrite Hsame. }
  destruct (analyze_without_openai_module_no_alert system cm c now transaction_data a1 a2 _
              Hproviders1 Hrun) as (Hc & Hb & Hlevel).
  split; [by apply Hlevel |]. split; [by rewrite Hc | exact Hb].
Qed.

Lemma no_alert_demo_sample :
  let a := UltimateAMLAssistant.__init__ Samples.openai_key_engine SimulationSystem.__init__ in
  let a1 := ProcessSpec.run SimulationSystem.interface ConfigManager.default_config
              [ProcessSpec.Analyze "2024-01-15T10:00:00" Samples.demo_normal;
               ProcessSpec.Analyze "2024-01-15T10:01:00" Samples.demo_high_risk;
               ProcessSpec.Analyze "2024-01-15T10:02:00" Samples.demo_struct] a in
  UltimateAMLAssistant.alert_counter a1 = 0.
Proof.
  intros a a1.
  destruct (no_alert_without_openai_module SimulationSystem.interface
              ConfigManager.default_config
              (IntelligentAIEngine.config Samples.openai_key_engine)
              [ProcessSpec.Analyze "2024-01-15T10:00:00" Samples.demo_normal;
               ProcessSpec.Analyze "2024-01-15T10:01:00" Samples.demo_high_risk;
               ProcessSpec.Analyze "2024-01-15T10:02:00" Samples.demo_struct] a)
    as [Hcounter _].
  - reflexivity.
  - exact Hcounter.
Defined.

(** ** How feedback calls compose *)

(** X8. Feedback is not filled once and for all: a second feedback for the
    same transaction id lands on the same entry and replaces the first, so
    two feedback calls in a row leave the engine as the second alone
    would. *)
Theorem later_feedback_replaces_earlier (transaction_id : string)
    (first second : Assessment) (e : IntelligentAIEngine.t) :
  let twice : M IntelligentAIEngine.t unit :=
    IntelligentAIEngine.learn_from_feedback transaction_id first;;
    IntelligentAIEngine.learn_from_feedback transaction_id second in
  twice e = IntelligentAIEngine.learn_from_feedback transaction_id second e.
Proof.
  assert (Hlist : ∀ memory,
    IntelligentAIEngine.attach_feedback transaction_id second
      (IntelligentAIEngine.attach_feedback transaction_id first memory)
    = IntelligentAIEngine.attach_feedback transaction_id second memory).
  { induction memory as [| entry rest IH]; [reflexivity |]. simpl.
    destruct (decide (tx_transaction_id (le_transaction entry) = Some transaction_id))
      as [Hyes | Hno]; simpl.
    - by rewrite decide_True by done.
    - rewrite decide_False by done. by rewrite IH. }
  intros twice. subst twice.
  unfold IntelligentAIEngine.learn_from_feedback,
    IntelligentAIEngine._update_performance_metrics, mbind, M_bind, modify, mret, M_ret.
  simpl. unfold IntelligentAIEngine.set_learning_memory. simpl. by rewrite Hlist.
Qed.

(** X9. Feedback calls for different transaction ids do not interfere: in
    either order they leave the same learning store. *)
Theorem feedback_for_different_ids_commutes (id1 id2 : string) (fb1 fb2 : Assessment)
    (e : IntelligentAIEngine.t) :
  id1 ≠ id2 →
  (IntelligentAIEngine.learn_from_feedback id1 fb1;;
   IntelligentAIEngine.learn_from_feedback id2 fb2) e
  = (IntelligentAIEngine.learn_from_feedback id2 fb2;;
     IntelligentAIEngine.learn_from_feedback id1 fb1) e.
Proof.
  intros Hne.
  assert (Hlist : ∀ memory,
    IntelligentAIEngine.attach_feedback id2 fb2
      (IntelligentAIEngine.attach_feedback id1 fb1 memory)
    = IntelligentAIEngine.attach_feedback id1 fb1
        (IntelligentAIEngine.attach_feedback id2 fb2 memory)).
  { induction memory as [| entry rest IH]; [reflexivity |]. simpl.
    destruct (decide (tx_transaction_id (le_transaction entry) = Some id1)) as [H1 | H1];
      destruct (decide (tx_transaction_id (le_transaction entry) = Some id2)) as [H2 | H2];
      simpl.
    - congruence.
    - by rewrite decide_False, decide_True by done.
    - by rewrite decide_True, decide_False by done.
    - rewrite !decide_False by done. by rewrite IH. }
  unfold IntelligentAIEngine.learn_from_feedback,
    IntelligentAIEngine._update_performance_metrics, mbind, M_bind, modify, mret, M_ret.
  simpl. unfold IntelligentAIEngine.set_learning_memory. simpl. by rewrite Hlist.
Qed.

Lemma feedback_commutes_sample :
  let e := MoreSamples.two_entries_engine in
  let first : M IntelligentAIEngine.t unit :=
    IntelligentAIEngine.learn_from_feedback "DEMO_NORMAL_001" Samples.corrected_assessment in
  let second : M IntelligentAIEngine.t unit :=
    IntelligentAIEngine.learn_from_feedback "DEMO_HIGH_RISK_001" Samples.local_assessment in
  (λ entry, tx_transaction_id (le_transaction entry))
    <$> IntelligentAIEngine.learning_memory e
  = [Some "DEMO_NORMAL_001"; Some "DEMO_HIGH_RISK_001"]
  ∧ le_feedback <$> IntelligentAIEngine.learning_memory e = [None; None]
  ∧ (first;; second) e = (second;; first) e
  ∧ le_feedback <$> IntelligentAIEngine.learning_memory ((second;; first) e).2
    = [Some Samples.corrected_assessment; Some Samples.local_assessment].
Proof.
  intros e first second.
  split; [reflexivity |]. split; [reflexivity |]. split; [| reflexivity].
  apply (feedback_for_different_ids_commutes "DEMO_NORMAL_001" "DEMO_HIGH_RISK_001"
           Samples.corrected_assessment Samples.local_assessment e).
  discriminate.
Defined.

(** ** The workflow of the assistant: failures *)

(** X10. A transaction dict without the key ['customer_id'] makes the
    assistant raise [KeyError] before the data source or the engine is
    called: with any data source, nothing of the assistant changes. *)
Theorem missing_customer_id_raises_key_error {St} (system : BankSystemInterface St)
    cm now transaction_data (a : UltimateAMLAssistant.t (St:=St)) :
  tx_customer_id transaction_data = None →
  UltimateAMLAssistant.analyze_transaction system cm now transaction_data a
  = (Raised KeyError, a).
Proof.
  intros Hmissing. rewrite facade_analyze_phases.
  unfold BankIntegrationManager.process_transaction, mbind, M_bind, raise.
  rewrite Hmissing. by destruct a.
Qed.

Lemma missing_customer_id_sample :
  let a := UltimateAMLAssistant.__init__ Samples.default_engine SimulationSystem.__init__ in
  UltimateAMLAssistant.analyze_transaction SimulationSystem.interface
    ConfigManager.default_config "2024-01-15T10:00:00" MoreSamples.no_customer_tx a
  = (Raised KeyError, a).
Proof.
  intros a.
  apply (missing_customer_id_raises_key_error SimulationSystem.interface
           ConfigManager.default_config "2024-01-15T10:00:00" MoreSamples.no_customer_tx a).
  reflexivity.
Defined.

(** X11. With one of the four vendor adapters, whose methods are all
    [pass], every analysis of a transaction with a customer id fails with
    [AttributeError] when the result is assembled: the profile is the
    object [None]. This happens after the engine has run on that [None]
    profile, so the engine is left as that run leaves it (with the entry it
    has recorded), while the alert counter keeps its value. *)
Theorem vendor_adapters_fail_after_engine_has_run (name cid : string) cm now
    transaction_data (a : UltimateAMLAssistant.t (St:=unit)) :
  tx_customer_id transaction_data = Some cid →
  dict_get "local" (IntelligentAIEngine.available_providers (UltimateAMLAssistant.ai_engine a))
  = Some (Some LocalIntelligenceProvider.provider) →
  ∃ a',
    UltimateAMLAssistant.analyze_transaction (stub_system name) cm now transaction_data a
    = (Raised AttributeError, a')
    ∧ UltimateAMLAssistant.ai_engine a'
      = (IntelligentAIEngine.analyze_transaction cm now transaction_data None
           (UltimateAMLAssistant.ai_engine a)).2
    ∧ UltimateAMLAssistant.alert_counter a' = UltimateAMLAssistant.alert_counter a.
Proof.
  intros Hcid Hlocal. rewrite facade_analyze_phases.
  unfold BankIntegrationManager.process_transaction, mbind, M_bind.
  rewrite Hcid. simpl.
  destruct (engine_with_local_provider_returns cm now transaction_data None
              (UltimateAMLAssistant.ai_engine a) Hlocal) as (r & e' & Hrun).
  rewrite Hrun. simpl. by eexists.
Qed.

Lemma temenos_adapter_sample :
  let a := UltimateAMLAssistant.__init__ (St:=unit) Samples.default_engine tt in
  ∃ a',
    UltimateAMLAssistant.analyze_transaction TemenosSystem ConfigManager.default_config
      "2024-01-15T10:00:00" Samples.demo_normal a = (Raised AttributeError, a')
    ∧ length (IntelligentAIEngine.learning_memory (UltimateAMLAssistant.ai_engine a')) = 1
    ∧ UltimateAMLAssistant.alert_counter a' = 0.
Proof.
  intros a.
  destruct (vendor_adapters_fail_after_engine_has_run "TemenosSystem" "CUST002"
              ConfigManager.default_config "2024-01-15T10:00:00" Samples.demo_normal a)
    as (a' & Hrun & Hengine & Hcounter).
  - reflexivity.
  - reflexivity.
  - exists a'. split; [exact Hrun |]. split; [by rewrite Hengine | exact Hcounter].
Defined.

(** ** The simulation over the life of a process *)

(** X12. The transaction history that the simulation returns for a customer
    is the list of the stored transactions of that customer, in the stored
    order, whatever the number of days asked for; the call leaves the
    simulation unchanged, and it raises [KeyError] exactly when some stored
    transaction has no ['customer_id']. *)
Theorem transaction_history_is_the_customers_transactions (cid : string) (days : Z)
    (s : SimulationSystem.t) :
  (Forall (λ tx, is_Some (tx_customer_id tx)) (SimulationSystem.transactions s) →
   SimulationSystem.get_transaction_history cid days s
   = (Returned (Some (filter (λ tx, tx_customer_id tx = Some cid)
                        (SimulationSystem.transactions s))), s))
  ∧ (Exists (λ tx, tx_customer_id tx = None) (SimulationSystem.transactions s) →
     SimulationSystem.get_transaction_history cid days s = (Raised KeyError, s)).
Proof.
  unfold SimulationSystem.get_transaction_history, mbind, M_bind, get, lift_outcome,
    mret, M_ret.
  generalize (SimulationSystem.transactions s) as txs. intros txs. split.
  - intros Hall.
    assert (Hfilter : SimulationSystem.history_of cid txs
                      = Returned (filter (λ tx, tx_customer_id tx = Some cid) txs)).
    { induction Hall as [| tx txs [c Hc] _ IH]; [reflexivity |].
      simpl. rewrite Hc, IH. destruct (decide (c = cid)) as [-> | Hne].
      - by rewrite filter_cons_True by done.
      - rewrite filter_cons_False; [done |]. rewrite Hc. congruence. }
    by rewrite Hfilter.
  - intros Hsome.
    assert (Hraise : SimulationSystem.history_of cid txs = Raised KeyError).
    { induction Hsome as [tx txs Hnone | tx txs _ IH]; simpl.
      - by rewrite Hnone.
      - destruct (tx_customer_id tx); [by rewrite IH | reflexivity]. }
    by rewrite Hraise.
Qed.

Lemma transaction_history_sample :
  ∃ tx1 tx2,
    SimulationSystem.get_transaction_history "CUST001" 30 SimulationSystem.__init__
    = (Returned (Some [tx1; tx2]), SimulationSystem.__init__)
    ∧ tx_transaction_id tx1 = Some "TX001"
    ∧ tx_transaction_id tx2 = Some "TX002".
Proof.
  destruct (transaction_history_is_the_customers_transactions "CUST001" 30
              SimulationSystem.__init__) as [Hdefined _].
  rewrite Hdefined.
  - do 2 eexists. split; [reflexivity |]. split; reflexivity.
  - repeat constructor; by eexists.
Defined.

Lemma only_alerts_appended_same (a a' : UltimateAMLAssistant.t (St:=SimulationSystem.t)) :
  UltimateAMLAssistant.alert_counter a' = UltimateAMLAssistant.alert_counter a →
  UltimateAMLAssistant.bank_integration a' = UltimateAMLAssistant.bank_integration a →
  SimulationSpec.only_alerts_appended a a'.
Proof.
  intros Hc Hb. unfold SimulationSpec.only_alerts_appended. rewrite Hb, Hc.
  split; [done |]. split; [done |]. exists [].
  split; [by rewrite app_nil_r |]. split; [simpl; lia | constructor].
Qed.

Lemma only_alerts_appended_trans (a1 a2 a3 : UltimateAMLAssistant.t (St:=SimulationSystem.t)) :
  SimulationSpec.only_alerts_appended a1 a2 →
  SimulationSpec.only_alerts_appended a2 a3 →
  SimulationSpec.only_alerts_appended a1 a3.
Proof.
  intros (Hc1 & Ht1 & new1 & Ha1 & Hn1 & Hf1) (Hc2 & Ht2 & new2 & Ha2 & Hn2 & Hf2).
  split; [by rewrite Hc2 |]. split; [by rewrite Ht2 |].
  exists (new1 ++ new2).
  split; [by rewrite Ha2, Ha1, app_assoc |].
  split; [rewrite Hn2, Hn1, length_app; lia | by apply Forall_app].
Qed.

Lemma step_only_appends_alerts cm (op : ProcessSpec.operation)
    (a : UltimateAMLAssistant.t (St:=SimulationSystem.t)) :
  SimulationSpec.only_alerts_appended a (ProcessSpec.step SimulationSystem.interface cm op a).
Proof.
  destruct op as [now transaction_data | transaction_id fb]; simpl;
    [| by apply only_alerts_appended_same].
  destruct (UltimateAMLAssistant.analyze_transaction SimulationSystem.interface
              cm now transaction_data a) as [o a'] eqn:Hrun.
  apply facade_analyze_footprint in Hrun.
  rewrite simulation_process_transaction_state in Hrun. simpl.
  destruct o as [result | ex];
    [| destruct Hrun as [Hc Hb]; by apply only_alerts_appended_same].
  destruct (UltimateAMLAssistant.is_high_or_severe _) eqn:Hlevel;
    [| destruct Hrun as [Hc Hb]; by apply only_alerts_appended_same].
  destruct Hrun as [Hc Hb]. unfold SimulationSpec.only_alerts_appended. rewrite Hb, Hc.
  split; [done |]. split; [done |]. eexists [_].
  split; [reflexivity |]. split; [reflexivity |].
  constructor; [| constructor]. split; [reflexivity |]. simpl.
  unfold UltimateAMLAssistant.is_high_or_severe in Hlevel.
  apply orb_true_iff in Hlevel as [H | H]; apply bool_decide_eq_true in H; tauto.
Qed.

(** X13. Over the life of a process the simulation is an append-only log
    of alerts: whatever the sequence of calls, the customers and the stored
    transactions are kept, the alerts stored before are kept in place, one
    alert is appended for each increment of the alert counter, and every
    appended alert is open and of level high or severe. *)
Theorem simulation_only_gains_alerts cm (ops : list ProcessSpec.operation)
    (a : UltimateAMLAssistant.t (St:=SimulationSystem.t)) :
  SimulationSpec.only_alerts_appended a (ProcessSpec.run SimulationSystem.interface cm ops a).
Proof.
  revert a. induction ops as [| op ops IH]; intros a; [by apply only_alerts_appended_same |].
  simpl. eapply only_alerts_appended_trans; [apply (step_only_appends_alerts cm op a) |].
  apply IH.
Qed.

(** ** Start-up: the configured primary backend and the registry *)

(** X14. With the provider setting ['auto'], the primary backend chosen at
    start-up is ['openai'] when [OPENAI_API_KEY] is set to a non-empty
    value and ['local'] otherwise, never ['hybrid']; and it is missing from
    the registry exactly when that variable is set while the key in use (the
    configured one, or else the variable) does not start with [sk-]. In
    that case only ['local'] is registered. *)
Theorem auto_primary_backend_and_registry
    (openai_module : option (option string → string → Provider)) (cm : ConfigManager.t) :
  let e := IntelligentAIEngine.__init__ openai_module cm in
  let primary := ConfigManager.provider (IntelligentAIEngine.config e) in
  ConfigManager.ai_provider_setting cm = "auto" →
  primary = (if ConfigManager.truthy (ConfigManager.env_openai_api_key cm)
             then "openai" else "local")
  ∧ (primary ∉ OrchestratorSpec.registered e
     ↔ ConfigManager.truthy (ConfigManager.env_openai_api_key cm) = true
       ∧ ¬ EngineSpec.well_formed_key
             (ConfigManager.api_key (IntelligentAIEngine.config e)))
  ∧ (primary ∉ OrchestratorSpec.registered e → OrchestratorSpec.registered e = ["local"]).
Proof.
  intros e primary Hauto.
  assert (Hprimary : primary = if ConfigManager.truthy (ConfigManager.env_openai_api_key cm)
                               then "openai" else "local").
  { subst primary e. simpl. unfold ConfigManager.get_ai_config. rewrite Hauto. simpl.
    unfold ConfigManager._detect_ai_providers.
    by destruct (ConfigManager.truthy (ConfigManager.env_openai_api_key cm)). }
  split; [exact Hprimary |].
  pose proof (check_openai_availability_iff (IntelligentAIEngine.config e)) as Hkey.
  assert (Hregistered :
    OrchestratorSpec.registered e
    = if IntelligentAIEngine._check_openai_availability (IntelligentAIEngine.config e)
      then ["openai"; "local"; "hybrid"] else ["local"]).
  { unfold OrchestratorSpec.registered. subst e. simpl.
    unfold IntelligentAIEngine._initialize_providers.
    by destruct (IntelligentAIEngine._check_openai_availability _). }
  rewrite Hregistered, Hprimary.
  destruct (IntelligentAIEngine._check_openai_availability (IntelligentAIEngine.config e));
    destruct (ConfigManager.truthy (ConfigManager.env_openai_api_key cm)).
  - split; [split |].
    + intros Hnot. destruct Hnot. apply elem_of_cons. by left.
    + intros [_ Hbad]. destruct Hbad. by apply Hkey.
    + intros Hnot. destruct Hnot. apply elem_of_cons. by left.
  - split; [split |].
    + intros Hnot. destruct Hnot. apply elem_of_cons. right. apply elem_of_cons. by left.
    + by intros [? _].
    + intros Hnot. destruct Hnot. apply elem_of_cons. right. apply elem_of_cons. by left.
  - split; [split |]; [| | done].
    + intros _. split; [done |]. intros Hgood. apply Hkey in Hgood. discriminate.
    + intros _ Hin. by apply list_elem_of_singleton in Hin.
  - split; [split |]; [| | done].
    + intros Hnot. destruct Hnot. by apply list_elem_of_singleton.
    + by intros [? _].
Qed.

Lemma malformed_key_primary_unregistered_sample :
  let e := IntelligentAIEngine.__init__ None MoreSamples.malformed_key_config in
  ConfigManager.provider (IntelligentAIEngine.config e) = "openai"
  ∧ (ConfigManager.provider (IntelligentAIEngine.config e) ∉ OrchestratorSpec.registered e)
  ∧ OrchestratorSpec.registered e = ["local"].
Proof.
  intros e.
  destruct (auto_primary_backend_and_registry None MoreSamples.malformed_key_config)
    as (Hprimary & Hiff & Honly); [reflexivity |].
  assert (Hnot : ConfigManager.provider (IntelligentAIEngine.config e)
                 ∉ OrchestratorSpec.registered e).
  { apply Hiff. split; [reflexivity |]. intros (s & Hs & Hprefix).
    injection Hs as <-. discriminate Hprefix. }
  split; [exact Hprimary |]. split; [exact Hnot | exact (Honly Hnot)].
Defined.

(** ** Detection of the banking environment and the adapter factory *)

Lemma detect_loop_filter (env : Environment.t) (indicators systems : list string) :
  Environment.detect_loop env indicators systems
  = systems ++ (Environment.system_name
                  <$> filter (λ i, ConfigManager.truthy (Environment.getenv env i) = true)
                        indicators).
Proof.
  revert systems. induction indicators as [| i rest IH]; intros systems;
    cbn [Environment.detect_loop].
  - rewrite filter_nil. simpl. by rewrite app_nil_r.
  - destruct (ConfigManager.truthy (Environment.getenv env i)) eqn:Hset.
    + rewrite IH, filter_cons_True by done. by rewrite <- app_assoc.
    + rewrite IH, filter_cons_False; [done |]. by rewrite Hset.
Qed.

(** X15. What the detection of the banking environment leads to. The first
    indicator variable that is set decides: [FLEXCUBE_HOME] gives the
    Flexcube adapter and [FINACLE_PATH] the Finacle adapter, while
    [T24_HOME], [CORE_BANKING_SYSTEM] and [BANKING_API_URL] give the names
    ['t24'], ['core_banking_system'] and ['banking_api'], which the factory
    does not know and answers with the simulation, although the
    configuration then says [simulation_mode] false. So the detection never
    creates the Temenos or the custom API adapter. When no indicator is
    set, the configured core system decides and [simulation_mode] is
    true. *)
Theorem detected_environment_selects_adapter (env : Environment.t)
    (c : Environment.config) :
  let set i := ConfigManager.truthy (Environment.getenv env i) in
  let c' := (BankSystemFactory._initialize_system env c).1 in
  let k := (BankSystemFactory._initialize_system env c).2 in
  let banking := Environment.banking_section c' in
  (if set "T24_HOME" then
     k = BankSystemFactory.SimulationSystemClass
     ∧ Environment.core_system banking = "t24"
     ∧ Environment.simulation_mode banking = false
   else if set "FLEXCUBE_HOME" then
     k = BankSystemFactory.FlexcubeSystemClass
     ∧ Environment.simulation_mode banking = false
   else if set "FINACLE_PATH" then
     k = BankSystemFactory.FinacleSystemClass
     ∧ Environment.simulation_mode banking = false
   else if set "CORE_BANKING_SYSTEM" then
     k = BankSystemFactory.SimulationSystemClass
     ∧ Environment.core_system banking = "core_banking_system"
     ∧ Environment.simulation_mode banking = false
   else if set "BANKING_API_URL" then
     k = BankSystemFactory.SimulationSystemClass
     ∧ Environment.core_system banking = "banking_api"
     ∧ Environment.simulation_mode banking = false
   else
     k = BankSystemFactory.create_system c None
     ∧ Environment.core_system banking
       = Environment.core_system (Environment.banking_section c)
     ∧ Environment.simulation_mode banking = true)
  ∧ (Environment._detect_banking_systems env ≠ [] →
     k ≠ BankSystemFactory.TemenosSystemClass ∧ k ≠ BankSystemFactory.CustomAPISystemClass).
Proof.
  intros set c' k banking.
  subst banking k c'. unfold BankSystemFactory._initialize_system. simpl.
  unfold BankSystemFactory.create_system, Environment.auto_detect_environment. simpl.
  unfold Environment._detect_banking_systems.
  rewrite detect_loop_filter. simpl.
  unfold Environment.banking_indicators.
  subst set. cbv beta.
  destruct (ConfigManager.truthy (Environment.getenv env "T24_HOME")) eqn:H1.
  { rewrite filter_cons_True by done.
    destruct (ConfigManager.truthy (Environment.getenv env "BANKING_API_URL"));
      (split; [by repeat split | intros _; split; discriminate]). }
  rewrite filter_cons_False by (by rewrite H1).
  destruct (ConfigManager.truthy (Environment.getenv env "FLEXCUBE_HOME")) eqn:H2.
  { rewrite filter_cons_True by done.
    destruct (ConfigManager.truthy (Environment.getenv env "BANKING_API_URL"));
      (split; [by repeat split | intros _; split; discriminate]). }
  rewrite filter_cons_False by (by rewrite H2).
  destruct (ConfigManager.truthy (Environment.getenv env "FINACLE_PATH")) eqn:H3.
  { rewrite filter_cons_True by done.
    destruct (ConfigManager.truthy (Environment.getenv env "BANKING_API_URL"));
      (split; [by repeat split | intros _; split; discriminate]). }
  rewrite filter_cons_False by (by rewrite H3).
  destruct (ConfigManager.truthy (Environment.getenv env "CORE_BANKING_SYSTEM")) eqn:H4.
  { rewrite filter_cons_True by done.
    destruct (ConfigManager.truthy (Environment.getenv env "BANKING_API_URL"));
      (split; [by repeat split | intros _; split; discriminate]). }
  rewrite filter_cons_False by (by rewrite H4).
  destruct (ConfigManager.truthy (Environment.getenv env "BANKING_API_URL")) eqn:H5.
  { rewrite filter_cons_True by done.
    split; [by repeat split | intros _; split; discriminate]. }
  rewrite filter_cons_False by (by rewrite H5).
  rewrite filter_nil. simpl. split; [by repeat split | by intros Hne].
Qed.

Lemma flexcube_environment_sample :
  BankSystemFactory._initialize_system MoreSamples.flexcube_environment
    Environment.default_config
  = ({| Environment.base :=
          Environment.set_ai_provider_setting "local" ConfigManager.default_config;
        Environment.banking_section :=
          {| Environment.simulation_mode := false;
             Environment.core_system := "flexcube";
             Environment.integration_type := "api";
             Environment.auto_detect_changes := true |} |},
     BankSystemFactory.FlexcubeSystemClass)
  ∧ (BankSystemFactory._initialize_system MoreSamples.t24_environment
       Environment.default_config).2 = BankSystemFactory.SimulationSystemClass.
Proof.
  split; [vm_compute; reflexivity |].
  pose proof (detected_environment_selects_adapter MoreSamples.t24_environment
                Environment.default_config) as [H _].
  exact (proj1 H).
Defined.

(** ** The form of an alert identifier *)

Lemma string_length_append (s1 s2 : string) :
  String.length (s1 +:+ s2) = (String.length s1 + String.length s2)%nat.
Proof.
  induction s1 as [| c s1 IH]; [reflexivity |].
  change (String c s1 +:+ s2) with (String c (s1 +:+ s2)).
  cbn [String.length]. by rewrite IH.
Qed.

Lemma string_length_zeros (k : nat) : String.length (zeros k) = k.
Proof. induction k as [| k IH]; [reflexivity |]. cbn [zeros String.length]. by rewrite IH. Qed.

(** X16. The identifier that [_submit_alert] builds for the counter value
    [n] can be read back: after the prefix [ALERT_] its digits denote [n],
    with or without leading zeros. The identifier has twelve characters as
    long as [n] has at most six digits and grows with the digits of [n]
    beyond that: nothing is cut off. *)
Theorem alert_id_reads_back_and_has_width (n : nat) (now : string)
    (result : UltimateAMLAssistant.AnalysisResult) :
  let id := alert_id (UltimateAMLAssistant.alert_data_of n now result) in
  let digits := NilEmpty.string_of_uint (Nat.to_uint n) in
  AlertSpec.parse_alert_id id = Some n
  ∧ String.length id = (6 + Nat.max 6 (String.length digits))%nat.
Proof.
  intros id digits. subst id. cbn [alert_id UltimateAMLAssistant.alert_data_of].
  change ("ALERT_" +:+ format_06d n)
    with (String "A" (String "L" (String "E" (String "R" (String "T" (String "_"
            (format_06d n))))))).
  split.
  - cbn [AlertSpec.parse_alert_id]. apply number_of_format_06d.
  - cbn [String.length]. unfold format_06d. fold digits.
    rewrite string_length_append, string_length_zeros. lia.
Qed.

(** ** Monotonicity of the confidence *)

Lemma complexity_factor_monotone (n m : nat) :
  (n ≤ m)%nat →
  (Qmin (inject_Z (Z.of_nat n) / 10) 1.0 <= Qmin (inject_Z (Z.of_nat m) / 10) 1.0)%Q.
Proof.
  intros Hnm. apply Q.min_le_compat_r.
  unfold Qdiv. apply Qmult_le_compat_r; [| discriminate].
  rewrite <- Zle_Qle. lia.
Qed.

(** X17. For one backend, the adjusted confidence does not decrease when
    the base confidence or the number of risk factors grows; and from ten
    risk factors on, more factors change nothing. *)
Theorem confidence_is_monotone (e : IntelligentAIEngine.t) (r1 r2 : Assessment) :
  ai_provider r1 = ai_provider r2 →
  (default 0.5%Q (confidence r1) <= default 0.5%Q (confidence r2))%Q →
  (length (default [] (risk_factors r1)) ≤ length (default [] (risk_factors r2)))%nat →
  (IntelligentAIEngine._calculate_confidence e r1
   <= IntelligentAIEngine._calculate_confidence e r2)%Q
  ∧ ((10 ≤ length (default [] (risk_factors r1)))%nat →
     default 0.5%Q (confidence r1) == default 0.5%Q (confidence r2) →
     IntelligentAIEngine._calculate_confidence e r1
     == IntelligentAIEngine._calculate_confidence e r2).
Proof.
  intros Hprovider Hbase Hcount.
  unfold IntelligentAIEngine._calculate_confidence. rewrite Hprovider.
  set (performance := default 0.8%Q _).
  split.
  - apply Q.min_le_compat_r. apply Qplus_le_compat; [apply Qplus_le_compat |].
    + apply Qmult_le_compat_r; [exact Hbase | discriminate].
    + apply Qle_refl.
    + apply Qmult_le_compat_r; [by apply complexity_factor_monotone | discriminate].
  - intros Hten Hsame.
    assert (Hsaturated : ∀ n, (10 ≤ n)%nat → Qmin (inject_Z (Z.of_nat n) / 10) 1.0 == 1.0).
    { intros n Hn. apply Q.min_r. apply Qle_shift_div_l; [reflexivity |].
      apply Qle_trans with (inject_Z 10); [discriminate |]. rewrite <- Zle_Qle. lia. }
    rewrite !Hsaturated by lia. by rewrite Hsame.
Qed.

Lemma confidence_monotone_sample :
  (IntelligentAIEngine._calculate_confidence Samples.default_engine EngineSpec.local_raw
   <= IntelligentAIEngine._calculate_confidence Samples.default_engine
        (set_confidence 0.9 EngineSpec.local_raw))%Q.
Proof.
  apply (confidence_is_monotone Samples.default_engine EngineSpec.local_raw
           (set_confidence 0.9 EngineSpec.local_raw)).
  - reflexivity.
  - discriminate.
  - simpl. lia.
Defined.

(** ** Provenance and recording go together *)

Lemma store_returns_appends cm now transaction_data customer_data result
    (e e2 : IntelligentAIEngine.t) u :
  IntelligentAIEngine._store_analysis_result cm now transaction_data customer_data result e
  = (Returned u, e2) →
  last (IntelligentAIEngine.learning_memory e2)
  = Some (EngineSpec.entry_for now transaction_data customer_data result).
Proof.
  rewrite store_analysis_result_cases. simpl.
  destruct (decide _) as [Hfull | Hroom];
    [destruct (IntelligentAIEngine.learning_memory e) as [| oldest rest];
       [discriminate |] |];
    intros [= _ <-]; simpl; apply last_snoc.
Qed.

(** An attempt that returns has recorded what it returns. *)
Lemma attempt_returns_recorded cm now name p transaction_data customer_data
    (e e1 : IntelligentAIEngine.t) r :
  IntelligentAIEngine.primary_body cm now name p transaction_data customer_data e
  = (Returned r, e1)
  ∨ IntelligentAIEngine.fallback_body cm now name p transaction_data customer_data e
    = (Returned r, e1) →
  last (IntelligentAIEngine.learning_memory e1)
  = Some (EngineSpec.entry_for now transaction_data customer_data r).
Proof.
  rewrite primary_body_cases, fallback_body_cases. cbv zeta. intros Hbody.
  destruct p as [prov |]; cbv iota beta in Hbody;
    [| destruct Hbody as [H | H]; discriminate H].
  destruct (analyze prov transaction_data customer_data) as [[d |] | ex];
    cbv iota beta in Hbody;
    [| destruct Hbody as [H | H]; discriminate H
     | destruct Hbody as [H | H]; discriminate H].
  destruct Hbody as [H | H];
    destruct (IntelligentAIEngine._store_analysis_result _ _ _ _ _ _) as [[u | ex] e2]
      eqn:Hstore;
    try discriminate H; injection H as <- <-;
    by apply store_returns_appends in Hstore.
Qed.

Lemma fallback_loop_recorded cm now primary transaction_data customer_data
    (items : list (string * option Provider)) :
  ∀ (e e' : IntelligentAIEngine.t) o,
    IntelligentAIEngine.fallback_loop cm now primary items transaction_data customer_data e
    = (Returned o, e') →
    match o with
    | Some r =>
        last (IntelligentAIEngine.learning_memory e')
        = Some (EngineSpec.entry_for now transaction_data customer_data r)
        ∧ ∃ name, name ∈ items.*1 ∧ ai_provider r = Some name
    | None =>
        IntelligentAIEngine.learning_memory e' = IntelligentAIEngine.learning_memory e
    end.
Proof.
  induction items as [| [name p] items IH]; intros e e' o; simpl.
  - by intros [= <- <-].
  - destruct (decide (name ≠ primary)) as [Hother | Hprimary].
    + unfold mbind at 1, M_bind at 1, try_except, mbind at 1, M_bind at 1.
      destruct (IntelligentAIEngine.fallback_body cm now name p
                  transaction_data customer_data e) as [[r | ex] e1] eqn:Hbody.
      * intros [= <- <-]. split.
        -- apply (attempt_returns_recorded cm now name p transaction_data customer_data e).
           by right.
        -- exists name. split; [apply elem_of_cons; by left |].
           by apply fallback_body_returns in Hbody as (_ & ? & _).
      * apply fallback_body_raises in Hbody as ->. simpl. intros Hrest.
        apply IH in Hrest. destruct o as [r |]; [| exact Hrest].
        destruct Hrest as (Hlast & name' & Hin & Hprov).
        split; [exact Hlast |]. exists name'. split; [apply elem_of_cons; by right | done].
    + intros Hrest. apply IH in Hrest. destruct o as [r |]; [| exact Hrest].
      destruct Hrest as (Hlast & name' & Hin & Hprov).
      split; [exact Hlast |]. exists name'. split; [apply elem_of_cons; by right | done].
Qed.

(** How a request can end, for an engine whose ['local'] backend is the
    local provider. *)
Lemma analyze_transaction_recorded_or_raw cm now transaction_data customer_data
    (e e' : IntelligentAIEngine.t) r :
  dict_get "local" (IntelligentAIEngine.available_providers e)
  = Some (Some LocalIntelligenceProvider.provider) →
  IntelligentAIEngine.analyze_transaction cm now transaction_data customer_data e
  = (Returned (Some r), e') →
  (∃ name, ai_provider r = Some name ∧ name ∈ OrchestratorSpec.registered e)
  ∧ last (IntelligentAIEngine.learning_memory e')
    = Some (EngineSpec.entry_for now transaction_data customer_data r)
  ∨ r = EngineSpec.local_raw
    ∧ IntelligentAIEngine.learning_memory e' = IntelligentAIEngine.learning_memory e.
Proof.
  intros Hlocal. rewrite analyze_transaction_cases. simpl.
  set (primary := ConfigManager.provider (IntelligentAIEngine.config e)).
  assert (Hrest : ∀ e1,
    IntelligentAIEngine.learning_memory e1 = IntelligentAIEngine.learning_memory e →
    match IntelligentAIEngine.fallback_loop cm now primary
            (IntelligentAIEngine.available_providers e)
            transaction_data customer_data e1 with
    | (Returned (Some r), e2) => (Returned (Some r), e2)
    | (Returned None, e2) =>
        match dict_get "local" (IntelligentAIEngine.available_providers e) with
        | None => (Raised KeyError, e2)
        | Some p =>
            IntelligentAIEngine.call_analyze "local" p transaction_data customer_data e2
        end
    | (Raised ex, e2) => (Raised ex, e2)
    end = (Returned (Some r), e') →
    (∃ name, ai_provider r = Some name ∧ name ∈ OrchestratorSpec.registered e)
    ∧ last (IntelligentAIEngine.learning_memory e')
      = Some (EngineSpec.entry_for now transaction_data customer_data r)
    ∨ r = EngineSpec.local_raw
      ∧ IntelligentAIEngine.learning_memory e' = IntelligentAIEngine.learning_memory e).
  { intros e1 He1.
    destruct (IntelligentAIEngine.fallback_loop _ _ _ _ _ _ e1) as [[o2 | ex] e2] eqn:Hloop;
      [| discriminate].
    apply fallback_loop_recorded in Hloop. destruct o2 as [r2 |].
    - intros [= <- <-]. left. destruct Hloop as (Hlast & name & Hin & Hprov).
      split; [by exists name | exact Hlast].
    - rewrite Hlocal. intros Hcall. apply call_analyze_logs in Hcall as [-> Hraw].
      right. split; [by injection Hraw as -> | simpl; congruence]. }
  destruct (dict_get primary (IntelligentAIEngine.available_providers e)) as [p |] eqn:Hget.
  - destruct (IntelligentAIEngine.primary_body _ _ _ _ _ _ _) as [[r1 | ex] e1] eqn:Hbody.
    + intros [= <- <-]. left. split.
      * exists primary. split; [by apply primary_body_returns in Hbody as (_ & ?) |].
        apply dict_get_elem_of in Hget. unfold OrchestratorSpec.registered.
        apply list_elem_of_fmap. by exists (primary, p).
      * apply (attempt_returns_recorded cm now primary p transaction_data customer_data e).
        by left.
    + apply primary_body_raises in Hbody as ->. by apply Hrest.
  - by apply Hrest.
Qed.

(** X18. With the local provider registered as ['local'], a request ends in
    one of two ways. Either the returned assessment names a registered
    backend in ['ai_provider'] and is the result of the entry appended last
    to the learning store; or it is the raw result of the last call on the
    local provider, without ['ai_provider'], and the learning store is
    unchanged. So an assessment is recorded exactly when it carries a
    backend identifier. *)
Theorem result_recorded_iff_identified cm now transaction_data customer_data
    (e e' : IntelligentAIEngine.t) r :
  dict_get "local" (IntelligentAIEngine.available_providers e)
  = Some (Some LocalIntelligenceProvider.provider) →
  IntelligentAIEngine.analyze_transaction cm now transaction_data customer_data e
  = (Returned (Some r), e') →
  (∃ name, ai_provider r = Some name ∧ name ∈ OrchestratorSpec.registered e)
  ∧ last (IntelligentAIEngine.learning_memory e')
    = Some (EngineSpec.entry_for now transaction_data customer_data r)
  ∨ r = EngineSpec.local_raw
    ∧ IntelligentAIEngine.learning_memory e' = IntelligentAIEngine.learning_memory e.
Proof.
  apply analyze_transaction_recorded_or_raw.
Qed.

Lemma result_recorded_sample :
  let run := IntelligentAIEngine.analyze_transaction ConfigManager.default_config
               "2024-01-15T10:00:00" Samples.demo_normal None Samples.default_engine in
  ∃ r, run.1 = Returned (Some r)
       ∧ ((∃ name, ai_provider r = Some name
                   ∧ name ∈ OrchestratorSpec.registered Samples.default_engine)
          ∧ last (IntelligentAIEngine.learning_memory run.2)
            = Some (EngineSpec.entry_for "2024-01-15T10:00:00" Samples.demo_normal None r)
          ∨ r = EngineSpec.local_raw
            ∧ IntelligentAIEngine.learning_memory run.2
              = IntelligentAIEngine.learning_memory Samples.default_engine).
Proof.
  intros run.
  assert (Hrun : ∃ r, run.1 = Returned (Some r)) by (vm_compute; by eexists).
  destruct Hrun as [r Hr]. exists r. split; [exact Hr |].
  apply (result_recorded_iff_identified ConfigManager.default_config
           "2024-01-15T10:00:00" Samples.demo_normal None Samples.default_engine run.2 r).
  - reflexivity.
  - rewrite <- Hr. subst run. apply surjective_pairing.
Defined.

(** X19. Recording and feedback fit together: after a request for a
    transaction with an id has returned an assessment that carries a
    backend identifier, a feedback call for that id finds an entry, so that
    afterwards the learning store holds an entry of that transaction id
    with this feedback. *)
Theorem feedback_finds_recorded_analysis cm now transaction_data customer_data
    (tid : string) (fb : Assessment) (e e' : IntelligentAIEngine.t) r name :
  dict_get "local" (IntelligentAIEngine.available_providers e)
  = Some (Some LocalIntelligenceProvider.provider) →
  tx_transaction_id transaction_data = Some tid →
  IntelligentAIEngine.analyze_transaction cm now transaction_data customer_data e
  = (Returned (Some r), e') →
  ai_provider r = Some name →
  ∃ e'' entry,
    IntelligentAIEngine.learn_from_feedback tid fb e' = (Returned tt, e'')
    ∧ entry ∈ IntelligentAIEngine.learning_memory e''
    ∧ tx_transaction_id (le_transaction entry) = Some tid
    ∧ le_feedback entry = Some fb.
Proof.
  intros Hlocal Htid Hrun Hname.
  destruct (analyze_transaction_recorded_or_raw cm now transaction_data customer_data
              e e' r Hlocal Hrun) as [[_ Hlast] | [-> _]]; [| discriminate Hname].
  destruct (attach_feedback_first_match tid fb (IntelligentAIEngine.learning_memory e'))
    as [[Hnone _] | (before & hit & after & Hmem & _ & Hhit & Heq)].
  - apply last_Some in Hlast as (rest & Hmem). rewrite Hmem in Hnone.
    apply Forall_app in Hnone as [_ Hnew]. rewrite Forall_singleton in Hnew.
    exfalso. apply Hnew. exact Htid.
  - eexists. exists (set_feedback fb hit). split; [reflexivity |]. simpl. rewrite Heq.
    split; [| split; [exact Hhit | reflexivity]].
    apply elem_of_app. right. apply elem_of_cons. by left.
Qed.

Lemma feedback_finds_recorded_analysis_sample :
  let run := IntelligentAIEngine.analyze_transaction ConfigManager.default_config
               "2024-01-15T10:00:00" Samples.demo_normal None Samples.default_engine in
  ∃ e'' entry,
    IntelligentAIEngine.learn_from_feedback "DEMO_NORMAL_001" Samples.corrected_assessment
      run.2 = (Returned tt, e'')
    ∧ entry ∈ IntelligentAIEngine.learning_memory e''
    ∧ tx_transaction_id (le_transaction entry) = Some "DEMO_NORMAL_001"
    ∧ le_feedback entry = Some Samples.corrected_assessment.
Proof.
  intros run.
  assert (Hrun : ∃ r, run.1 = Returned (Some r) ∧ ai_provider r = Some "local")
    by (vm_compute; by eexists).
  destruct Hrun as (r & Hr & Hname).
  apply (feedback_finds_recorded_analysis ConfigManager.default_config
           "2024-01-15T10:00:00" Samples.demo_normal None "DEMO_NORMAL_001"
           Samples.corrected_assessment Samples.default_engine run.2 r "local").
  - reflexivity.
  - reflexivity.
  - rewrite <- Hr. subst run. apply surjective_pairing.
  - exact Hname.
Defined.
